(** * NII-Annotator: slice navigation and annotation bookkeeping

    A shallow embedding of [annotator.py].  The window class [NiiExplorer]
    keeps its session in attributes and Qt widgets; here the session is one
    record, every handler is a function from sessions to results, and the
    signals the widgets emit are calls of the connected slot.

    Python values are dynamically typed: [self.annotations] holds whatever
    [json.load] returned.  They are modelled by the tree type [Json], and
    the operations the handlers apply to them ([in], subscripting, [get],
    [append], [sort]) raise the exception Python raises when the value has
    the wrong shape. *)

From Stdlib Require Import String Ascii List ZArith NArith Bool Lia.
From Stdlib Require Import DecimalN DecimalZ DecimalFacts.
From Stdlib Require Import Sorted Permutation.
Import ListNotations.
Local Open Scope Z_scope.

(** ** Results of running Python code *)

Inductive exn : Type :=
| AttributeError
| TypeError
| KeyError
| IndexError
| FileNotFoundError
| ImageFileError
| SystemExit.

(** [Ok] is normal completion, [Raise] an exception that leaves the handler.
    [OutOfModel] marks the few evaluations that need floating-point
    arithmetic (comparing or ordering a float that came out of a JSON
    file) or the bytes of an image file read as text. *)
Inductive result (A : Type) : Type :=
| Ok (a : A)
| Raise (e : exn)
| OutOfModel.

Arguments Ok {A} a.
Arguments Raise {A} e.
Arguments OutOfModel {A}.

Definition bind {A B : Type} (m : result A) (k : A -> result B) : result B :=
  match m with
  | Ok a => k a
  | Raise e => Raise e
  | OutOfModel => OutOfModel
  end.

Notation "x <- m ;; k" := (bind m (fun x => k))
  (at level 61, m at next level, right associativity).
Notation "m ;;; k" := (bind m k)
  (at level 61, right associativity).

(** ** Python strings

    A [str] is a sequence of code points. *)

Definition pystr : Type := list N.

Definition u (s : string) : pystr := map N_of_ascii (list_ascii_of_string s).
Arguments u s%_string.

Fixpoint str_eqb (a b : pystr) : bool :=
  match a, b with
  | [], [] => true
  | x :: a', y :: b' => N.eqb x y && str_eqb a' b'
  | _, _ => false
  end.

Fixpoint startswith (s p : pystr) {struct p} : bool :=
  match p with
  | [] => true
  | y :: p' =>
      match s with
      | [] => false
      | x :: s' => N.eqb x y && startswith s' p'
      end
  end.

Definition endswith (s p : pystr) : bool := startswith (rev s) (rev p).

(** [a in b] for two strings: [a] occurs in [b] as a contiguous run. *)
Fixpoint str_contains (b a : pystr) : bool :=
  startswith b a ||
  match b with
  | [] => false
  | _ :: b' => str_contains b' a
  end.

(** Lexicographic order on code points, the order [sorted] uses on [str]. *)
Fixpoint str_leb (a b : pystr) : bool :=
  match a, b with
  | [], _ => true
  | _ :: _, [] => false
  | x :: a', y :: b' =>
      if N.ltb x y then true
      else if N.eqb x y then str_leb a' b' else false
  end.

Fixpoint insert_str (x : pystr) (l : list pystr) : list pystr :=
  match l with
  | [] => [x]
  | y :: l' => if str_leb x y then x :: l else y :: insert_str x l'
  end.

Definition sorted_strs (l : list pystr) : list pystr :=
  fold_right insert_str [] l.

(** ** Python values as [json.load] builds them *)

Unset Elimination Schemes.
Inductive Json : Type :=
| JNull
| JBool (b : bool)
| JInt (z : Z)
| JFloat (lexeme : pystr)
| JStr (s : pystr)
| JList (l : list Json)
| JDict (d : list (pystr * Json)).
Set Elimination Schemes.

(** A [dict] keeps its keys in insertion order; assigning to a key that is
    present replaces the value where it stands. *)
Definition pydict : Type := list (pystr * Json).

Fixpoint dict_get (k : pystr) (d : pydict) : option Json :=
  match d with
  | [] => None
  | (k', v) :: d' => if str_eqb k k' then Some v else dict_get k d'
  end.

Definition dict_mem (k : pystr) (d : pydict) : bool :=
  match dict_get k d with Some _ => true | None => false end.

Fixpoint dict_set (k : pystr) (v : Json) (d : pydict) : pydict :=
  match d with
  | [] => [(k, v)]
  | (k', v') :: d' =>
      if str_eqb k k' then (k', v) :: d' else (k', v') :: dict_set k v d'
  end.

(** [key in obj] for a string key. *)
Definition py_contains_str (obj : Json) (key : pystr) : result bool :=
  match obj with
  | JDict d => Ok (dict_mem key d)
  | JList l =>
      Ok (existsb (fun e => match e with JStr s => str_eqb key s | _ => false end) l)
  | JStr s => Ok (str_contains s key)
  | _ => Raise TypeError
  end.

(** [idx == e] for an int [idx], while scanning a list for [idx in l]. *)
Fixpoint list_contains_int (idx : Z) (l : list Json) : result bool :=
  match l with
  | [] => Ok false
  | e :: l' =>
      match e with
      | JInt z => if Z.eqb idx z then Ok true else list_contains_int idx l'
      | JBool b => if Z.eqb idx (Z.b2z b) then Ok true else list_contains_int idx l'
      | JFloat _ => OutOfModel
      | _ => list_contains_int idx l'
      end
  end.

(** [idx in obj] for an int [idx]. *)
Definition py_contains_int (obj : Json) (idx : Z) : result bool :=
  match obj with
  | JList l => list_contains_int idx l
  | JDict _ => Ok false
  | _ => Raise TypeError
  end.

(** [obj[key]] for a string key. *)
Definition py_getitem (obj : Json) (key : pystr) : result Json :=
  match obj with
  | JDict d =>
      match dict_get key d with
      | Some v => Ok v
      | None => Raise KeyError
      end
  | _ => Raise TypeError
  end.

(** [obj[key] = v] for a string key. *)
Definition py_setitem (obj : Json) (key : pystr) (v : Json) : result Json :=
  match obj with
  | JDict d => Ok (JDict (dict_set key v d))
  | _ => Raise TypeError
  end.

(** [obj.get(key, default)]. *)
Definition py_get (obj : Json) (key : pystr) (default : Json) : result Json :=
  match obj with
  | JDict d =>
      match dict_get key d with
      | Some v => Ok v
      | None => Ok default
      end
  | _ => Raise AttributeError
  end.

(** [obj.append(x)]. *)
Definition py_append (obj : Json) (x : Json) : result Json :=
  match obj with
  | JList l => Ok (JList (l ++ [x]))
  | _ => Raise AttributeError
  end.

Definition num_key (j : Json) : option Z :=
  match j with
  | JInt z => Some z
  | JBool b => Some (Z.b2z b)
  | _ => None
  end.

Definition is_num (j : Json) : bool :=
  match num_key j with Some _ => true | None => false end.

Definition is_float (j : Json) : bool :=
  match j with JFloat _ => true | _ => false end.

Definition key_leb (x y : Json) : bool :=
  match num_key x, num_key y with
  | Some a, Some b => Z.leb a b
  | _, _ => true
  end.

Fixpoint insert_num (x : Json) (l : list Json) : list Json :=
  match l with
  | [] => [x]
  | y :: l' => if key_leb x y then x :: l else y :: insert_num x l'
  end.

(** The stable ascending sort of a list of ints (and bools, which are ints
    in Python). *)
Definition sort_nums (l : list Json) : list Json := fold_right insert_num [] l.

(** [obj.sort()].  Ordering an int against [None], a string, a list or a
    dict raises [TypeError]; a list without any number in it is never
    sorted by the program and is left out. *)
Definition py_sort (obj : Json) : result Json :=
  match obj with
  | JList l =>
      if existsb is_float l then OutOfModel
      else if forallb is_num l then Ok (JList (sort_nums l))
      else if existsb is_num l then Raise TypeError
      else OutOfModel
  | _ => Raise AttributeError
  end.

(** Truth value of an object, as [pages if pages else 'N/A'] tests it. *)
Definition py_truthy (obj : Json) : result bool :=
  match obj with
  | JNull => Ok false
  | JBool b => Ok b
  | JInt z => Ok (negb (Z.eqb z 0))
  | JFloat _ => OutOfModel
  | JStr [] => Ok false
  | JStr _ => Ok true
  | JList [] => Ok false
  | JList _ => Ok true
  | JDict [] => Ok false
  | JDict _ => Ok true
  end.

(** ** The [json] codec

    [json.dump(obj, f, indent=4)] and [json.load(f)] as CPython implements
    them, on text given as code points.  Characters are written by code:
    34 is the double quote, 92 the backslash, 117 the letter u, 44 the
    comma, 58 the colon, 91/93 the brackets, 123/125 the braces, 10 the
    newline, 32 the space. *)

Local Open Scope N_scope.

Definition hexdigit (d : N) : N := if d <? 10 then 48 + d else 87 + d.

(** ['{0:04x}'.format(n)] for [n < 0x10000]. *)
Definition hex4 (n : N) : pystr :=
  [hexdigit (n / 4096 mod 16); hexdigit (n / 256 mod 16);
   hexdigit (n / 16 mod 16); hexdigit (n mod 16)].

Definition u_escape (n : N) : pystr := 92 :: 117 :: hex4 n.

(** The replacement of one character by [py_encode_basestring_ascii]:
    printable ASCII stands for itself, the quote, the backslash and five
    control characters have short escapes, anything else is written
    [\uXXXX], above the basic plane as a surrogate pair
    ([0xd800 | (n >> 10) & 0x3ff], [0xdc00 | n & 0x3ff], written here
    with division and remainder). *)
Definition escape_char (c : N) : pystr :=
  if c =? 34 then [92; 34]
  else if c =? 92 then [92; 92]
  else if (32 <=? c) && (c <=? 126) then [c]
  else if c =? 8 then [92; 98]
  else if c =? 12 then [92; 102]
  else if c =? 10 then [92; 110]
  else if c =? 13 then [92; 114]
  else if c =? 9 then [92; 116]
  else if c <? 65536 then u_escape c
  else u_escape (55296 + ((c - 65536) / 1024) mod 1024)
         ++ u_escape (56320 + (c - 65536) mod 1024).

Definition encode_str (s : pystr) : pystr :=
  34 :: flat_map escape_char s ++ [34].

Fixpoint uint_chars (d : Decimal.uint) : pystr :=
  match d with
  | Decimal.Nil => []
  | Decimal.D0 d' => 48 :: uint_chars d'
  | Decimal.D1 d' => 49 :: uint_chars d'
  | Decimal.D2 d' => 50 :: uint_chars d'
  | Decimal.D3 d' => 51 :: uint_chars d'
  | Decimal.D4 d' => 52 :: uint_chars d'
  | Decimal.D5 d' => 53 :: uint_chars d'
  | Decimal.D6 d' => 54 :: uint_chars d'
  | Decimal.D7 d' => 55 :: uint_chars d'
  | Decimal.D8 d' => 56 :: uint_chars d'
  | Decimal.D9 d' => 57 :: uint_chars d'
  end.

(** [int.__repr__]. *)
Definition intstr (z : Z) : pystr :=
  match Z.to_int z with
  | Decimal.Pos d => uint_chars d
  | Decimal.Neg d => 45 :: uint_chars d
  end.

Definition newline_indent (level : nat) : pystr :=
  10 :: repeat 32 (4 * level)%nat.

(** [_iterencode] with [indent=4], item separator [","] and key separator
    [": "].  The lexeme of a float stands where its [repr] would be; see
    [json_dumps]. *)
Fixpoint encode (level : nat) (o : Json) : pystr :=
  match o with
  | JNull => u "null"
  | JBool true => u "true"
  | JBool false => u "false"
  | JInt z => intstr z
  | JFloat lx => lx
  | JStr s => encode_str s
  | JList [] => u "[]"
  | JList (x :: l) =>
      91 :: newline_indent (S level) ++ encode (S level) x
        ++ (fix items (l : list Json) : pystr :=
              match l with
              | [] => []
              | y :: l' =>
                  44 :: newline_indent (S level) ++ encode (S level) y ++ items l'
              end) l
        ++ newline_indent level ++ [93]
  | JDict [] => u "{}"
  | JDict ((k, v) :: d) =>
      123 :: newline_indent (S level) ++ encode_str k ++ [58; 32]
        ++ encode (S level) v
        ++ (fix items (d : pydict) : pystr :=
              match d with
              | [] => []
              | (k', v') :: d' =>
                  44 :: newline_indent (S level) ++ encode_str k' ++ [58; 32]
                    ++ encode (S level) v' ++ items d'
              end) d
        ++ newline_indent level ++ [125]
  end.

Fixpoint has_float (o : Json) : bool :=
  match o with
  | JFloat _ => true
  | JList l => existsb has_float l
  | JDict d => existsb (fun kv => has_float (snd kv)) d
  | _ => false
  end.

(** [json.dumps(obj, indent=4)]; the [repr] of a float is not modelled. *)
Definition json_dumps (o : Json) : result pystr :=
  if has_float o then OutOfModel else Ok (encode 0 o).

(** *** Decoding *)

Definition is_ws (c : N) : bool :=
  (c =? 32) || (c =? 9) || (c =? 10) || (c =? 13).

Fixpoint skip_ws (s : pystr) : pystr :=
  match s with
  | c :: r => if is_ws c then skip_ws r else s
  | [] => []
  end.

Definition hexval (c : N) : option N :=
  if (48 <=? c) && (c <=? 57) then Some (c - 48)
  else if (97 <=? c) && (c <=? 102) then Some (c - 87)
  else if (65 <=? c) && (c <=? 70) then Some (c - 55)
  else None.

Definition decode_hex4 (a b c d : N) : option N :=
  match hexval a, hexval b, hexval c, hexval d with
  | Some x, Some y, Some z, Some w => Some (x * 4096 + y * 256 + z * 16 + w)
  | _, _, _, _ => None
  end.

Definition is_high_surrogate (c : N) : bool := (55296 <=? c) && (c <=? 56319).
Definition is_low_surrogate (c : N) : bool := (56320 <=? c) && (c <=? 57343).

(** The character a one-letter escape stands for. *)
Definition unescape (e : N) : option N :=
  if e =? 34 then Some 34
  else if e =? 92 then Some 92
  else if e =? 47 then Some 47
  else if e =? 98 then Some 8
  else if e =? 102 then Some 12
  else if e =? 110 then Some 10
  else if e =? 114 then Some 13
  else if e =? 116 then Some 9
  else None.

Definition cons_char (c : N) (r : option (pystr * pystr)) : option (pystr * pystr) :=
  match r with
  | Some (s, rest) => Some (c :: s, rest)
  | None => None
  end.

(** [scanstring] in strict mode, entered after the opening quote: the
    decoded string and the text after the closing quote.  A [\uXXXX] that
    is a high surrogate joins a directly following [\uXXXX] low
    surrogate into one code point. *)
Fixpoint scanstring (s : pystr) : option (pystr * pystr) :=
  match s with
  | [] => None
  | c :: r =>
      if c =? 34 then Some ([], r)
      else if c =? 92 then
        match r with
        | [] => None
        | e :: r1 =>
            if e =? 117 then
              match r1 with
              | h1 :: h2 :: h3 :: h4 :: r2 =>
                  match decode_hex4 h1 h2 h3 h4 with
                  | None => None
                  | Some uni =>
                      if is_high_surrogate uni then
                        match r2 with
                        | b :: l :: g1 :: g2 :: g3 :: g4 :: r3 =>
                            if (b =? 92) && (l =? 117) then
                              match decode_hex4 g1 g2 g3 g4 with
                              | None => None
                              | Some uni2 =>
                                  if is_low_surrogate uni2
                                  then cons_char
                                         (65536 + (uni - 55296) * 1024 + (uni2 - 56320))
                                         (scanstring r3)
                                  else cons_char uni (scanstring r2)
                              end
                            else cons_char uni (scanstring r2)
                        | _ => cons_char uni (scanstring r2)
                        end
                      else cons_char uni (scanstring r2)
                  end
              | _ => None
              end
            else
              match unescape e with
              | Some ch => cons_char ch (scanstring r1)
              | None => None
              end
        end
      else if c <=? 31 then None
      else cons_char c (scanstring r)
  end.

Definition digit_of (c : N) : option (Decimal.uint -> Decimal.uint) :=
  if c =? 48 then Some Decimal.D0
  else if c =? 49 then Some Decimal.D1
  else if c =? 50 then Some Decimal.D2
  else if c =? 51 then Some Decimal.D3
  else if c =? 52 then Some Decimal.D4
  else if c =? 53 then Some Decimal.D5
  else if c =? 54 then Some Decimal.D6
  else if c =? 55 then Some Decimal.D7
  else if c =? 56 then Some Decimal.D8
  else if c =? 57 then Some Decimal.D9
  else None.

Definition is_digit (c : N) : bool :=
  match digit_of c with Some _ => true | None => false end.

(** The longest run of digits at the head of the text. *)
Fixpoint scan_digits (s : pystr) : Decimal.uint * pystr :=
  match s with
  | [] => (Decimal.Nil, [])
  | c :: r =>
      match digit_of c with
      | Some D => let (d, r') := scan_digits r in (D d, r')
      | None => (Decimal.Nil, s)
      end
  end.

(** The fraction [.digits] of a number, when one follows. *)
Definition scan_frac (s : pystr) : option pystr :=
  match s with
  | c :: d :: _ =>
      if (c =? 46) && is_digit d then Some (snd (scan_digits (tl s))) else None
  | _ => None
  end.

(** The exponent [e], [e+] or [e-] and digits, when one follows. *)
Definition scan_exp (s : pystr) : option pystr :=
  match s with
  | c :: r =>
      if (c =? 101) || (c =? 69) then
        let r1 := match r with
                  | sg :: r' => if (sg =? 43) || (sg =? 45) then r' else r
                  | [] => r
                  end in
        match r1 with
        | d :: _ => if is_digit d then Some (snd (scan_digits r1)) else None
        | [] => None
        end
      else None
  | [] => None
  end.

(** [_match_number]: an optional minus sign, then either a single 0 or a
    run of digits that starts with 1 to 9, gives an int; with a fraction
    or an exponent the number is a float, kept as its lexeme. *)
Definition match_number (s : pystr) : option (Json * pystr) :=
  let (neg, s1) := match s with
                   | c :: r => if c =? 45 then (true, r) else (false, s)
                   | [] => (false, s)
                   end in
  match s1 with
  | [] => None
  | c :: r =>
      let intpart :=
        if c =? 48 then Some (Decimal.D0 Decimal.Nil, r)
        else if is_digit c then Some (scan_digits s1)
        else None in
      match intpart with
      | None => None
      | Some (d, r1) =>
          let r2 := match scan_frac r1 with Some r' => r' | None => r1 end in
          let r3 := match scan_exp r2 with Some r' => r' | None => r2 end in
          match scan_frac r1, scan_exp r2 with
          | None, None =>
              Some (JInt (Z.of_int (if neg then Decimal.Neg d else Decimal.Pos d)), r1)
          | _, _ =>
              Some (JFloat (firstn (length s - length r3) s), r3)
          end
      end
  end.

(** [dict(pairs)]: a key that comes again overwrites its value. *)
Definition dict_of_pairs (ps : list (pystr * Json)) : pydict :=
  fold_left (fun d kv => dict_set (fst kv) (snd kv) d) ps [].

(** [scan_once], [_parse_array] after the first value position and
    [_parse_object] after the first key position.  One unit of fuel is
    spent per nested value or per element; the length of the text
    is always enough. *)
Fixpoint scan_once (fuel : nat) (s : pystr) : option (Json * pystr) :=
  match fuel with
  | O => None
  | S fuel' =>
      match s with
      | [] => None
      | c :: r =>
          if c =? 34 then
            match scanstring r with
            | Some (str, r') => Some (JStr str, r')
            | None => None
            end
          else if c =? 123 then
            match skip_ws r with
            | c1 :: r1 =>
                if c1 =? 125 then Some (JDict [], r1)
                else
                  match parse_members fuel' (skip_ws r) with
                  | Some (ps, r2) => Some (JDict (dict_of_pairs ps), r2)
                  | None => None
                  end
            | [] => None
            end
          else if c =? 91 then
            match skip_ws r with
            | c1 :: r1 =>
                if c1 =? 93 then Some (JList [], r1)
                else
                  match parse_items fuel' (skip_ws r) with
                  | Some (vs, r2) => Some (JList vs, r2)
                  | None => None
                  end
            | [] => None
            end
          else if startswith s (u "null") then Some (JNull, skipn 4 s)
          else if startswith s (u "true") then Some (JBool true, skipn 4 s)
          else if startswith s (u "false") then Some (JBool false, skipn 5 s)
          else if startswith s (u "NaN") then Some (JFloat (u "NaN"), skipn 3 s)
          else if startswith s (u "Infinity") then
            Some (JFloat (u "Infinity"), skipn 8 s)
          else if startswith s (u "-Infinity") then
            Some (JFloat (u "-Infinity"), skipn 9 s)
          else match_number s
      end
  end
with parse_items (fuel : nat) (s : pystr) : option (list Json * pystr) :=
  match fuel with
  | O => None
  | S fuel' =>
      match scan_once fuel' s with
      | None => None
      | Some (v, r) =>
          match skip_ws r with
          | c :: r1 =>
              if c =? 93 then Some ([v], r1)
              else if c =? 44 then
                match parse_items fuel' (skip_ws r1) with
                | Some (vs, r2) => Some (v :: vs, r2)
                | None => None
                end
              else None
          | [] => None
          end
      end
  end
with parse_members (fuel : nat) (s : pystr) : option (list (pystr * Json) * pystr) :=
  match fuel with
  | O => None
  | S fuel' =>
      match s with
      | [] => None
      | q :: r =>
          if q =? 34 then
            match scanstring r with
            | None => None
            | Some (key, r1) =>
                match skip_ws r1 with
                | c :: r2 =>
                    if c =? 58 then
                      match scan_once fuel' (skip_ws r2) with
                      | None => None
                      | Some (v, r3) =>
                          match skip_ws r3 with
                          | c' :: r4 =>
                              if c' =? 125 then Some ([(key, v)], r4)
                              else if c' =? 44 then
                                match parse_members fuel' (skip_ws r4) with
                                | Some (ps, r5) => Some ((key, v) :: ps, r5)
                                | None => None
                                end
                              else None
                          | [] => None
                          end
                      end
                    else None
                | [] => None
                end
            end
          else None
      end
  end.

(** [json.loads(s)]: [None] stands for [JSONDecodeError].  A text that
    starts with a byte order mark is refused, and nothing but whitespace
    may follow the value. *)
Definition json_loads (s : pystr) : option Json :=
  if startswith s [65279] then None
  else
    match scan_once (S (length s)) (skip_ws s) with
    | Some (v, r) =>
        match skip_ws r with
        | [] => Some v
        | _ :: _ => None
        end
    | None => None
    end.

Local Close Scope N_scope.

(** ** Volumes and axes *)

(** The items of the axis combo box, in the order [addItems] gives them. *)
Inductive Axis : Type := axial | coronal | sagittal.

Definition axis_text (a : Axis) : pystr :=
  match a with
  | axial => u "axial"
  | coronal => u "coronal"
  | sagittal => u "sagittal"
  end.

Definition Axis_eqb (a b : Axis) : bool :=
  match a, b with
  | axial, axial | coronal, coronal | sagittal, sagittal => true
  | _, _ => false
  end.

(** The array [nib.load(path).get_fdata()] returns, by its shape; the
    intensities only travel to the renderer. *)
Record Volume : Type := { shape0 : Z; shape1 : Z; shape2 : Z }.

Definition shape (v : Volume) : list Z := [shape0 v; shape1 v; shape2 v].

(** [{"sagittal":0, "coronal":1, "axial":2}[self.axis]] *)
Definition axis_idx (a : Axis) : nat :=
  match a with
  | sagittal => 0%nat
  | coronal => 1%nat
  | axial => 2%nat
  end.

Definition extent (v : Volume) (a : Axis) : Z := nth (axis_idx a) (shape v) 0.

(** Basic indexing of one dimension of a numpy array: an index from
    [-n] to [n - 1] is accepted, any other raises [IndexError].  The result
    is the shape of the slice. *)
Definition take_slice (v : Volume) (a : Axis) (idx : Z) : result (Z * Z) :=
  let n := extent v a in
  if (- n <=? idx) && (idx <? n) then
    Ok match a with
       | axial => (shape0 v, shape1 v)
       | coronal => (shape0 v, shape2 v)
       | sagittal => (shape1 v, shape2 v)
       end
  else Raise IndexError.

(** ** Widgets *)

(** A [QSlider]: a new one has range 0 to 99 and value 0. *)
Record QSlider : Type :=
  { minimum : Z; maximum : Z; value : Z; enabled : bool }.

Definition bound (s : QSlider) (v : Z) : Z :=
  Z.max (minimum s) (Z.min (maximum s) v).

Record QListWidget : Type :=
  { items : list pystr; currentRow : option nat }.

Definition currentItem (w : QListWidget) : option pystr :=
  match currentRow w with
  | Some r => nth_error (items w) r
  | None => None
  end.

(** What [update_view] hands to the canvas: the title, the shape of the
    slice and the zoom in percent (the drawn extent is the shape times
    [zoom / 100.0]). *)
Record Figure : Type :=
  { title_axis : Axis; title_idx : Z; slice_shape : Z * Z; zoom_percent : Z }.

(** What [update_annotation_display] shows: the file name and, per axis,
    the pages, or [None] where it prints N/A. *)
Record Display : Type :=
  { shown_file : pystr; shown_pages : list (Axis * option Json) }.

(** A file on disk is a decodable image or a text. *)
Inductive File : Type :=
| Nifti (v : Volume)
| Text (t : pystr).

Definition Disk : Type := list (pystr * File).

Fixpoint disk_get (p : pystr) (d : Disk) : option File :=
  match d with
  | [] => None
  | (p', f) :: d' => if str_eqb p p' then Some f else disk_get p d'
  end.

Fixpoint disk_put (p : pystr) (f : File) (d : Disk) : Disk :=
  match d with
  | [] => [(p, f)]
  | (p', f') :: d' =>
      if str_eqb p p' then (p', f) :: d' else (p', f') :: disk_put p f d'
  end.

(** [os.path.join(a, b)] *)
Definition path_join (a b : pystr) : pystr :=
  if startswith b [47%N] then b
  else match a with
       | [] => b
       | _ :: _ => if endswith a [47%N] then a ++ b else a ++ 47%N :: b
       end.

Fixpoint strip_prefix (p s : pystr) : option pystr :=
  match p with
  | [] => Some s
  | y :: p' =>
      match s with
      | [] => None
      | x :: s' => if N.eqb x y then strip_prefix p' s' else None
      end
  end.

Fixpoint first_component (s : pystr) : pystr :=
  match s with
  | [] => []
  | c :: r => if N.eqb c 47 then [] else c :: first_component r
  end.

(** [os.listdir(folder)]: the names directly under [folder], in the order
    the disk gives them. *)
Definition listdir (folder : pystr) (d : Disk) : list pystr :=
  nodup (list_eq_dec N.eq_dec)
    (flat_map
       (fun pf =>
          match strip_prefix (path_join folder []) (fst pf) with
          | Some rest =>
              match first_component rest with
              | [] => []
              | name => [name]
              end
          | None => []
          end) d).

(** ** The session *)

Record NiiExplorer : Type :=
  { data : option Volume;
    annotations : Json;
    folder : option pystr;
    axis : option Axis;
    slice_index : option Z;
    file_list : QListWidget;
    axis_combo : Axis;
    slice_slider : QSlider;
    zoom_spin : Z;
    figure : option Figure;
    annotation_display : option Display;
    disk : Disk;
    stdout : list pystr }.

Definition set_data (x : option Volume) (st : NiiExplorer) : NiiExplorer :=
  {| data := x; annotations := annotations st; folder := folder st;
     axis := axis st; slice_index := slice_index st; file_list := file_list st;
     axis_combo := axis_combo st; slice_slider := slice_slider st;
     zoom_spin := zoom_spin st; figure := figure st;
     annotation_display := annotation_display st; disk := disk st;
     stdout := stdout st |}.

Definition set_annotations (x : Json) (st : NiiExplorer) : NiiExplorer :=
  {| data := data st; annotations := x; folder := folder st;
     axis := axis st; slice_index := slice_index st; file_list := file_list st;
     axis_combo := axis_combo st; slice_slider := slice_slider st;
     zoom_spin := zoom_spin st; figure := figure st;
     annotation_display := annotation_display st; disk := disk st;
     stdout := stdout st |}.

Definition set_folder (x : option pystr) (st : NiiExplorer) : NiiExplorer :=
  {| data := data st; annotations := annotations st; folder := x;
     axis := axis st; slice_index := slice_index st; file_list := file_list st;
     axis_combo := axis_combo st; slice_slider := slice_slider st;
     zoom_spin := zoom_spin st; figure := figure st;
     annotation_display := annotation_display st; disk := disk st;
     stdout := stdout st |}.

Definition set_axis (x : option Axis) (st : NiiExplorer) : NiiExplorer :=
  {| data := data st; annotations := annotations st; folder := folder st;
     axis := x; slice_index := slice_index st; file_list := file_list st;
     axis_combo := axis_combo st; slice_slider := slice_slider st;
     zoom_spin := zoom_spin st; figure := figure st;
     annotation_display := annotation_display st; disk := disk st;
     stdout := stdout st |}.

Definition set_slice_index (x : option Z) (st : NiiExplorer) : NiiExplorer :=
  {| data := data st; annotations := annotations st; folder := folder st;
     axis := axis st; slice_index := x; file_list := file_list st;
     axis_combo := axis_combo st; slice_slider := slice_slider st;
     zoom_spin := zoom_spin st; figure := figure st;
     annotation_display := annotation_display st; disk := disk st;
     stdout := stdout st |}.

Definition set_file_list (x : QListWidget) (st : NiiExplorer) : NiiExplorer :=
  {| data := data st; annotations := annotations st; folder := folder st;
     axis := axis st; slice_index := slice_index st; file_list := x;
     axis_combo := axis_combo st; slice_slider := slice_slider st;
     zoom_spin := zoom_spin st; figure := figure st;
     annotation_display := annotation_display st; disk := disk st;
     stdout := stdout st |}.

Definition set_axis_combo (x : Axis) (st : NiiExplorer) : NiiExplorer :=
  {| data := data st; annotations := annotations st; folder := folder st;
     axis := axis st; slice_index := slice_index st; file_list := file_list st;
     axis_combo := x; slice_slider := slice_slider st;
     zoom_spin := zoom_spin st; figure := figure st;
     annotation_display := annotation_display st; disk := disk st;
     stdout := stdout st |}.

Definition set_slice_slider (x : QSlider) (st : NiiExplorer) : NiiExplorer :=
  {| data := data st; annotations := annotations st; folder := folder st;
     axis := axis st; slice_index := slice_index st; file_list := file_list st;
     axis_combo := axis_combo st; slice_slider := x;
     zoom_spin := zoom_spin st; figure := figure st;
     annotation_display := annotation_display st; disk := disk st;
     stdout := stdout st |}.

Definition set_zoom_spin (x : Z) (st : NiiExplorer) : NiiExplorer :=
  {| data := data st; annotations := annotations st; folder := folder st;
     axis := axis st; slice_index := slice_index st; file_list := file_list st;
     axis_combo := axis_combo st; slice_slider := slice_slider st;
     zoom_spin := x; figure := figure st;
     annotation_display := annotation_display st; disk := disk st;
     stdout := stdout st |}.

Definition set_figure (x : option Figure) (st : NiiExplorer) : NiiExplorer :=
  {| data := data st; annotations := annotations st; folder := folder st;
     axis := axis st; slice_index := slice_index st; file_list := file_list st;
     axis_combo := axis_combo st; slice_slider := slice_slider st;
     zoom_spin := zoom_spin st; figure := x;
     annotation_display := annotation_display st; disk := disk st;
     stdout := stdout st |}.

Definition set_annotation_display (x : option Display) (st : NiiExplorer)
  : NiiExplorer :=
  {| data := data st; annotations := annotations st; folder := folder st;
     axis := axis st; slice_index := slice_index st; file_list := file_list st;
     axis_combo := axis_combo st; slice_slider := slice_slider st;
     zoom_spin := zoom_spin st; figure := figure st;
     annotation_display := x; disk := disk st;
     stdout := stdout st |}.

Definition set_disk (x : Disk) (st : NiiExplorer) : NiiExplorer :=
  {| data := data st; annotations := annotations st; folder := folder st;
     axis := axis st; slice_index := slice_index st; file_list := file_list st;
     axis_combo := axis_combo st; slice_slider := slice_slider st;
     zoom_spin := zoom_spin st; figure := figure st;
     annotation_display := annotation_display st; disk := x;
     stdout := stdout st |}.

Definition set_stdout (x : list pystr) (st : NiiExplorer) : NiiExplorer :=
  {| data := data st; annotations := annotations st; folder := folder st;
     axis := axis st; slice_index := slice_index st; file_list := file_list st;
     axis_combo := axis_combo st; slice_slider := slice_slider st;
     zoom_spin := zoom_spin st; figure := figure st;
     annotation_display := annotation_display st; disk := disk st;
     stdout := x |}.

(** A handler runs to completion or raises.  An exception that leaves a
    slot ends the session (PyQt5 aborts on it), so no state comes with
    [Raise]. *)
Definition handler : Type := NiiExplorer -> result NiiExplorer.

(** [__init__] up to [init_ui]: no volume, no annotations, [self.axis],
    [self.folder] and [self.slice_index] not yet assigned.  [init_ui]
    fills the combo box and sets the zoom before it connects their signals,
    so no slot runs. *)
Definition init_ui (d : Disk) : NiiExplorer :=
  {| data := None;
     annotations := JDict [];
     folder := None;
     axis := None;
     slice_index := None;
     file_list := {| items := []; currentRow := None |};
     axis_combo := axial;
     slice_slider := {| minimum := 0; maximum := 99; value := 0; enabled := false |};
     zoom_spin := 100;
     figure := None;
     annotation_display := None;
     disk := d;
     stdout := [] |}.

(** *** VolumeView *)

(** [update_view] reads [self.axis] (an [AttributeError] while it was never
    assigned), the slider and the zoom, then slices [self.data] (a
    [TypeError] while it is [None]) and draws. *)
Definition update_view : handler := fun st =>
  match axis st with
  | None => Raise AttributeError
  | Some a =>
      let idx := value (slice_slider st) in
      let zoom := zoom_spin st in
      match data st with
      | None => Raise TypeError
      | Some v =>
          slice_data <- take_slice v a idx ;;
          Ok (set_figure
                (Some {| title_axis := a; title_idx := idx;
                         slice_shape := slice_data; zoom_percent := zoom |}) st)
      end
  end.

(** The slot of the slider's [valueChanged]. *)
Definition on_slice_changed (idx : Z) : handler := fun st =>
  match data st with
  | Some _ => update_view (set_slice_index (Some idx) st)
  | None => Ok st
  end.

(** [QSlider.setValue]: the value is forced into the range; when it
    changes, [valueChanged] calls [on_slice_changed]. *)
Definition slider_setValue (v : Z) : handler := fun st =>
  let s := slice_slider st in
  let v' := bound s v in
  if v' =? value s then Ok st
  else
    on_slice_changed v'
      (set_slice_slider
         {| minimum := minimum s; maximum := maximum s; value := v';
            enabled := enabled s |} st).

(** The user drags the slider to [v]; a disabled widget takes no input. *)
Definition slider_drag (v : Z) : handler := fun st =>
  if enabled (slice_slider st) then slider_setValue v st else Ok st.

(** [QSlider.setRange]: the maximum is at least the minimum; when the range
    changes the value is bound again. *)
Definition slider_setRange (mn mx : Z) : handler := fun st =>
  let s := slice_slider st in
  let mx' := Z.max mn mx in
  if (mn =? minimum s) && (mx' =? maximum s) then Ok st
  else
    slider_setValue (value s)
      (set_slice_slider
         {| minimum := mn; maximum := mx'; value := value s;
            enabled := enabled s |} st).

Definition slider_setMaximum (mx : Z) : handler := fun st =>
  slider_setRange (Z.min (minimum (slice_slider st)) mx) mx st.

Definition slider_setEnabled (b : bool) : handler := fun st =>
  let s := slice_slider st in
  Ok (set_slice_slider
        {| minimum := minimum s; maximum := maximum s; value := value s;
           enabled := b |} st).

(** [update_slider]: the range of the axis, the slider enabled, the value
    at [max_idx // 2]. *)
Definition update_slider : handler := fun st =>
  match axis st with
  | None => Raise AttributeError
  | Some a =>
      match data st with
      | None => Raise AttributeError
      | Some v =>
          let max_idx := extent v a - 1 in
          st1 <- slider_setMaximum max_idx st ;;
          st2 <- slider_setEnabled true st1 ;;
          slider_setValue (max_idx / 2) st2
      end
  end.

(** The slot of the combo box: the axis is stored first, the view follows
    only when a volume is loaded. *)
Definition on_axis_changed (a : Axis) : handler := fun st =>
  let st := set_axis (Some a) st in
  match data st with
  | Some _ => st1 <- update_slider st ;; update_view st1
  | None => Ok st
  end.

(** The user picks an item of the combo box; [currentTextChanged] is
    emitted when the text changes. *)
Definition axis_combo_select (a : Axis) : handler := fun st =>
  if Axis_eqb a (axis_combo st) then Ok st
  else on_axis_changed a (set_axis_combo a st).

(** [QSpinBox.setValue] on the zoom box, whose range is 10 to 500, with
    [valueChanged] connected to [update_view]. *)
Definition zoom_spin_setValue (z : Z) : handler := fun st =>
  let z' := Z.max 10 (Z.min 500 z) in
  if z' =? zoom_spin st then Ok st
  else update_view (set_zoom_spin z' st).

(** [wheelEvent], with [delta] the vertical angle delta of the event. *)
Definition wheelEvent (delta : Z) : handler := fun st =>
  match data st with
  | None => Ok st
  | Some _ =>
      if negb (enabled (slice_slider st)) then Ok st
      else
        let step := if 0 <? delta then 1 else -1 in
        let new_value := value (slice_slider st) + step in
        let new_value := Z.max 0 (Z.min new_value (maximum (slice_slider st))) in
        slider_setValue new_value st
  end.

(** *** AnnotationStore *)

Definition empty_record : Json :=
  JDict [(u "axial", JList []); (u "coronal", JList []); (u "sagittal", JList [])].

Fixpoint mapM {A B : Type} (f : A -> result B) (l : list A) : result (list B) :=
  match l with
  | [] => Ok []
  | x :: l' => y <- f x ;; ys <- mapM f l' ;; Ok (y :: ys)
  end.

(** The record and the per-axis pages [update_annotation_display] reads
    for [filename]; the store is not changed. *)
Definition describe (ann : Json) (filename : pystr)
  : result (list (Axis * option Json)) :=
  annotation <- py_get ann filename empty_record ;;
  mapM (fun a =>
          pages <- py_get annotation (axis_text a) (JList []) ;;
          t <- py_truthy pages ;;
          Ok (a, if t then Some pages else None))
       [axial; coronal; sagittal].

Definition update_annotation_display : handler := fun st =>
  match currentItem (file_list st) with
  | None => Ok st
  | Some filename =>
      pages <- describe (annotations st) filename ;;
      Ok (set_annotation_display
            (Some {| shown_file := filename; shown_pages := pages |}) st)
  end.

(** The two [if] statements of [annotate_page]: create the record when the
    file has none, then add [idx] to the list of [axis] when it is not in
    it, and sort that list.  The list is changed in place in Python; the
    objects of the store are not shared, so the new list is written back
    where the old one stood. *)
Definition confirm (filename : pystr) (a : Axis) (idx : Z) (ann : Json)
  : result Json :=
  present <- py_contains_str ann filename ;;
  ann1 <- (if negb present then py_setitem ann filename empty_record else Ok ann) ;;
  record <- py_getitem ann1 filename ;;
  pages <- py_getitem record (axis_text a) ;;
  found <- py_contains_int pages idx ;;
  if negb found then
    pages1 <- py_append pages (JInt idx) ;;
    pages2 <- py_sort pages1 ;;
    record1 <- py_setitem record (axis_text a) pages2 ;;
    py_setitem ann1 filename record1
  else Ok ann1.

(** [annotate_page], reached by the button and by the G key. *)
Definition annotate_page : handler := fun st =>
  match currentItem (file_list st) with
  | None => Ok st
  | Some filename =>
      let a := axis_combo st in
      let idx := value (slice_slider st) in
      ann <- confirm filename a idx (annotations st) ;;
      update_annotation_display (set_annotations ann st)
  end.

(** *** Files *)

(** The slot of the file list: decode the file, take the axis of the combo
    box, reset the slider, draw, show the annotations. *)
Definition on_file_changed (current : option pystr) : handler := fun st =>
  match current with
  | None => Ok st
  | Some file_name =>
      match folder st with
      | None => Raise AttributeError
      | Some dir =>
          let path := path_join dir file_name in
          match disk_get path (disk st) with
          | None => Raise FileNotFoundError
          | Some (Text _) => Raise ImageFileError
          | Some (Nifti v) =>
              let st := set_data (Some v) st in
              let st := set_axis (Some (axis_combo st)) st in
              st1 <- update_slider st ;;
              st2 <- update_view st1 ;;
              update_annotation_display st2
          end
      end
  end.

(** [QListWidget.setCurrentRow]: [currentItemChanged] calls
    [on_file_changed] with the new current item when the row changes. *)
Definition file_list_setCurrentRow (row : nat) : handler := fun st =>
  let w := file_list st in
  let new := if (row <? length (items w))%nat then Some row else None in
  match new, currentRow w with
  | None, None => Ok st
  | Some r, Some r' =>
      if (r =? r')%nat then Ok st
      else
        let w' := {| items := items w; currentRow := new |} in
        on_file_changed (currentItem w') (set_file_list w' st)
  | _, _ =>
      let w' := {| items := items w; currentRow := new |} in
      on_file_changed (currentItem w') (set_file_list w' st)
  end.

(** [load_files]: the sorted names that end in .nii or .nii.gz fill the
    list, and the first one is selected. *)
Definition load_files (dir : pystr) : handler := fun st =>
  let nii_files :=
    sorted_strs
      (filter (fun f => endswith f (u ".nii") || endswith f (u ".nii.gz"))
              (listdir dir (disk st))) in
  let st := set_folder (Some dir) st in
  let st := set_file_list {| items := nii_files; currentRow := None |} st in
  match nii_files with
  | [] => Ok st
  | _ :: _ => file_list_setCurrentRow 0 st
  end.

(** [load_existing_annotations]: nothing when the file does not exist;
    otherwise the store becomes what [json.load] returns, or a message is
    printed when it raises [JSONDecodeError].  Two outcomes of the real
    call are not modelled: [open] on a directory of that name, and the
    [ValueError] or [RecursionError] the decoder raises beyond its
    limits.  The statements about files found in a folder exclude both by
    [annotations_file_ok] or [within_limits]. *)
Definition load_existing_annotations : handler := fun st =>
  match folder st with
  | None => Raise AttributeError
  | Some dir =>
      let annotations_path := path_join dir (u "annotations.json") in
      match disk_get annotations_path (disk st) with
      | None => Ok st
      | Some (Nifti _) => OutOfModel
      | Some (Text t) =>
          match json_loads t with
          | Some v => Ok (set_annotations v st)
          | None =>
              Ok (set_stdout (stdout st ++ [u "Failed to parse annotations.json"]) st)
          end
      end
  end.

(** [save_annotations]: the whole store, written over the annotations
    file. *)
Definition save_annotations : handler := fun st =>
  match folder st with
  | None => Raise AttributeError
  | Some dir =>
      let output_path := path_join dir (u "annotations.json") in
      t <- json_dumps (annotations st) ;;
      Ok (set_disk (disk_put output_path (Text t) (disk st)) st)
  end.

(** [export_current_annotation]: the record of the current file, when it
    has one that is not empty, written to its own file. *)
Definition export_current_annotation : handler := fun st =>
  match currentItem (file_list st) with
  | None => Ok st
  | Some filename =>
      annotation <- py_get (annotations st) filename JNull ;;
      t <- py_truthy annotation ;;
      if t then
        match folder st with
        | None => Raise AttributeError
        | Some dir =>
            let out_path := path_join dir (filename ++ u "_annotation.json") in
            text <- json_dumps (JDict [(filename, annotation)]) ;;
            Ok (set_disk (disk_put out_path (Text text) (disk st)) st)
        end
      else Ok st
  end.

(** [open_folder], with [choice] the folder the dialog returns (empty when
    the user cancels). *)
Definition open_folder (choice : pystr) : handler := fun st =>
  match choice with
  | [] => Raise SystemExit
  | _ :: _ => st1 <- load_files choice st ;; load_existing_annotations st1
  end.

(** [NiiExplorer()] on a disk. *)
Definition NiiExplorer_init (d : Disk) (choice : pystr) : result NiiExplorer :=
  open_folder choice (init_ui d).

(** A run of handlers, one after the other. *)
Fixpoint run (hs : list handler) (st : NiiExplorer) : result NiiExplorer :=
  match hs with
  | [] => Ok st
  | h :: hs' => st1 <- h st ;; run hs' st1
  end.

(** What the user can do in the window. *)
Inductive event : Type :=
| SelectAxis (a : Axis)
| Drag (i : Z)
| Wheel (delta : Z)
| Zoom (z : Z)
| SelectFile (row : nat)
| Confirm
| ExportCurrent
| ExportAll.

Definition step (e : event) : handler :=
  match e with
  | SelectAxis a => axis_combo_select a
  | Drag i => slider_drag i
  | Wheel delta => wheelEvent delta
  | Zoom z => zoom_spin_setValue z
  | SelectFile row => file_list_setCurrentRow row
  | Confirm => annotate_page
  | ExportCurrent => export_current_annotation
  | ExportAll => save_annotations
  end.

(** ** Predicates used by the statements *)

(** A non-empty three-dimensional array. *)
Definition nonempty (v : Volume) : Prop :=
  1 <= shape0 v /\ 1 <= shape1 v /\ 1 <= shape2 v.

(** No volume has been loaded: [self.data] is [None] and the slider is
    still disabled. *)
Definition unloaded (st : NiiExplorer) : Prop :=
  data st = None /\ enabled (slice_slider st) = false.

(** The figure [update_view] draws for volume [v], axis [a] and the
    slider and zoom of [st]. *)
Definition view_of (v : Volume) (a : Axis) (st : NiiExplorer) : Figure :=
  {| title_axis := a;
     title_idx := value (slice_slider st);
     slice_shape := match a with
                    | axial => (shape0 v, shape1 v)
                    | coronal => (shape0 v, shape2 v)
                    | sagittal => (shape1 v, shape2 v)
                    end;
     zoom_percent := zoom_spin st |}.

(** Volume [v] is loaded and sliced along [a]: the slider is enabled and
    ranges over the indices of [a], its value is one of them, and the
    figure shows that slice. *)
Definition viewing (v : Volume) (a : Axis) (st : NiiExplorer) : Prop :=
  data st = Some v /\
  axis st = Some a /\
  minimum (slice_slider st) = 0 /\
  maximum (slice_slider st) = extent v a - 1 /\
  enabled (slice_slider st) = true /\
  0 <= value (slice_slider st) <= extent v a - 1 /\
  figure st = Some (view_of v a st).

(** [st'] differs from [st] at most in the volume, the axis, the slider,
    the slice index and the figure. *)
Definition same_rest (st st' : NiiExplorer) : Prop :=
  annotations st' = annotations st /\
  folder st' = folder st /\
  file_list st' = file_list st /\
  axis_combo st' = axis_combo st /\
  zoom_spin st' = zoom_spin st /\
  annotation_display st' = annotation_display st /\
  disk st' = disk st /\
  stdout st' = stdout st.

(** [nonempty] as a test. *)
Definition nonemptyb (v : Volume) : bool :=
  (1 <=? shape0 v) && (1 <=? shape1 v) && (1 <=? shape2 v).

(** Every image on the disk decodes to a non-empty volume. *)
Definition disk_okb (d : Disk) : bool :=
  forallb (fun pf => match snd pf with
                     | Nifti v => nonemptyb v
                     | Text _ => true
                     end) d.

(** The invariant of a session: the slider starts at 0; it is disabled
    until a volume is loaded, and from then on the volume is viewed along
    some axis. *)
Definition session_ok (st : NiiExplorer) : Prop :=
  disk_okb (disk st) = true /\
  minimum (slice_slider st) = 0 /\
  match data st with
  | None => enabled (slice_slider st) = false
  | Some v => nonempty v /\ exists a, viewing v a st
  end.

(** [update_annotation_display] can show the current file. *)
Definition displayable (st : NiiExplorer) : Prop :=
  match currentItem (file_list st) with
  | None => True
  | Some f => exists pages, describe (annotations st) f = Ok pages
  end.

(** The ints of a list, when every element is an int. *)
Fixpoint ints_of (l : list Json) : option (list Z) :=
  match l with
  | [] => Some []
  | JInt z :: l' =>
      match ints_of l' with
      | Some zs => Some (z :: zs)
      | None => None
      end
  | _ :: _ => None
  end.

(** Strictly ascending: in ascending order and free of duplicates. *)
Fixpoint ascending (l : list Z) : bool :=
  match l with
  | x :: (y :: _) as r => (x <? y) && ascending r
  | _ => true
  end.

(** One per-axis list: a list of ints, strictly ascending. *)
Definition pages_okb (p : Json) : bool :=
  match p with
  | JList l =>
      match ints_of l with
      | Some zs => ascending zs
      | None => false
      end
  | _ => false
  end.

Definition axis_okb (d : pydict) (a : Axis) : bool :=
  match dict_get (axis_text a) d with
  | Some p => pages_okb p
  | None => false
  end.

(** One record: a dict whose three per-axis lists are in order. *)
Definition record_okb (r : Json) : bool :=
  match r with
  | JDict d => axis_okb d axial && axis_okb d coronal && axis_okb d sagittal
  | _ => false
  end.

(** The store invariant: a dict from file names to such records. *)
Definition store_okb (ann : Json) : bool :=
  match ann with
  | JDict d => forallb (fun kv => record_okb (snd kv)) d
  | _ => false
  end.

(** Confirmations one after the other, each a file name, an axis and an
    index. *)
Fixpoint confirm_seq (ops : list (pystr * Axis * Z)) (ann : Json) : result Json :=
  match ops with
  | [] => Ok ann
  | (f, a, idx) :: ops' => ann1 <- confirm f a idx ann ;; confirm_seq ops' ann1
  end.

(** ** Sessions and values used as examples, and auxiliary definitions *)

Arguments extent : simpl never.

(** The session after the slider moved to [v'] and the view followed. *)
Definition moved_to (v : Volume) (a : Axis) (v' : Z) (st : NiiExplorer)
  : NiiExplorer :=
  let s := slice_slider st in
  let st1 := set_slice_index (Some v')
               (set_slice_slider
                  {| minimum := minimum s; maximum := maximum s; value := v';
                     enabled := enabled s |} st) in
  set_figure (Some (view_of v a st1)) st1.

(** A disk with one scan of shape (10, 20, 30) and the session that opens
    its folder. *)
Definition demo_volume : Volume := {| shape0 := 10; shape1 := 20; shape2 := 30 |}.

Definition demo_disk : Disk := [(u "/scans/a.nii", Nifti demo_volume)].

(** The session a run ended in. *)
Definition session_of (r : result NiiExplorer) : NiiExplorer :=
  match r with
  | Ok st => st
  | _ => init_ui []
  end.

Definition demo_session : NiiExplorer :=
  session_of (NiiExplorer_init demo_disk (u "/scans")).

Definition demo_volume_b : Volume := {| shape0 := 4; shape1 := 5; shape2 := 6 |}.

Definition demo_disk2 : Disk :=
  [(u "/scans/b.nii", Nifti demo_volume_b); (u "/scans/a.nii", Nifti demo_volume)].

(** Two scans in the folder; the first one is shown and the slider was
    moved to slice 27. *)
Definition demo_session2 : NiiExplorer :=
  session_of (st <- NiiExplorer_init demo_disk2 (u "/scans") ;; slider_setValue 27 st).

(** Insertion into an ascending list of integers. *)
Fixpoint insert_z (x : Z) (l : list Z) : list Z :=
  match l with
  | [] => [x]
  | y :: l' => if x <=? y then x :: l else y :: insert_z x l'
  end.

(** A JSON text written with the apostrophe standing for the double
    quote. *)
Definition json_text (s : string) : pystr :=
  map (fun c => if N.eqb c 39 then 34%N else c) (u s).
Arguments json_text s%_string.

(** The folder of [demo_disk] once its files are listed, before the
    annotations are looked for. *)
Definition demo_listed : NiiExplorer :=
  session_of (load_files (u "/scans") (init_ui demo_disk)).

(** A folder whose annotations file was cut off in the middle. *)
Definition truncated_disk : Disk :=
  [(u "/scans/a.nii", Nifti demo_volume);
   (u "/scans/annotations.json", Text (json_text "{'a.nii': {'axial': [4, "))].

Definition truncated_listed : NiiExplorer :=
  session_of (load_files (u "/scans") (init_ui truncated_disk)).

(** A folder whose annotations file is valid JSON but not a mapping from
    file names to records. *)
Definition misshapen_disk : Disk :=
  [(u "/scans/a.nii", Nifti demo_volume);
   (u "/scans/annotations.json", Text (json_text "[1, 2]"))].

(** The session on [demo_disk2] after slices 27 and 3 of the first scan
    were confirmed along the axial axis and slice 9 along the coronal
    one. *)
Definition demo_annotated : NiiExplorer :=
  session_of
    (st <- NiiExplorer_init demo_disk2 (u "/scans") ;;
     run [slider_setValue 27; annotate_page;
          slider_setValue 3; annotate_page;
          axis_combo_select coronal; annotate_page] st).

(** The record a first confirmation along the axial axis creates. *)
Definition axial_record (idx : Z) : Json :=
  JDict [(u "axial", JList [JInt idx]); (u "coronal", JList []);
         (u "sagittal", JList [])].

(** The scenario of C1: the folder holds a.nii and b.nii, axial slice 4 of
    a.nii is shown. *)
Definition scenario_session : NiiExplorer :=
  session_of
    (st <- NiiExplorer_init demo_disk2 (u "/scans") ;; slider_setValue 4 st).

(** The same folder with the two files named as the scenario spells them;
    neither ends in .nii or .nii.gz. *)
Definition literal_disk : Disk :=
  [(u "/scans/a.ext", Nifti demo_volume); (u "/scans/b.ext", Nifti demo_volume_b)].

(** ** Well-formed values and the shape of encoded text *)

Local Open Scope N_scope.

(** Linear arithmetic with division and remainder by constants. *)
Ltac nlia := zify; Z.to_euclidean_division_equations; lia.

(** Decide every comparison of code points in the goal. *)
Ltac ncases :=
  repeat match goal with
         | |- context [N.eqb ?a ?b] => destruct (N.eqb_spec a b)
         | |- context [N.leb ?a ?b] => destruct (N.leb_spec a b)
         | |- context [N.ltb ?a ?b] => destruct (N.ltb_spec a b)
         end.

(** A string of code points below 0x110000 in which no high surrogate is
    directly followed by a low one (the decoder would join the two). *)
Fixpoint wf_str (s : pystr) : bool :=
  match s with
  | [] => true
  | c :: r =>
      (c <? 1114112)
      && negb (is_high_surrogate c
               && match r with c' :: _ => is_low_surrogate c' | [] => false end)
      && wf_str r
  end.

(** The six characters the scanner looks at after a high surrogate never
    spell a low surrogate. *)
Definition no_low_ahead (t : pystr) : Prop :=
  match t with
  | b :: l :: g1 :: g2 :: g3 :: g4 :: _ =>
      (b =? 92) && (l =? 117) = true ->
      exists uni2, decode_hex4 g1 g2 g3 g4 = Some uni2 /\ is_low_surrogate uni2 = false
  | _ => True
  end.

(** What the encoder writes after a value: nothing, a comma or a
    newline. *)
Definition follow_ok (rest : pystr) : bool :=
  match rest with
  | [] => true
  | c :: _ => (c =? 44) || (c =? 10)
  end.

(** Text that starts like a number is handed to [match_number]. *)
Definition numeric_head (s : pystr) : Prop :=
  match s with
  | c :: r =>
      is_digit c = true \/
      (c = 45 /\ match r with c' :: _ => is_digit c' = true | [] => False end)
  | [] => False
  end.

(** The keys of a [dict] are distinct. *)
Fixpoint keys_unique (d : pydict) : bool :=
  match d with
  | [] => true
  | (k, _) :: d' => negb (dict_mem k d') && keys_unique d'
  end.

(** A value without floats, whose dicts have distinct keys and whose
    strings are well formed. *)
Fixpoint wf_json (o : Json) : bool :=
  match o with
  | JFloat _ => false
  | JStr s => wf_str s
  | JList l => forallb wf_json l
  | JDict d =>
      keys_unique d && forallb (fun kv => wf_str (fst kv) && wf_json (snd kv)) d
  | _ => true
  end.

(** The fuel that reading a value back takes, less one. *)
Fixpoint size (o : Json) : nat :=
  match o with
  | JList l => list_sum (map (fun x => size x + 2)%nat l)
  | JDict d => list_sum (map (fun kv => size (snd kv) + 2)%nat d)
  | _ => 0%nat
  end.

(** The text of the second and later items of a list, and of the second
    and later members of a dict, as [encode] writes them. *)
Definition items_text (level : nat) : list Json -> pystr :=
  fix items (l : list Json) : pystr :=
    match l with
    | [] => []
    | y :: l' => 44 :: newline_indent level ++ encode level y ++ items l'
    end.

Definition members_text (level : nat) : pydict -> pystr :=
  fix items (d : pydict) : pystr :=
    match d with
    | [] => []
    | (k', v') :: d' =>
        44 :: newline_indent level ++ encode_str k' ++ [58; 32]
          ++ encode level v' ++ items d'
    end.

(** The first character of an encoded value is not whitespace, not a
    closing bracket and not a byte order mark. *)
Definition starts_value (t : pystr) : Prop :=
  match t with
  | c :: _ => is_ws c = false /\ c <> 93 /\ c <> 125 /\ c <> 65279
  | [] => False
  end.

(** What the main induction proves of one value. *)
Definition reads_back (o : Json) : Prop :=
  wf_json o = true ->
  forall (level : nat) (rest : pystr) (fuel : nat),
    follow_ok rest = true -> (size o < fuel)%nat ->
    scan_once fuel (encode level o ++ rest) = Some (o, rest).

Local Close Scope N_scope.

(** ** Listings, stored pages and safe sessions *)

(** The names [load_files] keeps. *)
Definition is_nii (f : pystr) : bool :=
  endswith f (u ".nii") || endswith f (u ".nii.gz").

(** The order [sorted] puts names in. *)
Definition str_le (a b : pystr) : Prop := str_leb a b = true.

(** The last code point of a string. *)
Definition last_char (s : pystr) : option N := hd_error (rev s).

(** The pages the store holds for file [f] along axis [a]; none when the
    file has no record. *)
Definition pages_of (ann : Json) (f : pystr) (a : Axis) : list Z :=
  match ann with
  | JDict d =>
      match dict_get f d with
      | Some (JDict r) =>
          match dict_get (axis_text a) r with
          | Some (JList l) =>
              match ints_of l with
              | Some zs => zs
              | None => []
              end
          | _ => []
          end
      | _ => []
      end
  | _ => []
  end.

(** What the display shows for a list of pages: N/A for an empty one. *)
Definition show_pages (zs : list Z) : option Json :=
  match zs with
  | [] => None
  | _ :: _ => Some (JList (map JInt zs))
  end.

(** The store once [f] has a record: the first [if] of [annotate_page]. *)
Definition with_record (f : pystr) (d : pydict) : pydict :=
  if dict_mem f d then d else dict_set f empty_record d.

(** The display of a file none of whose pages are confirmed. *)
Definition blank_display (f : pystr) : Display :=
  {| shown_file := f;
     shown_pages := [(axial, None); (coronal, None); (sagittal, None)] |}.

(** The display of file [f] for the store [ann]. *)
Definition display_of (ann : Json) (f : pystr) : Display :=
  {| shown_file := f;
     shown_pages :=
       map (fun a => (a, show_pages (pages_of ann f a))) [axial; coronal; sagittal] |}.

(** The store a session starts with: what the annotations file of the
    folder decodes to, or the empty one. *)
Definition startup_store (d : Disk) (dir : pystr) : Json :=
  match disk_get (path_join dir (u "annotations.json")) d with
  | Some (Text t) =>
      match json_loads t with
      | Some ann => ann
      | None => JDict []
      end
  | _ => JDict []
  end.

(** The longest run of decimal digits in a text, with [run] the length of
    the run that is being read and [best] the longest one seen. *)
Fixpoint digit_run (t : pystr) (run best : N) : N :=
  match t with
  | [] => N.max run best
  | c :: r =>
      if is_digit c then digit_run r (N.succ run) best
      else digit_run r 0%N (N.max run best)
  end.

(** The deepest nesting of brackets and braces outside string literals:
    [in_str] inside a literal, [esc] after a backslash in it, [depth] the
    containers that are open and [best] the most that were. *)
Fixpoint nesting (t : pystr) (in_str esc : bool) (depth best : N) : N :=
  match t with
  | [] => best
  | c :: r =>
      if in_str then
        if esc then nesting r true false depth best
        else if N.eqb c 92 then nesting r true true depth best
        else if N.eqb c 34 then nesting r false false depth best
        else nesting r true false depth best
      else if N.eqb c 34 then nesting r true false depth best
      else if N.eqb c 91 || N.eqb c 123 then
        nesting r false false (N.succ depth) (N.max (N.succ depth) best)
      else if N.eqb c 93 || N.eqb c 125 then
        nesting r false false (N.pred depth) best
      else nesting r false false depth best
  end.

(** A text on which [json.load] either returns a value or raises
    [JSONDecodeError].  The decoder of CPython has two more ways to fail,
    which [json_loads] leaves out and [load_existing_annotations] does not
    catch: [ValueError] on an integer literal of more than 4300 digits,
    and [RecursionError] when the nesting nears the recursion limit
    (1000 by default).  A text with no run of more than 4300 digits and
    no nesting deeper than 100 stays clear of both. *)
Definition within_limits (t : pystr) : bool :=
  N.leb (digit_run t 0 0) 4300 && N.leb (nesting t false false 0 0) 100.

(** A directory stands at path [p]: some file lies below it. *)
Definition is_dir (p : pystr) (d : Disk) : bool :=
  existsb (fun pf => startswith (fst pf) (p ++ [47%N])) d.

(** The annotations file of folder [dir] can be read: nothing stands at
    its path (no file and no directory, on which [open] would raise), or a
    text within the limits of the decoder. *)
Definition annotations_file_ok (d : Disk) (dir : pystr) : bool :=
  let p := path_join dir (u "annotations.json") in
  negb (is_dir p d)
  && match disk_get p d with
     | None => true
     | Some (Text t) => within_limits t
     | Some (Nifti _) => false
     end.



(** A folder with two scans and an annotations file that has pages for
    the first one. *)
Definition annotated_disk : Disk :=
  [(u "/scans/a.nii", Nifti demo_volume);
   (u "/scans/b.nii", Nifti demo_volume_b);
   (u "/scans/annotations.json",
    Text (json_text "{'a.nii': {'axial': [3, 27], 'coronal': [9], 'sagittal': []}}"))].

(** A folder without any scan. *)
Definition notes_disk : Disk := [(u "/scans/readme.txt", Text (u "no scans yet"))].

(** The session on [misshapen_disk] once it is open. *)
Definition misshapen_session : NiiExplorer :=
  session_of (NiiExplorer_init misshapen_disk (u "/scans")).

(** ** VolumeView: proofs *)

Lemma nonempty_extent (v : Volume) (a : Axis) :
  nonempty v -> 1 <= extent v a.
Proof.
  intros (H0 & H1 & H2). destruct a; cbn; assumption.
Qed.

Lemma take_slice_in_range (v : Volume) (a : Axis) (idx : Z) :
  0 <= idx <= extent v a - 1 ->
  take_slice v a idx = Ok (slice_shape (view_of v a (init_ui []))).
Proof.
  intros H. unfold take_slice.
  replace ((- extent v a <=? idx) && (idx <? extent v a)) with true.
  - destruct a; reflexivity.
  - symmetry. apply andb_true_iff. split; [apply Z.leb_le | apply Z.ltb_lt]; lia.
Qed.

Lemma update_view_in_range (v : Volume) (a : Axis) (st : NiiExplorer) :
  data st = Some v -> axis st = Some a ->
  0 <= value (slice_slider st) <= extent v a - 1 ->
  update_view st = Ok (set_figure (Some (view_of v a st)) st).
Proof.
  intros Hd Ha Hr. unfold update_view. rewrite Ha, Hd.
  rewrite (take_slice_in_range v a _ Hr). reflexivity.
Qed.

Lemma slider_setValue_loaded (v : Volume) (a : Axis) (i : Z) (st : NiiExplorer) :
  data st = Some v -> axis st = Some a ->
  0 <= minimum (slice_slider st) ->
  maximum (slice_slider st) <= extent v a - 1 ->
  minimum (slice_slider st) <= maximum (slice_slider st) ->
  slider_setValue i st =
    Ok (if bound (slice_slider st) i =? value (slice_slider st) then st
        else moved_to v a (bound (slice_slider st) i) st).
Proof.
  intros Hd Ha Hmin Hmax Hle. unfold slider_setValue.
  destruct (Z.eqb_spec (bound (slice_slider st) i) (value (slice_slider st)));
    [reflexivity|].
  unfold on_slice_changed. cbn [data set_slice_slider]. rewrite Hd.
  erewrite update_view_in_range; [reflexivity | cbn; eassumption ..| cbn].
  unfold bound. lia.
Qed.

Lemma viewing_moved_to (v : Volume) (a : Axis) (x : Z) (st : NiiExplorer) :
  data st = Some v -> axis st = Some a ->
  minimum (slice_slider st) = 0 ->
  maximum (slice_slider st) = extent v a - 1 ->
  enabled (slice_slider st) = true ->
  0 <= x <= extent v a - 1 ->
  viewing v a (moved_to v a x st).
Proof.
  intros Hd Ha Hmin Hmax Hen Hx.
  unfold viewing, moved_to; cbn. repeat split; try assumption; lia.
Qed.

(** What [update_slider] leaves: the range of the axis, the slider
    enabled and at the midpoint, the view drawn whenever the value moved. *)
Lemma update_slider_loaded (v : Volume) (a : Axis) (st : NiiExplorer) :
  nonempty v ->
  data st = Some v -> axis st = Some a ->
  minimum (slice_slider st) = 0 ->
  exists st',
    update_slider st = Ok st' /\
    data st' = Some v /\ axis st' = Some a /\
    minimum (slice_slider st') = 0 /\
    maximum (slice_slider st') = extent v a - 1 /\
    enabled (slice_slider st') = true /\
    value (slice_slider st') = (extent v a - 1) / 2 /\
    same_rest st st'.
Proof.
  intros Hne Hd Ha Hmin. unfold same_rest.
  pose proof (nonempty_extent v a Hne) as Hext.
  unfold update_slider. rewrite Ha, Hd.
  set (mx := extent v a - 1).
  assert (Hmid : 0 <= mx / 2 <= mx).
  { split; [apply Z.div_pos; lia | apply Z.div_le_upper_bound; lia]. }
  (* setMaximum *)
  unfold slider_setMaximum, slider_setRange. rewrite Hmin.
  replace (Z.min 0 mx) with 0 by lia.
  replace (Z.max 0 mx) with mx by lia.
  destruct ((0 =? 0) && (mx =? maximum (slice_slider st))) eqn:Hsame.
  - (* the range is already that of the axis *)
    apply andb_true_iff in Hsame. destruct Hsame as [_ Hsame].
    apply Z.eqb_eq in Hsame.
    cbn [bind]. unfold slider_setEnabled. cbn [bind].
    rewrite (slider_setValue_loaded v a); cbn; try assumption; try lia.
    unfold bound; cbn. rewrite Hmin, <- Hsame.
    replace (Z.max 0 (Z.min mx (mx / 2))) with (mx / 2) by lia.
    destruct (Z.eqb_spec (mx / 2) (value (slice_slider st))) as [E|E].
    + eexists; split; [reflexivity|]. cbn. repeat split; auto.
    + eexists; split; [reflexivity|]. cbn. repeat split; auto.
  - rewrite (slider_setValue_loaded v a); cbn; try assumption; try lia.
    unfold bound; cbn.
    set (b := Z.max 0 (Z.min mx (value (slice_slider st)))).
    assert (Hb : 0 <= b <= mx) by (unfold b; lia).
    destruct (Z.eqb_spec b (value (slice_slider st))) as [E|E].
    + cbn [bind]. unfold slider_setEnabled. cbn [bind].
      rewrite (slider_setValue_loaded v a); cbn; try assumption; try lia.
      unfold bound; cbn.
      replace (Z.max 0 (Z.min mx (mx / 2))) with (mx / 2) by lia.
      destruct (Z.eqb_spec (mx / 2) (value (slice_slider st))).
      * eexists; split; [reflexivity|]. cbn. repeat split; auto.
      * eexists; split; [reflexivity|]. cbn. repeat split; auto.
    + cbn [bind]. unfold slider_setEnabled. cbn [bind].
      rewrite (slider_setValue_loaded v a); cbn; try assumption; try lia.
      unfold bound; cbn.
      replace (Z.max 0 (Z.min mx (mx / 2))) with (mx / 2) by lia.
      destruct (Z.eqb_spec (mx / 2) b).
      * eexists; split; [reflexivity|]. cbn. repeat split; auto.
      * eexists; split; [reflexivity|]. cbn. repeat split; auto.
Qed.

Lemma update_view_viewing (v : Volume) (a : Axis) (st : NiiExplorer) :
  data st = Some v -> axis st = Some a ->
  minimum (slice_slider st) = 0 ->
  maximum (slice_slider st) = extent v a - 1 ->
  enabled (slice_slider st) = true ->
  0 <= value (slice_slider st) <= extent v a - 1 ->
  update_view st = Ok (set_figure (Some (view_of v a st)) st) /\
  viewing v a (set_figure (Some (view_of v a st)) st).
Proof.
  intros Hd Ha Hmin Hmax Hen Hr. split.
  - apply update_view_in_range; assumption.
  - unfold viewing; cbn. repeat split; try assumption; lia.
Qed.

Lemma midpoint_in_range (n : Z) : 1 <= n -> 0 <= (n - 1) / 2 <= n - 1.
Proof.
  intros H. split; [apply Z.div_pos; lia | apply Z.div_le_upper_bound; lia].
Qed.

(** C6.  With a non-empty volume loaded, [on_axis_changed a] completes and
    leaves the slider at the midpoint [(extent - 1) // 2] of the range of
    the new axis, which lies between 0 and [extent - 1]; the session then
    views the volume along [a] with that range. *)
Theorem axis_switch_resets_to_midpoint
    (v : Volume) (a : Axis) (st : NiiExplorer) :
  nonempty v ->
  data st = Some v ->
  minimum (slice_slider st) = 0 ->
  exists st',
    on_axis_changed a st = Ok st' /\
    value (slice_slider st') = (extent v a - 1) / 2 /\
    0 <= value (slice_slider st') <= extent v a - 1 /\
    viewing v a st'.
Proof.
  intros Hne Hd Hmin.
  unfold on_axis_changed. cbn [data set_axis]. rewrite Hd.
  destruct (update_slider_loaded v a (set_axis (Some a) st) Hne)
    as (st1 & Hrun & Hd1 & Ha1 & Hmin1 & Hmax1 & Hen1 & Hval1 & _);
    [assumption | reflexivity | assumption |].
  rewrite Hrun. cbn [bind].
  pose proof (midpoint_in_range _ (nonempty_extent v a Hne)) as Hmid.
  destruct (update_view_viewing v a st1) as [Hview Hinv]; try assumption.
  { rewrite Hval1. exact Hmid. }
  rewrite Hview. eexists. split; [reflexivity|].
  cbn [slice_slider set_figure]. rewrite Hval1.
  split; [reflexivity|]. split; [exact Hmid | exact Hinv].
Qed.

Lemma axis_switch_resets_to_midpoint_witness :
  nonempty demo_volume /\
  data demo_session = Some demo_volume /\
  minimum (slice_slider demo_session) = 0 /\
  exists st',
    on_axis_changed coronal demo_session = Ok st' /\
    value (slice_slider st') = (extent demo_volume coronal - 1) / 2 /\
    0 <= value (slice_slider st') <= extent demo_volume coronal - 1 /\
    viewing demo_volume coronal st'.
Proof.
  assert (Hne : nonempty demo_volume) by (unfold nonempty; cbn; lia).
  split; [exact Hne|]. split; [reflexivity|]. split; [reflexivity|].
  apply (axis_switch_resets_to_midpoint demo_volume coronal demo_session Hne);
    reflexivity.
Defined.

(** C10.  Selecting a file whose volume is non-empty completes (the
    annotations being displayable) and leaves the slider at
    [(extent - 1) // 2] for the axis the combo box shows, whatever index
    the slider held for the previous file. *)
Theorem file_change_resets_to_midpoint
    (dir file_name : pystr) (v : Volume) (st : NiiExplorer) :
  nonempty v ->
  folder st = Some dir ->
  disk_get (path_join dir file_name) (disk st) = Some (Nifti v) ->
  minimum (slice_slider st) = 0 ->
  displayable st ->
  exists st',
    on_file_changed (Some file_name) st = Ok st' /\
    value (slice_slider st') = (extent v (axis_combo st) - 1) / 2 /\
    viewing v (axis_combo st) st'.
Proof.
  intros Hne Hf Hdisk Hmin Hdisp.
  unfold on_file_changed. rewrite Hf, Hdisk.
  set (a := axis_combo st).
  destruct (update_slider_loaded v a
              (set_axis (Some (axis_combo (set_data (Some v) st)))
                 (set_data (Some v) st)) Hne)
    as (st1 & Hrun & Hd1 & Ha1 & Hmin1 & Hmax1 & Hen1 & Hval1 & Hrest);
    [reflexivity | reflexivity | assumption |].
  destruct Hrest as (Han1 & _ & Hfl1 & _ & Hz1 & _).
  rewrite Hrun. cbn [bind].
  pose proof (midpoint_in_range _ (nonempty_extent v a Hne)) as Hmid.
  destruct (update_view_viewing v a st1) as [Hview Hinv]; try assumption.
  { rewrite Hval1. exact Hmid. }
  rewrite Hview. cbn [bind].
  unfold update_annotation_display. cbn [file_list annotations set_figure].
  rewrite Hfl1, Han1. cbn [file_list annotations set_axis set_data].
  unfold displayable in Hdisp.
  destruct (currentItem (file_list st)) as [f|].
  - destruct Hdisp as [pages Hpages]. rewrite Hpages. cbn [bind].
    eexists. split; [reflexivity|]. split.
    + cbn. exact Hval1.
    + destruct Hinv as (I1 & I2 & I3 & I4 & I5 & I6 & I7).
      unfold viewing; cbn in *.
      repeat split; try assumption; try apply I6; reflexivity.
  - eexists. split; [reflexivity|]. split.
    + cbn. exact Hval1.
    + exact Hinv.
Qed.

Lemma file_change_resets_to_midpoint_witness :
  value (slice_slider demo_session2) = 27 /\
  exists st',
    on_file_changed (Some (u "b.nii")) demo_session2 = Ok st' /\
    value (slice_slider st') = 2 /\
    viewing demo_volume_b axial st'.
Proof.
  split; [reflexivity|].
  apply (file_change_resets_to_midpoint (u "/scans") (u "b.nii")
           demo_volume_b demo_session2).
  - unfold nonempty; cbn; lia.
  - reflexivity.
  - reflexivity.
  - reflexivity.
  - unfold displayable. vm_compute. eexists; reflexivity.
Defined.

(** C3.  While a volume is viewed along [a], setting the slider to any
    integer [i] completes and the slider then reads
    [max 0 (min i (extent - 1))]; a drag of the slider is such a
    [setValue], and a wheel step does the same for the value one above or
    below the current one.  The view stays consistent: the index is never
    out of range and never wraps. *)
Theorem setIndex_clamps (v : Volume) (a : Axis) (i : Z) (st : NiiExplorer) :
  viewing v a st ->
  (exists st',
      slider_setValue i st = Ok st' /\
      value (slice_slider st') = Z.max 0 (Z.min i (extent v a - 1)) /\
      viewing v a st') /\
  slider_drag i st = slider_setValue i st /\
  (forall delta, exists st',
      wheelEvent delta st = Ok st' /\
      value (slice_slider st') =
        Z.max 0 (Z.min (value (slice_slider st) + (if 0 <? delta then 1 else -1))
                       (extent v a - 1)) /\
      viewing v a st').
Proof.
  intros Hv. pose proof Hv as (Hd & Ha & Hmin & Hmax & Hen & Hr & Hfig).
  assert (Hset : forall j, exists st',
             slider_setValue j st = Ok st' /\
             value (slice_slider st') = Z.max 0 (Z.min j (extent v a - 1)) /\
             viewing v a st').
  { intros j.
    rewrite (slider_setValue_loaded v a j st Hd Ha) by lia.
    unfold bound. rewrite Hmin, Hmax.
    destruct (Z.eqb_spec (Z.max 0 (Z.min (extent v a - 1) j))
                (value (slice_slider st))) as [E|E].
    - exists st. repeat split; try assumption; try lia; apply Hr.
    - eexists. split; [reflexivity|]. split.
      + cbn. lia.
      + apply viewing_moved_to; try assumption; lia. }
  split; [apply Hset|].
  split; [unfold slider_drag; rewrite Hen; reflexivity|].
  intros delta. unfold wheelEvent. rewrite Hd, Hen. cbn [negb].
  rewrite Hmax.
  destruct (Hset (Z.max 0 (Z.min (value (slice_slider st)
                                   + (if 0 <? delta then 1 else -1))
                                  (extent v a - 1))))
    as (st' & Hrun & Hval & Hinv).
  exists st'. split; [exact Hrun|]. split; [|exact Hinv].
  rewrite Hval. lia.
Qed.

Lemma setIndex_clamps_witness :
  viewing demo_volume axial demo_session /\
  (exists st',
      slider_setValue 31 demo_session = Ok st' /\
      value (slice_slider st') = 29) /\
  (exists st',
      slider_setValue (-1) demo_session = Ok st' /\
      value (slice_slider st') = 0).
Proof.
  assert (Hv : viewing demo_volume axial demo_session).
  { unfold viewing. vm_compute. repeat split; congruence. }
  split; [exact Hv|]. split.
  - destruct (setIndex_clamps demo_volume axial 31 demo_session Hv)
      as [(st' & Hrun & Hval & _) _].
    exists st'. split; [exact Hrun|]. rewrite Hval. reflexivity.
  - destruct (setIndex_clamps demo_volume axial (-1) demo_session Hv)
      as [(st' & Hrun & Hval & _) _].
    exists st'. split; [exact Hrun|]. rewrite Hval. reflexivity.
Defined.

(** C2, as the code has it.  Before any volume is loaded the index
    handlers ([on_slice_changed], the wheel, a drag of the disabled slider)
    complete and leave the session as it is; [on_axis_changed] completes
    and records the axis in [self.axis], leaving everything else as it
    is, and a choice in the combo box is kept by the combo box as well. *)
Theorem before_load_navigation_inert (st : NiiExplorer) :
  unloaded st ->
  (forall idx, on_slice_changed idx st = Ok st) /\
  (forall delta, wheelEvent delta st = Ok st) /\
  (forall i, slider_drag i st = Ok st) /\
  (forall a, on_axis_changed a st = Ok (set_axis (Some a) st)) /\
  (forall a, axis_combo_select a st =
             Ok (if Axis_eqb a (axis_combo st) then st
                 else set_axis (Some a) (set_axis_combo a st))).
Proof.
  intros [Hd Hen]. repeat split; intros.
  - unfold on_slice_changed. rewrite Hd. reflexivity.
  - unfold wheelEvent. rewrite Hd. reflexivity.
  - unfold slider_drag. rewrite Hen. reflexivity.
  - unfold on_axis_changed. cbn [data set_axis]. rewrite Hd. reflexivity.
  - unfold axis_combo_select. destruct (Axis_eqb a (axis_combo st)); [reflexivity|].
    unfold on_axis_changed. cbn [data set_axis set_axis_combo]. rewrite Hd.
    reflexivity.
Qed.

Lemma before_load_navigation_inert_witness :
  unloaded (init_ui demo_disk) /\
  wheelEvent 120 (init_ui demo_disk) = Ok (init_ui demo_disk) /\
  on_axis_changed coronal (init_ui demo_disk)
    = Ok (set_axis (Some coronal) (init_ui demo_disk)).
Proof.
  assert (Hu : unloaded (init_ui demo_disk)) by (split; reflexivity).
  split; [exact Hu|].
  destruct (before_load_navigation_inert (init_ui demo_disk) Hu)
    as (_ & Hwheel & _ & Haxis & _).
  split; [apply Hwheel | apply Haxis].
Defined.

(** C2 as stated fails before any volume is loaded: [on_axis_changed]
    changes the session, and the axis chosen then is the one the first
    file is shown along; a zoom change reaches [update_view], which
    raises. *)
Lemma before_load_not_all_noops :
  unloaded (init_ui demo_disk) /\
  on_axis_changed coronal (init_ui demo_disk) <> Ok (init_ui demo_disk) /\
  (exists st st',
      open_folder (u "/scans") (init_ui demo_disk) = Ok st /\
      option_map title_axis (figure st) = Some axial /\
      (st0 <- axis_combo_select coronal (init_ui demo_disk) ;;
       open_folder (u "/scans") st0) = Ok st' /\
      option_map title_axis (figure st') = Some coronal) /\
  zoom_spin_setValue 150 (init_ui demo_disk) = Raise AttributeError /\
  update_view (init_ui demo_disk) = Raise AttributeError /\
  update_view (set_axis (Some coronal) (init_ui demo_disk)) = Raise TypeError.
Proof.
  split; [split; reflexivity|].
  split.
  { intros H.
    apply (f_equal (fun r => match r with Ok s => axis s | _ => None end)) in H.
    cbn in H. discriminate H. }
  split.
  { do 2 eexists. split; [vm_compute; reflexivity|].
    split; [reflexivity|]. split; [vm_compute; reflexivity | reflexivity]. }
  repeat split; reflexivity.
Qed.

(** ** The session invariant: proofs *)

Lemma nonemptyb_nonempty (v : Volume) : nonemptyb v = true -> nonempty v.
Proof.
  unfold nonemptyb, nonempty. intros H.
  apply andb_true_iff in H. destruct H as [H H2].
  apply andb_true_iff in H. destruct H as [H0 H1].
  repeat split; apply Z.leb_le; assumption.
Qed.

Lemma disk_okb_get (p : pystr) (v : Volume) (d : Disk) :
  disk_okb d = true -> disk_get p d = Some (Nifti v) -> nonempty v.
Proof.
  unfold disk_okb. induction d as [|[p' f'] d IH]; cbn; [discriminate|].
  intros H. apply andb_true_iff in H. destruct H as [H0 H].
  destruct (str_eqb p p').
  - intros E. injection E as ->. apply nonemptyb_nonempty, H0.
  - apply IH, H.
Qed.

Lemma disk_okb_put_text (p t : pystr) (d : Disk) :
  disk_okb d = true -> disk_okb (disk_put p (Text t) d) = true.
Proof.
  unfold disk_okb. induction d as [|[p' f'] d IH]; cbn; [reflexivity|].
  intros H. apply andb_true_iff in H. destruct H as [H0 H].
  destruct (str_eqb p p'); cbn.
  - exact H.
  - rewrite H0, (IH H). reflexivity.
Qed.

Lemma viewing_frame (v : Volume) (a : Axis) (st st' : NiiExplorer) :
  viewing v a st ->
  data st' = data st -> axis st' = axis st ->
  slice_slider st' = slice_slider st -> zoom_spin st' = zoom_spin st ->
  figure st' = figure st ->
  viewing v a st'.
Proof.
  unfold viewing, view_of. intros H Hd Ha Hs Hz Hf.
  rewrite Hd, Ha, Hs, Hz, Hf. exact H.
Qed.

Lemma session_ok_frame (st st' : NiiExplorer) :
  session_ok st ->
  disk_okb (disk st') = true ->
  data st' = data st -> axis st' = axis st ->
  slice_slider st' = slice_slider st -> zoom_spin st' = zoom_spin st ->
  figure st' = figure st ->
  session_ok st'.
Proof.
  intros (Hdisk & Hmin & Hdata) Hdisk' Hd Ha Hs Hz Hf.
  split; [exact Hdisk'|]. rewrite Hs. split; [exact Hmin|].
  rewrite Hd. destruct (data st) as [v|] eqn:E; [|exact Hdata].
  destruct Hdata as [Hne [a Hv]]. split; [exact Hne|]. exists a.
  apply (viewing_frame v a st st' Hv); try assumption.
  rewrite Hd, E. reflexivity.
Qed.

(** [update_slider] followed by [update_view], as [on_axis_changed] and
    [on_file_changed] run them. *)
Lemma update_slider_then_view (v : Volume) (a : Axis) (st : NiiExplorer) :
  nonempty v ->
  data st = Some v -> axis st = Some a ->
  minimum (slice_slider st) = 0 ->
  exists st',
    (st1 <- update_slider st ;; update_view st1) = Ok st' /\
    value (slice_slider st') = (extent v a - 1) / 2 /\
    viewing v a st' /\
    same_rest st st'.
Proof.
  intros Hne Hd Ha Hmin.
  destruct (update_slider_loaded v a st Hne Hd Ha Hmin)
    as (st1 & Hrun & Hd1 & Ha1 & Hmin1 & Hmax1 & Hen1 & Hval1 & Hrest).
  rewrite Hrun. cbn [bind].
  pose proof (midpoint_in_range _ (nonempty_extent v a Hne)) as Hmid.
  destruct (update_view_viewing v a st1) as [Hview Hinv]; try assumption.
  { rewrite Hval1. exact Hmid. }
  rewrite Hview. eexists. split; [reflexivity|].
  split; [exact Hval1|]. split; [exact Hinv|]. exact Hrest.
Qed.

Lemma slider_setValue_viewing (v : Volume) (a : Axis) (j : Z) (st : NiiExplorer) :
  viewing v a st ->
  exists st',
    slider_setValue j st = Ok st' /\
    value (slice_slider st') = Z.max 0 (Z.min j (extent v a - 1)) /\
    viewing v a st' /\
    data st' = data st /\ disk st' = disk st /\
    minimum (slice_slider st') = minimum (slice_slider st).
Proof.
  intros (Hd & Ha & Hmin & Hmax & Hen & Hr & Hfig).
  rewrite (slider_setValue_loaded v a j st Hd Ha) by lia.
  unfold bound. rewrite Hmin, Hmax.
  destruct (Z.eqb_spec (Z.max 0 (Z.min (extent v a - 1) j))
              (value (slice_slider st))) as [E|E].
  - exists st. split; [reflexivity|]. split; [lia|]. split.
    + unfold viewing. repeat split; try assumption; apply Hr.
    + repeat split; cbn; auto.
  - eexists. split; [reflexivity|]. split; [cbn; lia|]. split.
    + apply viewing_moved_to; try assumption; lia.
    + repeat split; cbn; auto.
Qed.

Lemma annotate_page_frame (st st' : NiiExplorer) :
  annotate_page st = Ok st' ->
  disk st' = disk st /\ data st' = data st /\ axis st' = axis st /\
  slice_slider st' = slice_slider st /\ zoom_spin st' = zoom_spin st /\
  figure st' = figure st.
Proof.
  unfold annotate_page, update_annotation_display. intros H.
  destruct (currentItem (file_list st)) as [f|] eqn:Hcur.
  - destruct (confirm f (axis_combo st) (value (slice_slider st)) (annotations st))
      as [ann| |]; try discriminate H.
    cbn [bind file_list set_annotations annotations] in H. rewrite Hcur in H.
    destruct (describe ann f) as [pages| |]; try discriminate H.
    cbn [bind] in H. injection H as <-. repeat split.
  - injection H as <-. repeat split.
Qed.

Lemma update_annotation_display_frame (st st' : NiiExplorer) :
  update_annotation_display st = Ok st' ->
  disk st' = disk st /\ data st' = data st /\ axis st' = axis st /\
  slice_slider st' = slice_slider st /\ zoom_spin st' = zoom_spin st /\
  figure st' = figure st.
Proof.
  unfold update_annotation_display. intros H.
  destruct (currentItem (file_list st)) as [f|].
  - destruct (describe (annotations st) f) as [pages| |]; try discriminate H.
    cbn [bind] in H. injection H as <-. repeat split.
  - injection H as <-. repeat split.
Qed.

Lemma on_file_changed_ok (cur : option pystr) (st st' : NiiExplorer) :
  session_ok st -> on_file_changed cur st = Ok st' -> session_ok st'.
Proof.
  intros Hok H. unfold on_file_changed in H.
  destruct cur as [f|]; [|injection H as <-; exact Hok].
  destruct (folder st) as [dir|]; [|discriminate H].
  destruct (disk_get (path_join dir f) (disk st)) as [[v|t]|] eqn:Hget;
    try discriminate H.
  destruct Hok as (Hdisk & Hmin & _).
  pose proof (disk_okb_get _ _ _ Hdisk Hget) as Hne.
  destruct (update_slider_then_view v (axis_combo st)
              (set_axis (Some (axis_combo (set_data (Some v) st)))
                 (set_data (Some v) st)) Hne)
    as (st2 & Hrun & _ & Hview & Hrest); [reflexivity | reflexivity | exact Hmin |].
  cbn [axis_combo set_data] in H, Hrun.
  destruct (update_slider (set_axis (Some (axis_combo st)) (set_data (Some v) st)))
    as [s1| |]; try discriminate Hrun.
  cbn [bind] in H, Hrun. rewrite Hrun in H. cbn [bind] in H.
  destruct (update_annotation_display_frame _ _ H)
    as (Hdk & Hdt & Hax & Hsl & Hzm & Hfg).
  destruct Hrest as (_ & _ & _ & _ & _ & _ & Hdisk2 & _).
  cbn [disk set_axis set_data] in Hdisk2.
  destruct Hview as (V1 & V2 & V3 & V4 & V5 & V6 & V7).
  split; [rewrite Hdk, Hdisk2; exact Hdisk|].
  rewrite Hsl. split; [exact V3|]. rewrite Hdt, V1.
  split; [exact Hne|]. exists (axis_combo st).
  apply (viewing_frame v (axis_combo st) st2 st'); try assumption.
  unfold viewing. repeat split; try assumption; apply V6.
Qed.

Lemma step_session_ok (e : event) (st st' : NiiExplorer) :
  session_ok st -> step e st = Ok st' -> session_ok st'.
Proof.
  intros Hok H. destruct e as [a|i|delta|z|row| | |]; cbn [step] in H.
  - (* the axis combo box *)
    unfold axis_combo_select in H.
    destruct (Axis_eqb a (axis_combo st)); [injection H as <-; exact Hok|].
    unfold on_axis_changed in H. cbn [data set_axis set_axis_combo] in H.
    destruct Hok as (Hdisk & Hmin & Hdata).
    destruct (data st) as [v|] eqn:Hd.
    + destruct Hdata as [Hne _].
      destruct (update_slider_then_view v a
                  (set_axis (Some a) (set_axis_combo a st)) Hne)
        as (st2 & Hrun & _ & Hview & Hrest);
        [exact Hd | reflexivity | exact Hmin |].
      rewrite Hrun in H. injection H as <-.
      destruct Hrest as (_ & _ & _ & _ & _ & _ & Hdisk2 & _).
      pose proof Hview as (V1 & _ & V3 & _).
      split; [rewrite Hdisk2; exact Hdisk|]. split; [exact V3|].
      rewrite V1. split; [exact Hne|]. exists a. exact Hview.
    + injection H as <-. split; [exact Hdisk|]. split; [exact Hmin|].
      cbn [data set_axis set_axis_combo]. rewrite Hd. exact Hdata.
  - (* a drag of the slider *)
    unfold slider_drag in H. destruct Hok as (Hdisk & Hmin & Hdata).
    destruct (data st) as [v|] eqn:Hd.
    + destruct Hdata as [Hne [a Hv]].
      destruct (slider_setValue_viewing v a i st Hv)
        as (st2 & Hrun & _ & Hv2 & Hd2 & Hdk2 & Hmin2).
      destruct (enabled (slice_slider st)).
      * rewrite Hrun in H. injection H as <-.
        split; [rewrite Hdk2; exact Hdisk|]. split; [rewrite Hmin2; exact Hmin|].
        rewrite Hd2, Hd. split; [exact Hne|]. exists a. exact Hv2.
      * injection H as <-. split; [exact Hdisk|]. split; [exact Hmin|].
        rewrite Hd. split; [exact Hne|]. exists a. exact Hv.
    + rewrite Hdata in H. injection H as <-.
      split; [exact Hdisk|]. split; [exact Hmin|]. rewrite Hd. exact Hdata.
  - (* the wheel *)
    unfold wheelEvent in H. destruct Hok as (Hdisk & Hmin & Hdata).
    destruct (data st) as [v|] eqn:Hd.
    + destruct Hdata as [Hne [a Hv]].
      destruct (negb (enabled (slice_slider st))).
      * injection H as <-. split; [exact Hdisk|]. split; [exact Hmin|].
        rewrite Hd. split; [exact Hne|]. exists a. exact Hv.
      * destruct (slider_setValue_viewing v a
                    (Z.max 0 (Z.min (value (slice_slider st)
                                     + (if 0 <? delta then 1 else -1))
                                    (maximum (slice_slider st)))) st Hv)
          as (st2 & Hrun & _ & Hv2 & Hd2 & Hdk2 & Hmin2).
        rewrite Hrun in H. injection H as <-.
        split; [rewrite Hdk2; exact Hdisk|]. split; [rewrite Hmin2; exact Hmin|].
        rewrite Hd2, Hd. split; [exact Hne|]. exists a. exact Hv2.
    + injection H as <-. split; [exact Hdisk|]. split; [exact Hmin|].
      rewrite Hd. exact Hdata.
  - (* the zoom box *)
    unfold zoom_spin_setValue in H.
    destruct (Z.max 10 (Z.min 500 z) =? zoom_spin st);
      [injection H as <-; exact Hok|].
    destruct Hok as (Hdisk & Hmin & Hdata).
    destruct (data st) as [v|] eqn:Hd.
    + destruct Hdata as [Hne [a Hv]].
      destruct Hv as (V1 & V2 & V3 & V4 & V5 & V6 & V7).
      destruct (update_view_viewing v a
                  (set_zoom_spin (Z.max 10 (Z.min 500 z)) st))
        as [Hrun Hv2]; try assumption.
      rewrite Hrun in H. injection H as <-.
      split; [exact Hdisk|]. split; [exact Hmin|].
      cbn [data set_figure set_zoom_spin]. rewrite Hd.
      split; [exact Hne|]. exists a. exact Hv2.
    + unfold update_view in H. cbn [axis data set_zoom_spin] in H.
      rewrite Hd in H. destruct (axis st); discriminate H.
  - (* the file list *)
    unfold file_list_setCurrentRow in H.
    assert (Hset : forall w, session_ok (set_file_list w st)).
    { intros w. apply (session_ok_frame st); try reflexivity; try exact Hok.
      apply Hok. }
    destruct (if (row <? length (items (file_list st)))%nat
              then Some row else None) as [r|];
      destruct (currentRow (file_list st)) as [r'|];
      try (apply (on_file_changed_ok _ _ _ (Hset _) H)).
    + destruct (r =? r')%nat; [injection H as <-; exact Hok|].
      apply (on_file_changed_ok _ _ _ (Hset _) H).
    + injection H as <-. exact Hok.
  - (* confirm *)
    destruct (annotate_page_frame _ _ H) as (Hdk & Hdt & Hax & Hsl & Hzm & Hfg).
    apply (session_ok_frame st); try assumption. rewrite Hdk. apply Hok.
  - (* export of the current record *)
    unfold export_current_annotation in H.
    destruct (currentItem (file_list st)) as [f|]; [|injection H as <-; exact Hok].
    destruct (py_get (annotations st) f JNull) as [ann| |]; try discriminate H.
    cbn [bind] in H.
    destruct (py_truthy ann) as [[|]| |]; try discriminate H; cbn [bind] in H;
      [|injection H as <-; exact Hok].
    destruct (folder st) as [dir|]; [|discriminate H].
    destruct (json_dumps (JDict [(f, ann)])) as [t| |]; try discriminate H.
    cbn [bind] in H. injection H as <-.
    apply (session_ok_frame st); try reflexivity; try exact Hok.
    apply disk_okb_put_text, Hok.
  - (* export of the store *)
    unfold save_annotations in H.
    destruct (folder st) as [dir|]; [|discriminate H].
    destruct (json_dumps (annotations st)) as [t| |]; try discriminate H.
    cbn [bind] in H. injection H as <-.
    apply (session_ok_frame st); try reflexivity; try exact Hok.
    apply disk_okb_put_text, Hok.
Qed.

Lemma load_existing_annotations_frame (st st' : NiiExplorer) :
  load_existing_annotations st = Ok st' ->
  disk st' = disk st /\ data st' = data st /\ axis st' = axis st /\
  slice_slider st' = slice_slider st /\ zoom_spin st' = zoom_spin st /\
  figure st' = figure st.
Proof.
  unfold load_existing_annotations. intros H.
  destruct (folder st) as [dir|]; [|discriminate H].
  destruct (disk_get _ (disk st)) as [[v|t]|]; try discriminate H.
  - destruct (json_loads t); injection H as <-; repeat split.
  - injection H as <-. repeat split.
Qed.

(** X1.  On a disk whose images all decode to non-empty volumes, the
    session a window starts in satisfies the invariant, and every event
    that completes keeps it: the slider starts at 0 and is disabled until
    a volume is loaded; from then on the loaded volume is viewed along
    some axis, with the slider ranging over the indices of that axis, its
    value one of them, and the figure showing that slice at the current
    zoom. *)
Theorem session_invariant (d : Disk) (choice : pystr) (es : list event)
    (st st' : NiiExplorer) :
  disk_okb d = true ->
  NiiExplorer_init d choice = Ok st ->
  run (map step es) st = Ok st' ->
  session_ok st'.
Proof.
  intros Hd Hinit Hrun.
  assert (Hst : session_ok st).
  { unfold NiiExplorer_init, open_folder in Hinit.
    destruct choice as [|c choice]; [discriminate Hinit|].
    destruct (load_files (c :: choice) (init_ui d)) as [st1| |] eqn:Hload;
      try discriminate Hinit.
    cbn [bind] in Hinit.
    assert (Hst1 : session_ok st1).
    { unfold load_files in Hload.
      assert (Hstart : forall w, session_ok
                (set_file_list w (set_folder (Some (c :: choice)) (init_ui d)))).
      { intros w. split; [exact Hd|]. split; reflexivity. }
      destruct (sorted_strs _) as [|n ns] eqn:Hfiles.
      - injection Hload as <-. apply Hstart.
      - apply (step_session_ok (SelectFile 0) _ _ (Hstart _) Hload). }
    destruct (load_existing_annotations_frame _ _ Hinit)
      as (Hdk & Hdt & Hax & Hsl & Hzm & Hfg).
    apply (session_ok_frame st1); try assumption. rewrite Hdk. apply Hst1. }
  clear Hinit. revert st Hst Hrun.
  induction es as [|e es IH]; intros st Hst Hrun.
  - injection Hrun as <-. exact Hst.
  - cbn [map run] in Hrun.
    destruct (step e st) as [st1| |] eqn:E; try discriminate Hrun.
    cbn [bind] in Hrun. exact (IH st1 (step_session_ok e st st1 Hst E) Hrun).
Qed.

Lemma session_invariant_witness :
  exists st st',
    NiiExplorer_init demo_disk2 (u "/scans") = Ok st /\
    run (map step [SelectAxis coronal; Drag 100; Zoom 5; SelectFile 1; Wheel (-120)])
        st = Ok st' /\
    session_ok st'.
Proof.
  destruct (NiiExplorer_init demo_disk2 (u "/scans")) as [st| |] eqn:Hinit;
    try (vm_compute in Hinit; discriminate Hinit).
  destruct (run (map step [SelectAxis coronal; Drag 100; Zoom 5; SelectFile 1;
                           Wheel (-120)]) st) as [st'| |] eqn:Hrun;
    try (vm_compute in Hinit; injection Hinit as <-;
         vm_compute in Hrun; discriminate Hrun).
  exists st, st'. split; [reflexivity|]. split; [exact Hrun|].
  assert (Hd : disk_okb demo_disk2 = true) by (vm_compute; reflexivity).
  exact (session_invariant demo_disk2 (u "/scans") _ st st' Hd Hinit Hrun).
Defined.

(** ** AnnotationStore: proofs *)

Lemma str_eqb_eq (a b : pystr) : str_eqb a b = true <-> a = b.
Proof.
  revert b. induction a as [|x a IH]; intros [|y b]; cbn; split; intros H;
    try reflexivity; try discriminate.
  - apply andb_true_iff in H. destruct H as [Hx Ha].
    apply N.eqb_eq in Hx. apply IH in Ha. congruence.
  - injection H as -> ->. rewrite N.eqb_refl. cbn. apply IH. reflexivity.
Qed.

Lemma str_eqb_refl (a : pystr) : str_eqb a a = true.
Proof. apply str_eqb_eq. reflexivity. Qed.

Lemma dict_get_set_same (k : pystr) (v : Json) (d : pydict) :
  dict_get k (dict_set k v d) = Some v.
Proof.
  induction d as [|[k' v'] d IH]; cbn.
  - rewrite str_eqb_refl. reflexivity.
  - destruct (str_eqb k k') eqn:E; cbn; rewrite E; [reflexivity | exact IH].
Qed.

Lemma dict_set_present (k : pystr) (v : Json) (d : pydict) :
  dict_get k d = Some v -> dict_set k v d = d.
Proof.
  induction d as [|[k' v'] d IH]; cbn; [discriminate|].
  destruct (str_eqb k k') eqn:E.
  - intros H. injection H as ->. reflexivity.
  - intros H. rewrite (IH H). reflexivity.
Qed.

Lemma In_insert_num (x y : Json) (l : list Json) :
  In y (insert_num x l) <-> y = x \/ In y l.
Proof.
  induction l as [|z l IH]; cbn.
  - intuition congruence.
  - destruct (key_leb x z); cbn; rewrite ?IH; intuition congruence.
Qed.

Lemma In_sort_nums (y : Json) (l : list Json) :
  In y (sort_nums l) <-> In y l.
Proof.
  induction l as [|x l IH]; cbn; [tauto|].
  rewrite In_insert_num, IH. intuition congruence.
Qed.

Lemma forallb_is_num_sort (l : list Json) :
  forallb is_num l = true -> forallb is_num (sort_nums l) = true.
Proof.
  rewrite !forallb_forall. intros H x Hx. apply H, In_sort_nums, Hx.
Qed.

Lemma list_contains_int_found (idx : Z) (l : list Json) :
  forallb is_num l = true -> In (JInt idx) l ->
  list_contains_int idx l = Ok true.
Proof.
  induction l as [|e l IH]; cbn; [tauto|].
  intros Hn [He|Hin].
  - subst e. rewrite Z.eqb_refl. reflexivity.
  - apply andb_true_iff in Hn. destruct Hn as [He Hl].
    destruct e; try discriminate He.
    + destruct (idx =? Z.b2z b); [reflexivity | auto].
    + destruct (idx =? z); [reflexivity | auto].
Qed.

Lemma py_sort_ok (l : list Json) (p : Json) :
  py_sort (JList l) = Ok p ->
  forallb is_num l = true /\ p = JList (sort_nums l).
Proof.
  unfold py_sort. destruct (existsb is_float l); [discriminate|].
  destruct (forallb is_num l).
  - intros H. injection H as <-. split; reflexivity.
  - destruct (existsb is_num l); discriminate.
Qed.

(** Confirming again what was just confirmed finds the record, the list
    and the index, and changes nothing. *)
Lemma confirm_again (f : pystr) (a : Axis) (idx : Z) (ann ann1 : Json) :
  confirm f a idx ann = Ok ann1 -> confirm f a idx ann1 = Ok ann1.
Proof.
  unfold confirm. intros H.
  destruct ann as [| | | | s|l|d];
    try discriminate H.
  - (* a string: the assignment or the subscript raises *)
    cbn in H. destruct (negb (str_contains s f)); cbn in H; discriminate H.
  - cbn in H.
    destruct (negb (existsb _ l)); cbn in H; discriminate H.
  - cbn [py_contains_str bind] in H.
    set (d1 := if negb (dict_mem f d) then dict_set f empty_record d else d) in *.
    assert (E1 : (if negb (dict_mem f d)
                  then py_setitem (JDict d) f empty_record
                  else Ok (JDict d)) = Ok (JDict d1)).
    { unfold d1. destruct (negb (dict_mem f d)); reflexivity. }
    rewrite E1 in H. cbn [bind py_getitem] in H.
    destruct (dict_get f d1) as [record|] eqn:Hrec; [|discriminate H].
    cbn [bind] in H.
    destruct record as [| | | | | |r]; try discriminate H.
    cbn [py_getitem] in H.
    destruct (dict_get (axis_text a) r) as [pages|] eqn:Hpages; [|discriminate H].
    cbn [bind] in H.
    destruct (py_contains_int pages idx) as [found| |] eqn:Hfound;
      try discriminate H.
    cbn [bind] in H. destruct found; cbn [negb] in H.
    + (* the index was already there *)
      injection H as <-.
      cbn [py_contains_str bind]. unfold dict_mem. rewrite Hrec. cbn [negb bind].
      cbn [py_getitem]. rewrite Hrec. cbn [bind py_getitem]. rewrite Hpages.
      cbn [bind]. rewrite Hfound. reflexivity.
    + destruct pages as [| | | | |l|]; try discriminate H.
      cbn [py_append bind] in H.
      destruct (py_sort (JList (l ++ [JInt idx]))) as [pages2| |] eqn:Hsort;
        try discriminate H.
      apply py_sort_ok in Hsort. destruct Hsort as [Hnum ->].
      cbn [bind py_setitem] in H. injection H as <-.
      cbn [py_contains_str bind]. unfold dict_mem.
      rewrite dict_get_set_same. cbn [negb bind py_getitem].
      rewrite dict_get_set_same. cbn [bind py_getitem].
      rewrite dict_get_set_same. cbn [bind py_contains_int].
      rewrite list_contains_int_found.
      * reflexivity.
      * apply forallb_is_num_sort, Hnum.
      * apply In_sort_nums, in_or_app. right. left. reflexivity.
Qed.

(** C4.  Confirming the same file, axis and index twice in a row is the
    same as confirming once, on the store and on the whole session
    (including the case where the first call raises, in which the second
    never runs). *)
Theorem confirm_idempotent :
  (forall (f : pystr) (a : Axis) (idx : Z) (ann : Json),
      (ann1 <- confirm f a idx ann ;; confirm f a idx ann1) = confirm f a idx ann) /\
  (forall st : NiiExplorer,
      (st1 <- annotate_page st ;; annotate_page st1) = annotate_page st).
Proof.
  split.
  - intros f a idx ann.
    destruct (confirm f a idx ann) as [ann1| |] eqn:H; cbn [bind];
      [exact (confirm_again _ _ _ _ _ H) | reflexivity | reflexivity].
  - intros st.
    destruct (annotate_page st) as [st1| |] eqn:H; cbn [bind];
      [| reflexivity | reflexivity].
    unfold annotate_page in *.
    destruct (currentItem (file_list st)) as [f|] eqn:Hcur.
    + destruct (confirm f (axis_combo st) (value (slice_slider st)) (annotations st))
        as [ann1| |] eqn:Hc; try discriminate H.
      cbn [bind] in H. unfold update_annotation_display in H.
      cbn [file_list set_annotations annotations] in H. rewrite Hcur in H.
      destruct (describe ann1 f) as [pages| |] eqn:Hdesc; try discriminate H.
      cbn [bind] in H. injection H as <-.
      cbn [file_list set_annotation_display set_annotations]. rewrite Hcur.
      cbn [axis_combo slice_slider annotations set_annotation_display set_annotations].
      rewrite (confirm_again _ _ _ _ _ Hc). cbn [bind].
      unfold update_annotation_display.
      cbn [file_list set_annotation_display set_annotations annotations].
      rewrite Hcur, Hdesc. reflexivity.
    + injection H as <-. rewrite Hcur. reflexivity.
Qed.

Lemma ints_of_map (zs : list Z) : ints_of (map JInt zs) = Some zs.
Proof.
  induction zs as [|z zs IH]; cbn; [reflexivity | rewrite IH; reflexivity].
Qed.

Lemma ints_of_inv (l : list Json) (zs : list Z) :
  ints_of l = Some zs -> l = map JInt zs.
Proof.
  revert zs. induction l as [|e l IH]; cbn; intros zs H.
  - injection H as <-. reflexivity.
  - destruct e; try discriminate H.
    destruct (ints_of l) as [zs'|]; [|discriminate H].
    injection H as <-. cbn. rewrite (IH zs' eq_refl). reflexivity.
Qed.

Lemma pages_okb_inv (p : Json) :
  pages_okb p = true ->
  exists zs, p = JList (map JInt zs) /\ ascending zs = true.
Proof.
  destruct p as [| | | | |l|]; try discriminate. cbn.
  destruct (ints_of l) as [zs|] eqn:E; [|discriminate].
  intros H. exists zs. rewrite (ints_of_inv l zs E). split; [reflexivity | exact H].
Qed.

Lemma insert_num_ints (x : Z) (zs : list Z) :
  insert_num (JInt x) (map JInt zs) = map JInt (insert_z x zs).
Proof.
  induction zs as [|z zs IH]; cbn; [reflexivity|].
  destruct (x <=? z); cbn; [reflexivity | rewrite IH; reflexivity].
Qed.

Lemma sort_nums_ints (zs : list Z) :
  sort_nums (map JInt zs) = map JInt (fold_right insert_z [] zs).
Proof.
  induction zs as [|z zs IH]; cbn; [reflexivity|].
  unfold sort_nums in IH. rewrite IH. apply insert_num_ints.
Qed.

Lemma ascending_tail (x : Z) (l : list Z) :
  ascending (x :: l) = true -> ascending l = true.
Proof.
  destruct l as [|y l]; [reflexivity|]. cbn.
  intros H. apply andb_true_iff in H. apply H.
Qed.

Lemma ascending_insert (x : Z) (l : list Z) :
  ascending l = true -> ~ In x l -> ascending (insert_z x l) = true.
Proof.
  induction l as [|y l IH]; intros Hasc Hnin; [reflexivity|].
  cbn [insert_z]. destruct (Z.leb_spec x y) as [Hle|Hgt].
  - change (((x <? y) && ascending (y :: l)) = true).
    apply andb_true_iff. split; [|exact Hasc].
    apply Z.ltb_lt. assert (x <> y) by (intros ->; apply Hnin; left; reflexivity).
    lia.
  - pose proof (IH (ascending_tail _ _ Hasc)
                  (fun H => Hnin (or_intror H))) as IH'.
    destruct l as [|z l].
    + cbn. rewrite andb_true_r. apply Z.ltb_lt. exact Hgt.
    + cbn [insert_z] in *. cbn in Hasc. apply andb_true_iff in Hasc.
      destruct Hasc as [Hyz Hasc].
      destruct (x <=? z).
      * change (((y <? x) && ascending (x :: z :: l)) = true).
        apply andb_true_iff. split; [apply Z.ltb_lt; exact Hgt | exact IH'].
      * change (((y <? z) && ascending (z :: insert_z x l)) = true).
        apply andb_true_iff. split; [exact Hyz | exact IH'].
Qed.

Lemma In_insert_z (x y : Z) (l : list Z) :
  In y (insert_z x l) <-> y = x \/ In y l.
Proof.
  induction l as [|z l IH]; cbn.
  - intuition congruence.
  - destruct (x <=? z); cbn; rewrite ?IH; intuition congruence.
Qed.

Lemma In_fold_insert_z (y : Z) (acc zs : list Z) :
  In y (fold_right insert_z acc zs) <-> In y zs \/ In y acc.
Proof.
  induction zs as [|z zs IH]; cbn; [tauto|].
  rewrite In_insert_z, IH. intuition congruence.
Qed.

Lemma ascending_head_lt (x : Z) (l : list Z) :
  ascending (x :: l) = true -> forall y, In y l -> x < y.
Proof.
  revert x. induction l as [|z l IH]; intros x Hasc y Hin; [destruct Hin|].
  cbn in Hasc. apply andb_true_iff in Hasc. destruct Hasc as [Hxz Hasc].
  apply Z.ltb_lt in Hxz. destruct Hin as [->|Hin]; [exact Hxz|].
  pose proof (IH z Hasc y Hin). lia.
Qed.

(** Sorting an ascending list with new values behind it gives an
    ascending list again. *)
Lemma ascending_fold_insert (acc zs : list Z) :
  ascending acc = true -> ascending zs = true ->
  (forall z, In z zs -> ~ In z acc) ->
  ascending (fold_right insert_z acc zs) = true.
Proof.
  induction zs as [|z zs IH]; intros Hacc Hzs Hfresh; [exact Hacc|].
  cbn [fold_right]. apply ascending_insert.
  - apply IH; [exact Hacc | exact (ascending_tail _ _ Hzs) |].
    intros y Hy. apply Hfresh. right. exact Hy.
  - rewrite In_fold_insert_z. intros [H|H].
    + pose proof (ascending_head_lt z zs Hzs z H). lia.
    + apply (Hfresh z); [left; reflexivity | exact H].
Qed.

Lemma list_contains_int_ints (idx : Z) (zs : list Z) :
  list_contains_int idx (map JInt zs) = Ok (existsb (Z.eqb idx) zs).
Proof.
  induction zs as [|z zs IH]; cbn; [reflexivity|].
  destruct (idx =? z); [reflexivity | exact IH].
Qed.

Lemma forallb_is_num_ints (zs : list Z) : forallb is_num (map JInt zs) = true.
Proof. induction zs; cbn; auto. Qed.

Lemma existsb_is_float_ints (zs : list Z) : existsb is_float (map JInt zs) = false.
Proof. induction zs; cbn; auto. Qed.

(** Appending an index that is not in an ordered list and sorting gives an
    ordered list. *)
Lemma append_sort_ok (idx : Z) (zs : list Z) :
  ascending zs = true ->
  existsb (Z.eqb idx) zs = false ->
  exists zs',
    py_sort (JList (map JInt zs ++ [JInt idx])) = Ok (JList (map JInt zs')) /\
    ascending zs' = true /\
    (forall z, In z zs' <-> z = idx \/ In z zs).
Proof.
  intros Hasc Hnin.
  exists (fold_right insert_z [] (zs ++ [idx])).
  replace (map JInt zs ++ [JInt idx]) with (map JInt (zs ++ [idx]))
    by (rewrite map_app; reflexivity).
  unfold py_sort.
  rewrite existsb_is_float_ints, forallb_is_num_ints, sort_nums_ints.
  split; [reflexivity|].
  rewrite fold_right_app. cbn [fold_right insert_z]. split.
  - apply ascending_fold_insert; [reflexivity | exact Hasc |].
    intros z Hz [<-|[]].
    assert (existsb (Z.eqb idx) zs = true) as Hex.
    { apply existsb_exists. exists idx. split; [exact Hz | apply Z.eqb_refl]. }
    congruence.
  - intros z. rewrite In_fold_insert_z. cbn. intuition congruence.
Qed.

Lemma dict_get_set_other (k k' : pystr) (v : Json) (d : pydict) :
  str_eqb k' k = false -> dict_get k' (dict_set k v d) = dict_get k' d.
Proof.
  intros Hne. induction d as [|[k0 v0] d IH]; cbn.
  - rewrite Hne. reflexivity.
  - destruct (str_eqb k k0) eqn:E; cbn.
    + apply str_eqb_eq in E. subst k0. rewrite Hne. reflexivity.
    + rewrite IH. reflexivity.
Qed.

Lemma forallb_dict_set (Q : Json -> bool) (k : pystr) (v : Json) (d : pydict) :
  forallb (fun kv => Q (snd kv)) d = true -> Q v = true ->
  forallb (fun kv => Q (snd kv)) (dict_set k v d) = true.
Proof.
  intros Hd Hv. induction d as [|[k0 v0] d IH]; cbn in *.
  - rewrite Hv. reflexivity.
  - apply andb_true_iff in Hd. destruct Hd as [H0 Hd].
    destruct (str_eqb k k0); cbn.
    + rewrite Hv, Hd. reflexivity.
    + rewrite H0, (IH Hd). reflexivity.
Qed.

Lemma forallb_dict_get (Q : Json -> bool) (k : pystr) (r : Json) (d : pydict) :
  forallb (fun kv => Q (snd kv)) d = true -> dict_get k d = Some r -> Q r = true.
Proof.
  induction d as [|[k0 v0] d IH]; cbn; [discriminate|].
  intros Hd. apply andb_true_iff in Hd. destruct Hd as [H0 Hd].
  destruct (str_eqb k k0).
  - intros H. injection H as <-. exact H0.
  - apply IH, Hd.
Qed.

Lemma axis_text_differs (a a' : Axis) :
  a <> a' -> str_eqb (axis_text a') (axis_text a) = false.
Proof. destruct a, a'; intros H; try reflexivity; contradiction H; reflexivity. Qed.

Lemma Axis_eq_dec (a a' : Axis) : {a = a'} + {a <> a'}.
Proof. decide equality. Defined.

Lemma axis_okb_set (a a' : Axis) (p : Json) (d : pydict) :
  pages_okb p = true -> axis_okb d a' = true ->
  axis_okb (dict_set (axis_text a) p d) a' = true.
Proof.
  intros Hp Hd. unfold axis_okb in *.
  destruct (Axis_eq_dec a a') as [<-|Hne].
  - rewrite dict_get_set_same. exact Hp.
  - rewrite dict_get_set_other; [exact Hd | apply axis_text_differs, Hne].
Qed.

Lemma record_okb_inv (r : Json) :
  record_okb r = true ->
  exists d, r = JDict d /\ forall a, axis_okb d a = true.
Proof.
  destruct r as [| | | | | |d]; try discriminate. cbn.
  intros H. apply andb_true_iff in H. destruct H as [H Hs].
  apply andb_true_iff in H. destruct H as [Ha Hc].
  exists d. split; [reflexivity|]. intros []; assumption.
Qed.

Lemma record_okb_set (a : Axis) (p : Json) (d : pydict) :
  pages_okb p = true -> (forall a', axis_okb d a' = true) ->
  record_okb (JDict (dict_set (axis_text a) p d)) = true.
Proof.
  intros Hp Hd. cbn. rewrite !axis_okb_set by auto. reflexivity.
Qed.

(** On a store that satisfies the invariant, [confirm] completes and the
    invariant holds again. *)
Lemma confirm_store_ok (f : pystr) (a : Axis) (idx : Z) (ann : Json) :
  store_okb ann = true ->
  exists ann', confirm f a idx ann = Ok ann' /\ store_okb ann' = true.
Proof.
  intros Hok. destruct ann as [| | | | | |d]; try discriminate Hok.
  cbn [store_okb] in Hok. unfold confirm. cbn [py_contains_str bind].
  set (d1 := if negb (dict_mem f d) then dict_set f empty_record d else d).
  assert (E1 : (if negb (dict_mem f d)
                then py_setitem (JDict d) f empty_record
                else Ok (JDict d)) = Ok (JDict d1)).
  { unfold d1. destruct (negb (dict_mem f d)); reflexivity. }
  assert (Hok1 : forallb (fun kv => record_okb (snd kv)) d1 = true).
  { unfold d1. destruct (negb (dict_mem f d)); [|exact Hok].
    apply forallb_dict_set; [exact Hok | reflexivity]. }
  assert (Hrec : exists record, dict_get f d1 = Some record).
  { unfold d1, dict_mem. destruct (dict_get f d) as [r|] eqn:E; cbn [negb].
    - exists r. exact E.
    - eexists. apply dict_get_set_same. }
  destruct Hrec as [record Hrec].
  rewrite E1. cbn [bind py_getitem]. rewrite Hrec. cbn [bind].
  pose proof (forallb_dict_get _ _ _ _ Hok1 Hrec) as Hrok.
  apply record_okb_inv in Hrok. destruct Hrok as (r & -> & Hr).
  cbn [py_getitem].
  pose proof (Hr a) as Ha. unfold axis_okb in Ha.
  destruct (dict_get (axis_text a) r) as [pages|] eqn:Hpages; [|discriminate Ha].
  apply pages_okb_inv in Ha. destruct Ha as (zs & -> & Hasc).
  cbn [bind py_contains_int]. rewrite list_contains_int_ints. cbn [bind].
  destruct (existsb (Z.eqb idx) zs) eqn:Hfound; cbn [negb].
  - exists (JDict d1). split; [reflexivity | exact Hok1].
  - destruct (append_sort_ok idx zs Hasc Hfound) as (zs' & Hsort & Hasc' & _).
    cbn [py_append bind]. rewrite Hsort. cbn [bind py_setitem].
    eexists. split; [reflexivity|]. cbn [store_okb].
    apply forallb_dict_set; [exact Hok1|].
    apply record_okb_set; [|exact Hr].
    cbn. rewrite ints_of_map. exact Hasc'.
Qed.

Lemma describe_record_ok (r : Json) :
  record_okb r = true ->
  exists pages,
    mapM (fun a =>
            pages <- py_get r (axis_text a) (JList []) ;;
            t <- py_truthy pages ;;
            Ok (a, if t then Some pages else None))
         [axial; coronal; sagittal] = Ok pages.
Proof.
  intros H. apply record_okb_inv in H. destruct H as (d & -> & Hd).
  assert (Hone : forall a, exists x,
             (pages <- py_get (JDict d) (axis_text a) (JList []) ;;
              t <- py_truthy pages ;;
              Ok (a, if t then Some pages else None)) = Ok x).
  { intros a. pose proof (Hd a) as Ha. unfold axis_okb in Ha. cbn [py_get].
    destruct (dict_get (axis_text a) d) as [p|]; [|discriminate Ha].
    apply pages_okb_inv in Ha. destruct Ha as (zs & -> & _).
    destruct zs; cbn; eexists; reflexivity. }
  cbn [mapM].
  destruct (Hone axial) as [x1 ->], (Hone coronal) as [x2 ->],
           (Hone sagittal) as [x3 ->].
  cbn. eexists; reflexivity.
Qed.

(** On a store that satisfies the invariant every file can be shown. *)
Lemma describe_store_ok (ann : Json) (f : pystr) :
  store_okb ann = true -> exists pages, describe ann f = Ok pages.
Proof.
  intros Hok. destruct ann as [| | | | | |d]; try discriminate Hok.
  cbn [store_okb] in Hok. unfold describe. cbn [py_get].
  destruct (dict_get f d) as [r|] eqn:E; cbn [bind].
  - apply describe_record_ok. exact (forallb_dict_get _ _ _ _ Hok E).
  - apply describe_record_ok. reflexivity.
Qed.

Lemma store_ok_displayable (st : NiiExplorer) :
  store_okb (annotations st) = true -> displayable st.
Proof.
  intros H. unfold displayable. destruct (currentItem (file_list st)); [|exact I].
  apply describe_store_ok, H.
Qed.

Lemma confirm_seq_store_ok (ops : list (pystr * Axis * Z)) (ann : Json) :
  store_okb ann = true ->
  exists ann', confirm_seq ops ann = Ok ann' /\ store_okb ann' = true.
Proof.
  revert ann. induction ops as [|[[f a] idx] ops IH]; intros ann Hok.
  - exists ann. split; [reflexivity | exact Hok].
  - cbn [confirm_seq].
    destruct (confirm_store_ok f a idx ann Hok) as (ann1 & -> & Hok1).
    cbn [bind]. apply IH, Hok1.
Qed.

(** C5.  The store starts empty, which satisfies the invariant "every
    per-axis list is a list of ints in strictly ascending order"; from a
    store that satisfies it every confirmation completes and the invariant
    holds again, for any sequence of confirmations and for
    [annotate_page] on a session; and confirming 5, 1, 3 in that order for
    a file and an axis makes the display of that file show [1, 3, 5] for
    the axis. *)
Theorem confirm_keeps_lists_ordered :
  (forall d, store_okb (annotations (init_ui d)) = true) /\
  (forall ops ann, store_okb ann = true ->
     exists ann', confirm_seq ops ann = Ok ann' /\ store_okb ann' = true) /\
  (forall st, store_okb (annotations st) = true ->
     exists st', annotate_page st = Ok st' /\ store_okb (annotations st') = true) /\
  (forall f a, exists ann' pages,
     confirm_seq [(f, a, 5); (f, a, 1); (f, a, 3)] (JDict []) = Ok ann' /\
     describe ann' f = Ok pages /\
     In (a, Some (JList [JInt 1; JInt 3; JInt 5])) pages).
Proof.
  split; [reflexivity|]. split; [exact confirm_seq_store_ok|]. split.
  - intros st Hok. unfold annotate_page.
    destruct (currentItem (file_list st)) as [f|] eqn:Hcur.
    + destruct (confirm_store_ok f (axis_combo st) (value (slice_slider st))
                  (annotations st) Hok) as (ann' & -> & Hok').
      cbn [bind]. unfold update_annotation_display.
      cbn [file_list set_annotations annotations]. rewrite Hcur.
      destruct (describe_store_ok ann' f Hok') as [pages ->].
      cbn [bind]. eexists. split; [reflexivity | exact Hok'].
    + exists st. split; [reflexivity | exact Hok].
  - intros f a.
    destruct a; unfold confirm_seq, confirm, describe;
      repeat (cbn; unfold dict_mem; rewrite ?str_eqb_refl);
      do 2 eexists; (split; [reflexivity|]);
      repeat (cbn; rewrite ?str_eqb_refl);
      (split; [reflexivity|]); cbn; auto.
Qed.

Lemma confirm_keeps_lists_ordered_witness :
  store_okb (annotations demo_annotated) = true /\
  exists ann',
    confirm_seq [(u "a.nii", axial, 12); (u "b.nii", sagittal, 2);
                 (u "a.nii", axial, 3); (u "a.nii", axial, 0)]
                (annotations demo_annotated) = Ok ann' /\
    store_okb ann' = true.
Proof.
  assert (Hok : store_okb (annotations demo_annotated) = true)
    by (vm_compute; reflexivity).
  split; [exact Hok|].
  destruct confirm_keeps_lists_ordered as (_ & Hseq & _ & _).
  apply Hseq. exact Hok.
Defined.

(** ** The codec: proofs *)

Local Open Scope N_scope.

Lemma hexval_hexdigit d : d < 16 -> hexval (hexdigit d) = Some d.
Proof.
  intros H. unfold hexval, hexdigit. ncases; cbn [andb]; try (f_equal; lia); lia.
Qed.

Lemma decode_hex4_hex4 n : n < 65536 ->
  exists a b c d, hex4 n = [a; b; c; d] /\ decode_hex4 a b c d = Some n.
Proof.
  intros H. unfold hex4, decode_hex4. do 4 eexists. split; [reflexivity|].
  rewrite !hexval_hexdigit by (apply N.mod_lt; discriminate).
  f_equal. nlia.
Qed.

Lemma scanstring_u_escape (c : N) (t : pystr) :
  c < 65536 ->
  (is_high_surrogate c = true -> no_low_ahead t) ->
  scanstring (u_escape c ++ t) = cons_char c (scanstring t).
Proof.
  intros Hc Hahead.
  destruct (decode_hex4_hex4 c Hc) as (h1 & h2 & h3 & h4 & Hhex & Hdec).
  unfold u_escape. rewrite Hhex. cbn [app].
  cbn [scanstring]. change (92 =? 34) with false. change (92 =? 92) with true.
  change (117 =? 117) with true. cbv iota. rewrite Hdec.
  destruct (is_high_surrogate c) eqn:Hhigh; [|reflexivity].
  specialize (Hahead eq_refl).
  destruct t as [|b [|l [|g1 [|g2 [|g3 [|g4 r3]]]]]]; try reflexivity.
  cbn [no_low_ahead] in Hahead.
  destruct ((b =? 92) && (l =? 117)); [|reflexivity].
  destruct (Hahead eq_refl) as (uni2 & -> & ->). reflexivity.
Qed.

Lemma scanstring_pair (c : N) (t : pystr) :
  65536 <= c -> c < 1114112 ->
  scanstring (u_escape (55296 + ((c - 65536) / 1024) mod 1024)
                ++ u_escape (56320 + (c - 65536) mod 1024) ++ t)
  = cons_char c (scanstring t).
Proof.
  intros Hlo Hhi.
  set (hi := 55296 + ((c - 65536) / 1024) mod 1024).
  set (lo := 56320 + (c - 65536) mod 1024).
  assert (Hhi_r : 55296 <= hi <= 56319) by (unfold hi; nlia).
  assert (Hlo_r : 56320 <= lo <= 57343) by (unfold lo; nlia).
  destruct (decode_hex4_hex4 hi) as (h1 & h2 & h3 & h4 & Hhex & Hdec); [lia|].
  destruct (decode_hex4_hex4 lo) as (g1 & g2 & g3 & g4 & Hhex' & Hdec'); [lia|].
  unfold u_escape. rewrite Hhex, Hhex'. cbn [app].
  cbn [scanstring]. change (92 =? 34) with false. change (92 =? 92) with true.
  change (117 =? 117) with true. cbv iota. rewrite Hdec.
  replace (is_high_surrogate hi) with true
    by (symmetry; unfold is_high_surrogate; apply andb_true_iff;
        split; apply N.leb_le; lia).
  cbn [andb]. rewrite Hdec'.
  replace (is_low_surrogate lo) with true
    by (symmetry; unfold is_low_surrogate; apply andb_true_iff;
        split; apply N.leb_le; lia).
  replace (65536 + (hi - 55296) * 1024 + (lo - 56320)) with c
    by (unfold hi, lo; nlia).
  reflexivity.
Qed.

Lemma scanstring_escape_char (c : N) (t : pystr) :
  c < 1114112 ->
  (is_high_surrogate c = true -> no_low_ahead t) ->
  scanstring (escape_char c ++ t) = cons_char c (scanstring t).
Proof.
  intros Hc Hahead. unfold escape_char.
  destruct (N.eqb_spec c 34) as [->|H34]; [reflexivity|].
  destruct (N.eqb_spec c 92) as [->|H92]; [reflexivity|].
  destruct ((32 <=? c) && (c <=? 126)) eqn:Hprint.
  - apply andb_true_iff in Hprint. destruct Hprint as [H32 H126].
    apply N.leb_le in H32. apply N.leb_le in H126.
    cbn [app scanstring].
    destruct (N.eqb_spec c 34); [contradiction|].
    destruct (N.eqb_spec c 92); [contradiction|].
    destruct (N.leb_spec c 31); [lia | reflexivity].
  - destruct (N.eqb_spec c 8) as [->|H8]; [reflexivity|].
    destruct (N.eqb_spec c 12) as [->|H12]; [reflexivity|].
    destruct (N.eqb_spec c 10) as [->|H10]; [reflexivity|].
    destruct (N.eqb_spec c 13) as [->|H13]; [reflexivity|].
    destruct (N.eqb_spec c 9) as [->|H9]; [reflexivity|].
    destruct (N.ltb_spec c 65536) as [Hbmp|Hastral].
    + apply scanstring_u_escape; assumption.
    + rewrite <- app_assoc. apply scanstring_pair; assumption.
Qed.

Lemma no_low_ahead_escape_char (c : N) (t : pystr) :
  c < 1114112 -> is_low_surrogate c = false ->
  no_low_ahead (escape_char c ++ t).
Proof.
  intros Hc Hlow. unfold escape_char.
  assert (Hshort : forall x, (x =? 117) = false ->
            no_low_ahead ([92; x] ++ t)).
  { intros x Hx. cbn [app].
    destruct t as [|? [|? [|? [|? ?]]]]; cbn; try exact I.
    rewrite Hx. discriminate. }
  destruct (N.eqb_spec c 34) as [->|H34]; [apply Hshort; reflexivity|].
  destruct (N.eqb_spec c 92) as [->|H92]; [apply Hshort; reflexivity|].
  destruct ((32 <=? c) && (c <=? 126)) eqn:Hprint.
  - cbn [app]. destruct t as [|? [|? [|? [|? [|? ?]]]]]; cbn; try exact I.
    destruct (N.eqb_spec c 92); [contradiction | discriminate].
  - destruct (N.eqb_spec c 8) as [->|H8]; [apply Hshort; reflexivity|].
    destruct (N.eqb_spec c 12) as [->|H12]; [apply Hshort; reflexivity|].
    destruct (N.eqb_spec c 10) as [->|H10]; [apply Hshort; reflexivity|].
    destruct (N.eqb_spec c 13) as [->|H13]; [apply Hshort; reflexivity|].
    destruct (N.eqb_spec c 9) as [->|H9]; [apply Hshort; reflexivity|].
    destruct (N.ltb_spec c 65536) as [Hbmp|Hastral].
    + destruct (decode_hex4_hex4 c Hbmp) as (h1 & h2 & h3 & h4 & Hhex & Hdec).
      unfold u_escape. rewrite Hhex. cbn [app no_low_ahead].
      intros _. exists c. split; assumption.
    + set (hi := 55296 + ((c - 65536) / 1024) mod 1024).
      assert (Hhi_r : 55296 <= hi <= 56319) by (unfold hi; nlia).
      destruct (decode_hex4_hex4 hi) as (h1 & h2 & h3 & h4 & Hhex & Hdec); [lia|].
      unfold u_escape at 1. rewrite Hhex. cbn [app no_low_ahead].
      intros _. exists hi. split; [exact Hdec|].
      unfold is_low_surrogate. apply andb_false_iff. left. apply N.leb_gt. lia.
Qed.

Lemma no_low_ahead_escaped (s rest : pystr) :
  wf_str s = true ->
  match s with c :: _ => is_low_surrogate c = false | [] => True end ->
  no_low_ahead (flat_map escape_char s ++ 34 :: rest).
Proof.
  destruct s as [|c r]; intros Hwf Hlow.
  - cbn. destruct rest as [|? [|? [|? [|? [|? ?]]]]]; cbn; try exact I; discriminate.
  - cbn [flat_map]. rewrite <- app_assoc.
    cbn [wf_str] in Hwf. apply andb_true_iff in Hwf. destruct Hwf as [Hwf _].
    apply andb_true_iff in Hwf. destruct Hwf as [Hc _]. apply N.ltb_lt in Hc.
    apply no_low_ahead_escape_char; assumption.
Qed.

Lemma scanstring_escaped (s rest : pystr) :
  wf_str s = true ->
  scanstring (flat_map escape_char s ++ 34 :: rest) = Some (s, rest).
Proof.
  induction s as [|c r IH]; intros Hwf; [reflexivity|].
  cbn [flat_map]. rewrite <- app_assoc.
  cbn [wf_str] in Hwf. apply andb_true_iff in Hwf. destruct Hwf as [Hwf Hr].
  apply andb_true_iff in Hwf. destruct Hwf as [Hc Hpair].
  apply N.ltb_lt in Hc. apply negb_true_iff in Hpair.
  rewrite scanstring_escape_char; [rewrite (IH Hr); reflexivity | exact Hc |].
  intros Hhigh. rewrite Hhigh in Hpair. cbn [andb] in Hpair.
  apply no_low_ahead_escaped; [exact Hr|].
  destruct r; [exact I | exact Hpair].
Qed.

(** *** Integers *)

Lemma follow_ok_not_digit (rest : pystr) :
  follow_ok rest = true ->
  match rest with c :: _ => digit_of c = None | [] => True end.
Proof.
  destruct rest as [|c r]; [trivial|]. cbn. intros H.
  apply orb_true_iff in H. destruct H as [H|H]; apply N.eqb_eq in H; subst c;
    reflexivity.
Qed.

Lemma follow_ok_no_frac (rest : pystr) :
  follow_ok rest = true -> scan_frac rest = None.
Proof.
  destruct rest as [|c [|d r]]; try reflexivity. cbn. intros H.
  apply orb_true_iff in H. destruct H as [H|H]; apply N.eqb_eq in H; subst c;
    reflexivity.
Qed.

Lemma follow_ok_no_exp (rest : pystr) :
  follow_ok rest = true -> scan_exp rest = None.
Proof.
  destruct rest as [|c r]; try reflexivity. cbn [follow_ok]. intros H.
  apply orb_true_iff in H. destruct H as [H|H]; apply N.eqb_eq in H; subst c;
    reflexivity.
Qed.

Lemma scan_digits_uint (d : Decimal.uint) (rest : pystr) :
  match rest with c :: _ => digit_of c = None | [] => True end ->
  scan_digits (uint_chars d ++ rest) = (d, rest).
Proof.
  intros Hrest. induction d; cbn [uint_chars app scan_digits];
    try (change (digit_of _) with (Some Decimal.D0) ||
         change (digit_of _) with (Some Decimal.D1) ||
         change (digit_of _) with (Some Decimal.D2) ||
         change (digit_of _) with (Some Decimal.D3) ||
         change (digit_of _) with (Some Decimal.D4) ||
         change (digit_of _) with (Some Decimal.D5) ||
         change (digit_of _) with (Some Decimal.D6) ||
         change (digit_of _) with (Some Decimal.D7) ||
         change (digit_of _) with (Some Decimal.D8) ||
         change (digit_of _) with (Some Decimal.D9));
    try (cbv iota beta; rewrite IHd; reflexivity).
  destruct rest as [|c r]; [reflexivity|]. cbn [scan_digits]. rewrite Hrest.
  reflexivity.
Qed.

Lemma to_uint_not_D0 (p : positive) (d : Decimal.uint) :
  Pos.to_uint p <> Decimal.D0 d.
Proof.
  intros H.
  pose proof (DecimalPos.Unsigned.to_of (Pos.to_uint p)) as Hn.
  rewrite DecimalPos.Unsigned.of_to in Hn. cbn [N.to_uint] in Hn.
  rewrite H in Hn at 2. rewrite unorm_D0 in Hn.
  unfold Decimal.unorm in Hn.
  destruct (Decimal.nzhead d) eqn:E.
  - apply (DecimalPos.Unsigned.to_uint_nonzero p). exact Hn.
  - rewrite H in Hn. injection Hn as Hn. subst d.
    apply (nzhead_nonzero _ _ E).
  - rewrite H in Hn; discriminate Hn.
  - rewrite H in Hn; discriminate Hn.
  - rewrite H in Hn; discriminate Hn.
  - rewrite H in Hn; discriminate Hn.
  - rewrite H in Hn; discriminate Hn.
  - rewrite H in Hn; discriminate Hn.
  - rewrite H in Hn; discriminate Hn.
  - rewrite H in Hn; discriminate Hn.
  - rewrite H in Hn; discriminate Hn.
Qed.

(** The digits of a positive number, read back. *)
Lemma match_number_digits (neg : bool) (p : positive) (rest : pystr) :
  follow_ok rest = true ->
  match_number ((if neg then [45] else []) ++ uint_chars (Pos.to_uint p) ++ rest)
  = Some (JInt (if neg then Z.neg p else Z.pos p), rest).
Proof.
  intros Hrest.
  pose proof (DecimalZ.of_to (Z.pos p)) as Hpos.
  pose proof (DecimalZ.of_to (Z.neg p)) as Hneg.
  cbn [Z.to_int] in Hpos, Hneg.
  pose proof (to_uint_not_D0 p) as Hnz.
  pose proof (DecimalPos.Unsigned.to_uint_nonnil p) as Hnn.
  pose proof (scan_digits_uint (Pos.to_uint p) rest
                (follow_ok_not_digit rest Hrest)) as Hscan.
  destruct (Pos.to_uint p) as [|d|d|d|d|d|d|d|d|d|d] eqn:E;
    [contradiction Hnn; reflexivity | contradiction (Hnz d); reflexivity | ..];
    destruct neg; cbn [app uint_chars] in *; unfold match_number;
    cbv beta iota zeta; cbn [N.eqb Pos.eqb is_digit digit_of];
    rewrite Hscan; cbv beta iota zeta;
    rewrite (follow_ok_no_frac rest Hrest), (follow_ok_no_exp rest Hrest);
    first [rewrite Hpos | rewrite Hneg]; reflexivity.
Qed.

Lemma match_number_intstr (z : Z) (rest : pystr) :
  follow_ok rest = true ->
  match_number (intstr z ++ rest) = Some (JInt z, rest).
Proof.
  intros Hrest. unfold intstr. destruct z as [|p|p]; cbn [Z.to_int].
  - cbn [uint_chars app]. unfold match_number. cbv beta iota zeta.
    cbv beta iota zeta. cbn [N.eqb Pos.eqb]. cbv beta iota zeta.
    rewrite (follow_ok_no_frac rest Hrest), (follow_ok_no_exp rest Hrest).
    reflexivity.
  - apply (match_number_digits false p rest Hrest).
  - apply (match_number_digits true p rest Hrest).
Qed.

Lemma is_digit_cases (c : N) :
  is_digit c = true ->
  c = 48 \/ c = 49 \/ c = 50 \/ c = 51 \/ c = 52 \/ c = 53 \/ c = 54 \/ c = 55
  \/ c = 56 \/ c = 57.
Proof.
  unfold is_digit, digit_of. intros H.
  repeat match type of H with
         | context [N.eqb ?a ?b] => destruct (N.eqb_spec a b); [tauto|]
         end.
  discriminate H.
Qed.

Lemma scan_once_number (fuel : nat) (s : pystr) :
  numeric_head s -> scan_once (S fuel) s = match_number s.
Proof.
  destruct s as [|c r]; [intros []|]. cbn [numeric_head]. intros [H|[-> H]].
  - apply is_digit_cases in H.
    repeat (destruct H as [->|H]; [reflexivity|]). subst c. reflexivity.
  - destruct r as [|c' r']; [destruct H|].
    apply is_digit_cases in H.
    repeat (destruct H as [->|H]; [reflexivity|]). subst c'. reflexivity.
Qed.

Lemma uint_chars_head (d : Decimal.uint) (rest : pystr) :
  d <> Decimal.Nil ->
  match uint_chars d ++ rest with
  | c :: _ => is_digit c = true
  | [] => False
  end.
Proof. destruct d; intros H; try reflexivity. contradiction H; reflexivity. Qed.

Lemma intstr_numeric_head (z : Z) (rest : pystr) :
  numeric_head (intstr z ++ rest).
Proof.
  unfold intstr. destruct z as [|p|p]; cbn [Z.to_int].
  - left. reflexivity.
  - pose proof (uint_chars_head (Pos.to_uint p) rest
                  (DecimalPos.Unsigned.to_uint_nonnil p)) as H.
    unfold numeric_head. destruct (uint_chars (Pos.to_uint p) ++ rest);
      [destruct H | left; exact H].
  - cbn [app]. right. split; [reflexivity|].
    exact (uint_chars_head (Pos.to_uint p) rest
             (DecimalPos.Unsigned.to_uint_nonnil p)).
Qed.

(** *** Values *)

Lemma encode_list (level : nat) (x : Json) (l : list Json) :
  encode level (JList (x :: l)) =
  91 :: newline_indent (S level) ++ encode (S level) x
    ++ items_text (S level) l ++ newline_indent level ++ [93].
Proof. reflexivity. Qed.

Lemma encode_dict (level : nat) (k : pystr) (v : Json) (d : pydict) :
  encode level (JDict ((k, v) :: d)) =
  123 :: newline_indent (S level) ++ encode_str k ++ [58; 32]
    ++ encode (S level) v
    ++ members_text (S level) d ++ newline_indent level ++ [125].
Proof. reflexivity. Qed.

Lemma Json_induction (P : Json -> Prop) :
  P JNull ->
  (forall b, P (JBool b)) ->
  (forall z, P (JInt z)) ->
  (forall lx, P (JFloat lx)) ->
  (forall s, P (JStr s)) ->
  (forall l, Forall P l -> P (JList l)) ->
  (forall d, Forall (fun kv => P (snd kv)) d -> P (JDict d)) ->
  forall o, P o.
Proof.
  intros Hnull Hbool Hint Hfloat Hstr Hlist Hdict.
  fix IH 1. intros [|b|z|lx|s|l|d].
  - exact Hnull.
  - apply Hbool.
  - apply Hint.
  - apply Hfloat.
  - apply Hstr.
  - apply Hlist. induction l as [|x l IHl]; constructor; [apply IH | exact IHl].
  - apply Hdict. induction d as [|[k v] d IHd]; constructor; [apply IH | exact IHd].
Qed.

Lemma numeric_head_starts_value (t : pystr) : numeric_head t -> starts_value t.
Proof.
  destruct t as [|c r]; [intros []|]. cbn. intros [H|[-> _]].
  - apply is_digit_cases in H.
    repeat (destruct H as [->|H]; [repeat split; (reflexivity || discriminate)|]).
    subst c. repeat split; (reflexivity || discriminate).
  - repeat split; (reflexivity || discriminate).
Qed.

Lemma encode_starts_value (level : nat) (o : Json) (rest : pystr) :
  wf_json o = true -> starts_value (encode level o ++ rest).
Proof.
  destruct o as [|[|]|z|lx|s|[|x l]|[|[k v] d]]; intros Hwf;
    try discriminate Hwf;
    try (cbn; repeat split; (reflexivity || discriminate)).
  apply numeric_head_starts_value, intstr_numeric_head.
Qed.

Lemma skip_ws_solid (t : pystr) : starts_value t -> skip_ws t = t.
Proof.
  destruct t as [|c r]; [intros []|]. intros (Hws & _). cbn. rewrite Hws.
  reflexivity.
Qed.

Lemma skip_ws_indent (level : nat) (t : pystr) :
  skip_ws (newline_indent level ++ t) = skip_ws t.
Proof.
  unfold newline_indent. cbn [app skip_ws]. change (is_ws 10) with true. cbv iota.
  induction (4 * level)%nat as [|n IH]; [reflexivity|].
  cbn [repeat app skip_ws]. change (is_ws 32) with true. cbv iota. exact IH.
Qed.

Lemma starts_value_cons (t : pystr) :
  starts_value t -> exists c r, t = c :: r /\ (c =? 93) = false /\ (c =? 125) = false.
Proof.
  destruct t as [|c r]; [intros []|]. intros (_ & H1 & H2 & _).
  exists c, r. split; [reflexivity|]. split; apply N.eqb_neq; assumption.
Qed.

Lemma scan_once_list (fuel : nat) (r : pystr) :
  scan_once (S fuel) (91 :: r) =
  match skip_ws r with
  | c1 :: r1 =>
      if c1 =? 93 then Some (JList [], r1)
      else match parse_items fuel (skip_ws r) with
           | Some (vs, r2) => Some (JList vs, r2)
           | None => None
           end
  | [] => None
  end.
Proof. reflexivity. Qed.

Lemma scan_once_dict (fuel : nat) (r : pystr) :
  scan_once (S fuel) (123 :: r) =
  match skip_ws r with
  | c1 :: r1 =>
      if c1 =? 125 then Some (JDict [], r1)
      else match parse_members fuel (skip_ws r) with
           | Some (ps, r2) => Some (JDict (dict_of_pairs ps), r2)
           | None => None
           end
  | [] => None
  end.
Proof. reflexivity. Qed.

Lemma parse_items_step (fuel : nat) (s : pystr) :
  parse_items (S fuel) s =
  match scan_once fuel s with
  | None => None
  | Some (v, r) =>
      match skip_ws r with
      | c :: r1 =>
          if c =? 93 then Some ([v], r1)
          else if c =? 44 then
                 match parse_items fuel (skip_ws r1) with
                 | Some (vs, r2) => Some (v :: vs, r2)
                 | None => None
                 end
               else None
      | [] => None
      end
  end.
Proof. reflexivity. Qed.

Lemma parse_members_step (fuel : nat) (r : pystr) :
  parse_members (S fuel) (34 :: r) =
  match scanstring r with
  | None => None
  | Some (key, r1) =>
      match skip_ws r1 with
      | c :: r2 =>
          if c =? 58 then
            match scan_once fuel (skip_ws r2) with
            | None => None
            | Some (v, r3) =>
                match skip_ws r3 with
                | c' :: r4 =>
                    if c' =? 125 then Some ([(key, v)], r4)
                    else if c' =? 44 then
                           match parse_members fuel (skip_ws r4) with
                           | Some (ps, r5) => Some ((key, v) :: ps, r5)
                           | None => None
                           end
                         else None
                | [] => None
                end
            end
          else None
      | [] => None
      end
  end.
Proof. reflexivity. Qed.

Lemma parse_items_text (l : list Json) :
  Forall reads_back l ->
  forall (x : Json) (level : nat) (rest : pystr) (fuel : nat),
    reads_back x -> wf_json x = true -> forallb wf_json l = true ->
    (size x + 2 + list_sum (map (fun y => size y + 2) l) <= fuel)%nat ->
    parse_items fuel
      (encode (S level) x ++ items_text (S level) l
         ++ newline_indent level ++ 93 :: rest)
    = Some (x :: l, rest).
Proof.
  induction 1 as [|y l Hy Hl IH]; intros x level rest fuel Hx Hwx Hwl Hfuel.
  - destruct fuel as [|fuel]; [lia|]. rewrite parse_items_step.
    cbn [items_text app].
    rewrite (Hx Hwx (S level) _ fuel); [|reflexivity | cbn in Hfuel; lia].
    rewrite skip_ws_indent. reflexivity.
  - destruct fuel as [|fuel]; [lia|]. rewrite parse_items_step.
    cbn [forallb] in Hwl. apply andb_true_iff in Hwl. destruct Hwl as [Hwy Hwl].
    cbn [map list_sum fold_right] in Hfuel.
    cbn [items_text]. fold (items_text (S level)).
    rewrite (Hx Hwx (S level) _ fuel); [|reflexivity | lia].
    cbn [app skip_ws]. change (is_ws 44) with false. cbv iota.
    change (44 =? 93) with false. change (44 =? 44) with true. cbv iota.
    rewrite <- !app_assoc.
    rewrite skip_ws_indent.
    rewrite skip_ws_solid by (apply encode_starts_value, Hwy).
    rewrite (IH y level rest fuel Hy Hwy Hwl); [reflexivity | ].
    unfold list_sum in *. lia.
Qed.

Lemma dict_set_absent (k : pystr) (v : Json) (d : pydict) :
  dict_mem k d = false -> dict_set k v d = d ++ [(k, v)].
Proof.
  unfold dict_mem. induction d as [|[k' v'] d IH]; cbn; [reflexivity|].
  destruct (str_eqb k k'); [discriminate|]. intros H. rewrite (IH H). reflexivity.
Qed.

Lemma dict_mem_app_absent (k k' : pystr) (v : Json) (d : pydict) :
  dict_mem k d = false -> str_eqb k k' = false ->
  dict_mem k (d ++ [(k', v)]) = false.
Proof.
  unfold dict_mem. induction d as [|[k0 v0] d IH]; cbn; intros Hd Hk.
  - rewrite Hk. reflexivity.
  - destruct (str_eqb k k0); [discriminate|]. apply IH; assumption.
Qed.

Lemma dict_mem_head (k k' : pystr) (v : Json) (d : pydict) :
  dict_mem k ((k', v) :: d) = str_eqb k k' || dict_mem k d.
Proof. unfold dict_mem. cbn. destruct (str_eqb k k'); reflexivity. Qed.

Lemma str_eqb_sym (a b : pystr) : str_eqb a b = str_eqb b a.
Proof.
  destruct (str_eqb a b) eqn:E.
  - apply str_eqb_eq in E. subst. symmetry. apply str_eqb_refl.
  - destruct (str_eqb b a) eqn:E'; [|reflexivity].
    apply str_eqb_eq in E'. subst. rewrite str_eqb_refl in E. discriminate.
Qed.

(** [dict(pairs)] gives the pairs back when the keys are distinct. *)
Lemma dict_of_pairs_unique (d acc : pydict) :
  keys_unique d = true ->
  forallb (fun kv => negb (dict_mem (fst kv) acc)) d = true ->
  fold_left (fun a kv => dict_set (fst kv) (snd kv) a) d acc = acc ++ d.
Proof.
  revert acc. induction d as [|[k v] d IH]; intros acc Hu Hfresh.
  - cbn. rewrite List.app_nil_r. reflexivity.
  - cbn [fold_left fst snd]. cbn [keys_unique] in Hu.
    apply andb_true_iff in Hu. destruct Hu as [Hk Hu].
    apply negb_true_iff in Hk.
    cbn [forallb fst] in Hfresh. apply andb_true_iff in Hfresh.
    destruct Hfresh as [Hacc Hfresh]. apply negb_true_iff in Hacc.
    rewrite (dict_set_absent k v acc Hacc).
    rewrite IH; [rewrite <- app_assoc; reflexivity | exact Hu |].
    apply forallb_forall. intros [k' v'] Hin. cbn [fst].
    apply negb_true_iff. apply dict_mem_app_absent.
    + rewrite forallb_forall in Hfresh. specialize (Hfresh _ Hin).
      cbn [fst] in Hfresh. apply negb_true_iff in Hfresh. exact Hfresh.
    + destruct (str_eqb k' k) eqn:E; [|reflexivity].
      apply str_eqb_eq in E. subst k'.
      (* k would occur in d *)
      exfalso. clear - Hin Hk. unfold dict_mem in Hk.
      induction d as [|[k0 v0] d IHd]; [destruct Hin|].
      cbn in Hk. destruct (str_eqb k k0) eqn:E0; [discriminate|].
      destruct Hin as [Heq|Hin].
      * injection Heq as -> _. rewrite str_eqb_refl in E0. discriminate.
      * apply IHd; assumption.
Qed.

Lemma parse_members_text (d : pydict) :
  Forall (fun kv => reads_back (snd kv)) d ->
  forall (k : pystr) (v : Json) (level : nat) (rest : pystr) (fuel : nat),
    reads_back v -> wf_str k = true -> wf_json v = true ->
    forallb (fun kv => wf_str (fst kv) && wf_json (snd kv)) d = true ->
    (size v + 2 + list_sum (map (fun kv => size (snd kv) + 2) d) <= fuel)%nat ->
    parse_members fuel
      (encode_str k ++ [58; 32] ++ encode (S level) v
         ++ members_text (S level) d ++ newline_indent level ++ 125 :: rest)
    = Some ((k, v) :: d, rest).
Proof.
  induction 1 as [|[k' v'] d Hv' Hd IH];
    intros k v level rest fuel Hv Hwk Hwv Hwd Hfuel.
  - destruct fuel as [|fuel]; [lia|].
    unfold encode_str. cbn [app]. rewrite parse_members_step.
    rewrite <- app_assoc. cbn [app].
    rewrite (scanstring_escaped k _ Hwk).
    cbn [skip_ws]. change (is_ws 58) with false. cbv iota.
    change (58 =? 58) with true. cbv iota.
    cbn [skip_ws]. change (is_ws 32) with true. cbv iota.
    rewrite skip_ws_solid by (apply encode_starts_value, Hwv).
    cbn [members_text app].
    rewrite (Hv Hwv (S level) _ fuel); [|reflexivity | cbn in Hfuel; lia].
    rewrite skip_ws_indent. reflexivity.
  - destruct fuel as [|fuel]; [lia|].
    cbn [forallb fst snd] in Hwd. apply andb_true_iff in Hwd.
    destruct Hwd as [Hw' Hwd]. apply andb_true_iff in Hw'.
    destruct Hw' as [Hwk' Hwv'].
    unfold list_sum in *. cbn [map fold_right snd] in Hfuel.
    unfold encode_str at 1. cbn [app]. rewrite parse_members_step.
    rewrite <- app_assoc. cbn [app].
    rewrite (scanstring_escaped k _ Hwk).
    cbn [skip_ws]. change (is_ws 58) with false. cbv iota.
    change (58 =? 58) with true. cbv iota.
    cbn [skip_ws]. change (is_ws 32) with true. cbv iota.
    rewrite skip_ws_solid by (apply encode_starts_value, Hwv).
    cbn [members_text]. fold (members_text (S level)).
    rewrite (Hv Hwv (S level) _ fuel); [|reflexivity | lia].
    cbn [app skip_ws]. change (is_ws 44) with false. cbv iota.
    change (44 =? 125) with false. change (44 =? 44) with true. cbv iota.
    rewrite <- !app_assoc.
    rewrite skip_ws_indent.
    assert (Hsolid : forall t, skip_ws (encode_str k' ++ t) = encode_str k' ++ t)
      by reflexivity.
    rewrite Hsolid.
    cbn [snd] in Hv'.
    replace (encode_str k'
               ++ (58 :: 32 :: encode (S level) v' ++ members_text (S level) d)
               ++ newline_indent level ++ 125 :: rest)
      with (encode_str k' ++ [58; 32] ++ encode (S level) v'
              ++ members_text (S level) d ++ newline_indent level ++ 125 :: rest)
      by (cbn [app]; rewrite <- !app_assoc; reflexivity).
    rewrite (IH k' v' level rest fuel Hv' Hwk' Hwv' Hwd); [reflexivity|].
    unfold list_sum. lia.
Qed.

Lemma wf_json_no_float (o : Json) : wf_json o = true -> has_float o = false.
Proof.
  induction o as [| | | | |l IH|d IH] using Json_induction; intros Hwf;
    try reflexivity; try discriminate Hwf.
  - cbn in *. induction IH as [|x l Hx Hl IHl]; [reflexivity|].
    cbn in *. apply andb_true_iff in Hwf. destruct Hwf as [H1 H2].
    rewrite (Hx H1), (IHl H2). reflexivity.
  - cbn in *. apply andb_true_iff in Hwf. destruct Hwf as [_ Hwf].
    induction IH as [|[k v] d Hv Hd IHd]; [reflexivity|].
    cbn in *. apply andb_true_iff in Hwf. destruct Hwf as [H1 H2].
    apply andb_true_iff in H1. destruct H1 as [_ H1].
    rewrite (Hv H1), (IHd H2). reflexivity.
Qed.

Theorem scan_once_encode (o : Json) : reads_back o.
Proof.
  induction o as [|b|z|lx|s|l IH|d IH] using Json_induction;
    intros Hwf level rest fuel Hrest Hfuel;
    (destruct fuel as [|fuel]; [lia|]).
  - reflexivity.
  - destruct b; reflexivity.
  - rewrite scan_once_number by apply intstr_numeric_head.
    apply match_number_intstr, Hrest.
  - discriminate Hwf.
  - cbn [encode]. unfold encode_str. cbn [app scan_once].
    change (34 =? 34) with true. cbv iota.
    rewrite <- app_assoc. cbn [app]. cbn [wf_json] in Hwf.
    rewrite (scanstring_escaped s rest Hwf). reflexivity.
  - destruct l as [|x l]; [reflexivity|].
    rewrite encode_list. cbn [app]. rewrite scan_once_list.
    rewrite <- !app_assoc. rewrite skip_ws_indent.
    cbn [wf_json forallb] in Hwf. apply andb_true_iff in Hwf.
    destruct Hwf as [Hwx Hwl].
    pose proof (encode_starts_value (S level) x
                  (items_text (S level) l ++ newline_indent level ++ [93] ++ rest)
                  Hwx) as Hstart.
    rewrite (skip_ws_solid _ Hstart).
    destruct (starts_value_cons _ Hstart) as (c & r & Heq & H93 & _).
    rewrite Heq at 1. rewrite H93.
    inversion IH as [|? ? Hx Hl]; subst.
    cbn [app].
    rewrite (parse_items_text l Hl x level rest fuel Hx Hwx Hwl); [reflexivity|].
    cbn [size] in Hfuel. unfold list_sum in *. cbn [map fold_right] in Hfuel. lia.
  - destruct d as [|[k v] d]; [reflexivity|].
    rewrite encode_dict. cbn [app]. rewrite scan_once_dict.
    rewrite <- !app_assoc. rewrite skip_ws_indent.
    cbn [wf_json keys_unique forallb fst snd] in Hwf.
    apply andb_true_iff in Hwf. destruct Hwf as [Hu Hwf].
    apply andb_true_iff in Hwf. destruct Hwf as [Hwkv Hwd].
    apply andb_true_iff in Hwkv. destruct Hwkv as [Hwk Hwv].
    assert (Hsolid : forall t, skip_ws (encode_str k ++ t) = encode_str k ++ t)
      by reflexivity.
    rewrite Hsolid. unfold encode_str at 1. cbn [app].
    change (34 =? 125) with false. cbv iota.
    inversion IH as [|? ? Hv Hd]; subst. cbn [snd] in Hv.
    change (34 :: flat_map escape_char k ++ [34]) with (encode_str k).
    match goal with
    | |- context [parse_members fuel ?t] =>
        replace t
          with (encode_str k ++ [58; 32] ++ encode (S level) v
                  ++ members_text (S level) d ++ newline_indent level
                  ++ 125 :: rest)
          by (cbn [app]; rewrite <- ?app_assoc; reflexivity)
    end.
    rewrite (parse_members_text d Hd k v level rest fuel Hv Hwk Hwv Hwd).
    + unfold dict_of_pairs.
      rewrite (dict_of_pairs_unique ((k, v) :: d) []); [reflexivity | |].
      * cbn [keys_unique]. rewrite Hu. reflexivity.
      * apply forallb_forall. intros ? _. reflexivity.
    + cbn [size] in Hfuel. unfold list_sum in *.
      cbn [map fold_right snd] in Hfuel. lia.
Qed.

Lemma size_le_length (o : Json) :
  forall level, (size o <= length (encode level o))%nat.
Proof.
  induction o as [| | | | |l IH|d IH] using Json_induction; intros level;
    try (cbn [size]; lia).
  - destruct l as [|x l]; [cbn; lia|].
    rewrite encode_list. inversion IH as [|? ? Hx Hl]; subst.
    cbn [size map]. unfold list_sum. cbn [fold_right length].
    rewrite !length_app. cbn [length newline_indent].
    specialize (Hx (S level)).
    assert (Hitems : (fold_right Nat.add 0 (map (fun y => size y + 2) l)
                      <= length (items_text (S level) l))%nat).
    { clear - Hl. induction Hl as [|y l Hy Hl IHl]; [cbn; lia|].
      cbn [map fold_right items_text]. fold (items_text (S level)).
      cbn [length]. rewrite !length_app. cbn [length newline_indent].
      specialize (Hy (S level)). lia. }
    lia.
  - destruct d as [|[k v] d]; [cbn; lia|].
    rewrite encode_dict. inversion IH as [|? ? Hv Hd]; subst. cbn [snd] in Hv.
    cbn [size map snd]. unfold list_sum. cbn [fold_right length].
    rewrite !length_app. cbn [length newline_indent].
    specialize (Hv (S level)).
    assert (Hitems : (fold_right Nat.add 0 (map (fun kv => size (snd kv) + 2) d)
                      <= length (members_text (S level) d))%nat).
    { clear - Hd. induction Hd as [|[k' v'] d Hy Hd IHd]; [cbn; lia|].
      cbn [map fold_right members_text snd]. fold (members_text (S level)).
      cbn [length]. rewrite !length_app. cbn [length newline_indent].
      cbn [snd] in Hy. specialize (Hy (S level)). lia. }
    lia.
Qed.

(** Why strings must keep their surrogates apart: a high surrogate
    directly followed by a low one is written as two escapes and read
    back as a single code point. *)
Lemma surrogate_pair_is_joined :
  json_loads (encode 0 (JStr [55357; 56832])) = Some (JStr [128512]).
Proof. vm_compute. reflexivity. Qed.

(** Reading back what [json.dumps] wrote gives the value again. *)
Theorem json_loads_dumps (o : Json) :
  wf_json o = true ->
  json_dumps o = Ok (encode 0 o) /\ json_loads (encode 0 o) = Some o.
Proof.
  intros Hwf. split.
  - unfold json_dumps. rewrite (wf_json_no_float o Hwf). reflexivity.
  - unfold json_loads.
    pose proof (encode_starts_value 0 o [] Hwf) as Hstart.
    rewrite List.app_nil_r in Hstart.
    assert (Hbom : startswith (encode 0 o) [65279] = false).
    { destruct (encode 0 o) as [|c r]; [destruct Hstart|].
      destruct Hstart as (_ & _ & _ & Hc). cbn.
      destruct (N.eqb_spec c 65279); [contradiction | reflexivity]. }
    rewrite Hbom, (skip_ws_solid _ Hstart).
    pose proof (scan_once_encode o Hwf 0%nat [] (S (length (encode 0 o)))
                  eq_refl) as Hscan.
    rewrite List.app_nil_r in Hscan. rewrite Hscan; [reflexivity|].
    pose proof (size_le_length o 0). lia.
Qed.

Local Close Scope N_scope.

(** ** Stores that can be exported: proofs *)

Lemma dict_mem_set (k k' : pystr) (v : Json) (d : pydict) :
  dict_mem k' (dict_set k v d) = dict_mem k' d || str_eqb k' k.
Proof.
  induction d as [|[k0 v0] d IH].
  - cbn [dict_set]. rewrite dict_mem_head. unfold dict_mem. cbn.
    rewrite orb_false_r. reflexivity.
  - cbn [dict_set]. destruct (str_eqb k k0) eqn:E.
    + apply str_eqb_eq in E. subst k0. rewrite !dict_mem_head.
      destruct (str_eqb k' k), (dict_mem k' d); reflexivity.
    + rewrite !dict_mem_head, IH.
      destruct (str_eqb k' k0), (dict_mem k' d), (str_eqb k' k); reflexivity.
Qed.

Lemma keys_unique_set (k : pystr) (v : Json) (d : pydict) :
  keys_unique d = true -> keys_unique (dict_set k v d) = true.
Proof.
  induction d as [|[k0 v0] d IH]; intros Hu; [reflexivity|].
  cbn [keys_unique] in Hu. apply andb_true_iff in Hu. destruct Hu as [H0 Hu].
  cbn [dict_set]. destruct (str_eqb k k0) eqn:E; cbn [keys_unique].
  - rewrite H0, Hu. reflexivity.
  - rewrite dict_mem_set, (IH Hu). rewrite str_eqb_sym, E, orb_false_r, H0.
    reflexivity.
Qed.

Lemma wf_entries_set (k : pystr) (v : Json) (d : pydict) :
  forallb (fun kv => wf_str (fst kv) && wf_json (snd kv)) d = true ->
  wf_str k = true -> wf_json v = true ->
  forallb (fun kv => wf_str (fst kv) && wf_json (snd kv)) (dict_set k v d) = true.
Proof.
  intros Hd Hk Hv. induction d as [|[k0 v0] d IH]; cbn in *.
  - rewrite Hk, Hv. reflexivity.
  - apply andb_true_iff in Hd. destruct Hd as [H0 Hd].
    apply andb_true_iff in H0. destruct H0 as [Hk0 Hv0].
    destruct (str_eqb k k0); cbn.
    + rewrite Hk0, Hv, Hd. reflexivity.
    + rewrite Hk0, Hv0, (IH Hd). reflexivity.
Qed.

Lemma wf_json_dict_set (k : pystr) (v : Json) (d : pydict) :
  wf_json (JDict d) = true -> wf_str k = true -> wf_json v = true ->
  wf_json (JDict (dict_set k v d)) = true.
Proof.
  cbn [wf_json]. intros Hd Hk Hv. apply andb_true_iff in Hd.
  destruct Hd as [Hu Hd]. apply andb_true_iff. split.
  - apply keys_unique_set, Hu.
  - apply wf_entries_set; assumption.
Qed.

Lemma wf_json_dict_get (k : pystr) (v : Json) (d : pydict) :
  wf_json (JDict d) = true -> dict_get k d = Some v -> wf_json v = true.
Proof.
  cbn [wf_json]. intros Hd. apply andb_true_iff in Hd. destruct Hd as [_ Hd].
  induction d as [|[k0 v0] d IH]; cbn in *; [discriminate|].
  apply andb_true_iff in Hd. destruct Hd as [H0 Hd].
  apply andb_true_iff in H0. destruct H0 as [_ Hv0].
  destruct (str_eqb k k0).
  - intros H. injection H as <-. exact Hv0.
  - apply IH, Hd.
Qed.

Lemma wf_json_sorted_nums (l : list Json) :
  forallb is_num l = true -> wf_json (JList (sort_nums l)) = true.
Proof.
  intros H. cbn [wf_json]. apply forallb_forall. intros x Hx.
  apply (proj1 (In_sort_nums _ _)) in Hx. rewrite forallb_forall in H.
  specialize (H x Hx).
  destruct x; try discriminate H; reflexivity.
Qed.

Lemma wf_str_axis_text (a : Axis) : wf_str (axis_text a) = true.
Proof. destruct a; reflexivity. Qed.

(** A confirmation on a file with a well-formed name keeps the store
    exportable. *)
Lemma confirm_wf_json (f : pystr) (a : Axis) (idx : Z) (ann ann1 : Json) :
  wf_json ann = true -> wf_str f = true ->
  confirm f a idx ann = Ok ann1 -> wf_json ann1 = true.
Proof.
  intros Hwf Hf. unfold confirm. intros H.
  destruct ann as [| | | | s|l|d]; try discriminate H.
  - cbn in H. destruct (negb (str_contains s f)); cbn in H; discriminate H.
  - cbn in H. destruct (negb (existsb _ l)); cbn in H; discriminate H.
  - cbn [py_contains_str bind] in H.
    set (d1 := if negb (dict_mem f d) then dict_set f empty_record d else d) in *.
    assert (E1 : (if negb (dict_mem f d)
                  then py_setitem (JDict d) f empty_record
                  else Ok (JDict d)) = Ok (JDict d1)).
    { unfold d1. destruct (negb (dict_mem f d)); reflexivity. }
    assert (Hwf1 : wf_json (JDict d1) = true).
    { unfold d1. destruct (negb (dict_mem f d)); [|exact Hwf].
      apply wf_json_dict_set; [exact Hwf | exact Hf | reflexivity]. }
    rewrite E1 in H. cbn [bind py_getitem] in H.
    destruct (dict_get f d1) as [record|] eqn:Hrec; [|discriminate H].
    cbn [bind] in H.
    pose proof (wf_json_dict_get _ _ _ Hwf1 Hrec) as Hwr.
    destruct record as [| | | | | |r]; try discriminate H.
    cbn [py_getitem] in H.
    destruct (dict_get (axis_text a) r) as [pages|] eqn:Hpages; [|discriminate H].
    cbn [bind] in H.
    destruct (py_contains_int pages idx) as [found| |] eqn:Hfound;
      try discriminate H.
    cbn [bind] in H. destruct found; cbn [negb] in H.
    + injection H as <-. exact Hwf1.
    + destruct pages as [| | | | |l|]; try discriminate H.
      cbn [py_append bind] in H.
      destruct (py_sort (JList (l ++ [JInt idx]))) as [pages2| |] eqn:Hsort;
        try discriminate H.
      apply py_sort_ok in Hsort. destruct Hsort as [Hnum ->].
      cbn [bind py_setitem] in H. injection H as <-.
      apply wf_json_dict_set; [exact Hwf1 | exact Hf |].
      apply wf_json_dict_set; [exact Hwr | apply wf_str_axis_text |].
      apply wf_json_sorted_nums, Hnum.
Qed.

(** Every store reached from the empty one by confirmations on files
    with well-formed names can be exported and read back. *)
Lemma confirm_seq_wf_json (ops : list (pystr * Axis * Z)) (ann ann' : Json) :
  wf_json ann = true ->
  forallb (fun op => wf_str (fst (fst op))) ops = true ->
  confirm_seq ops ann = Ok ann' -> wf_json ann' = true.
Proof.
  revert ann. induction ops as [|[[f a] idx] ops IH]; intros ann Hwf Hops H.
  - injection H as <-. exact Hwf.
  - cbn [confirm_seq] in H. cbn [forallb fst] in Hops.
    apply andb_true_iff in Hops. destruct Hops as [Hf Hops].
    destruct (confirm f a idx ann) as [ann1| |] eqn:E; try discriminate H.
    cbn [bind] in H.
    exact (IH ann1 (confirm_wf_json f a idx ann ann1 Hwf Hf E) Hops H).
Qed.

(** ** Persistence: proofs *)

Lemma disk_get_put_same (p : pystr) (f : File) (d : Disk) :
  disk_get p (disk_put p f d) = Some f.
Proof.
  induction d as [|[p' f'] d IH]; cbn.
  - rewrite str_eqb_refl. reflexivity.
  - destruct (str_eqb p p') eqn:E; cbn; rewrite E; [reflexivity | exact IH].
Qed.

(** C9.  When no file exists at the annotations path, loading completes
    and leaves the whole session as it was: the store is untouched (empty
    on a fresh session) and nothing is printed. *)
Theorem load_missing_file_is_silent (st : NiiExplorer) (dir : pystr) :
  folder st = Some dir ->
  disk_get (path_join dir (u "annotations.json")) (disk st) = None ->
  load_existing_annotations st = Ok st.
Proof.
  intros Hf Hd. unfold load_existing_annotations. rewrite Hf, Hd. reflexivity.
Qed.

Lemma load_missing_file_is_silent_witness :
  load_existing_annotations demo_listed = Ok demo_listed /\
  annotations demo_listed = JDict [] /\
  stdout demo_listed = [].
Proof.
  split; [|split; reflexivity].
  apply (load_missing_file_is_silent demo_listed (u "/scans")); reflexivity.
Defined.

(** What [load_existing_annotations] does with a text file. *)
Lemma load_existing_annotations_text (st : NiiExplorer) (dir t : pystr) :
  folder st = Some dir ->
  disk_get (path_join dir (u "annotations.json")) (disk st) = Some (Text t) ->
  load_existing_annotations st =
    Ok match json_loads t with
       | None =>
           set_stdout (stdout st ++ [u "Failed to parse annotations.json"]) st
       | Some v => set_annotations v st
       end.
Proof.
  intros Hf Hd. unfold load_existing_annotations. rewrite Hf, Hd.
  destruct (json_loads t); reflexivity.
Qed.

(** C8, as the code has it.  When the annotations file holds a text that
    [json.load] either decodes or rejects with [JSONDecodeError] (a text
    within the limits of the decoder), the load completes; a text that is
    not valid JSON leaves the store as it was (empty on a fresh session)
    and prints one warning line; a text that is valid JSON becomes the
    store as it is, without a check of its shape, and nothing is
    printed. *)
Theorem load_text_file (st : NiiExplorer) (dir t : pystr) :
  folder st = Some dir ->
  disk_get (path_join dir (u "annotations.json")) (disk st) = Some (Text t) ->
  within_limits t = true ->
  (json_loads t = None ->
   exists st',
     load_existing_annotations st = Ok st' /\
     annotations st' = annotations st /\
     disk st' = disk st /\
     stdout st' = stdout st ++ [u "Failed to parse annotations.json"]) /\
  (forall v, json_loads t = Some v ->
   exists st',
     load_existing_annotations st = Ok st' /\
     annotations st' = v /\
     disk st' = disk st /\
     stdout st' = stdout st).
Proof.
  intros Hf Hd _.
  pose proof (load_existing_annotations_text st dir t Hf Hd) as Hload.
  split.
  - intros Hbad. rewrite Hbad in Hload. eexists. split; [exact Hload|].
    repeat split.
  - intros v Hv. rewrite Hv in Hload. eexists. split; [exact Hload|].
    repeat split.
Qed.

Lemma load_text_file_witness :
  within_limits (json_text "{'a.nii': {'axial': [4, ") = true /\
  exists st',
    load_existing_annotations truncated_listed = Ok st' /\
    annotations st' = JDict [] /\
    stdout st' = [u "Failed to parse annotations.json"].
Proof.
  assert (Hf : folder truncated_listed = Some (u "/scans"))
    by (vm_compute; reflexivity).
  assert (Hd : disk_get (path_join (u "/scans") (u "annotations.json"))
                 (disk truncated_listed)
               = Some (Text (json_text "{'a.nii': {'axial': [4, ")))
    by (vm_compute; reflexivity).
  assert (Hbad : json_loads (json_text "{'a.nii': {'axial': [4, ") = None)
    by (vm_compute; reflexivity).
  assert (Hlim : within_limits (json_text "{'a.nii': {'axial': [4, ") = true)
    by (vm_compute; reflexivity).
  split; [exact Hlim|].
  destruct (load_text_file truncated_listed (u "/scans") _ Hf Hd Hlim) as [Hnone _].
  destruct (Hnone Hbad) as (st' & Hrun & Hann & _ & Hout).
  exists st'. split; [exact Hrun|]. split.
  - rewrite Hann. reflexivity.
  - rewrite Hout. reflexivity.
Defined.

(** C8 as stated fails: the text [[1, 2]] is not in the persisted mapping
    format, yet it is loaded without a warning, the store is not empty, and
    the next confirmation raises. *)
Lemma load_accepts_any_json :
  json_loads (json_text "[1, 2]") = Some (JList [JInt 1; JInt 2]) /\
  store_okb (JList [JInt 1; JInt 2]) = false /\
  exists st,
    NiiExplorer_init misshapen_disk (u "/scans") = Ok st /\
    annotations st = JList [JInt 1; JInt 2] /\
    annotations st <> JDict [] /\
    stdout st = [] /\
    annotate_page st = Raise TypeError.
Proof.
  split; [vm_compute; reflexivity|]. split; [reflexivity|].
  eexists. split; [vm_compute; reflexivity|].
  split; [reflexivity|]. split; [discriminate|]. split; reflexivity.
Qed.

(** Exporting writes the encoded store to the annotations file, and any
    session on that folder and disk reads the same store back. *)
Lemma save_then_load (st : NiiExplorer) (dir : pystr) :
  folder st = Some dir ->
  wf_json (annotations st) = true ->
  let st1 :=
    set_disk (disk_put (path_join dir (u "annotations.json"))
                       (Text (encode 0 (annotations st))) (disk st)) st in
  save_annotations st = Ok st1 /\
  forall st2,
    folder st2 = Some dir ->
    disk st2 = disk st1 ->
    load_existing_annotations st2 = Ok (set_annotations (annotations st) st2).
Proof.
  intros Hf Hwf st1.
  destruct (json_loads_dumps (annotations st) Hwf) as [Hdump Hload].
  split.
  - unfold save_annotations. rewrite Hf, Hdump. reflexivity.
  - intros st2 Hf2 Hd2.
    rewrite (load_existing_annotations_text st2 dir
               (encode 0 (annotations st)) Hf2).
    + rewrite Hload. reflexivity.
    + rewrite Hd2. unfold st1. cbn [disk set_disk]. apply disk_get_put_same.
Qed.

(** C7.  Exporting a store and loading the file in a session on the same
    folder gives the same store: the same file names in the same order
    with the same per-axis lists.  The store is any value [json.dump]
    writes without floats, its dicts with distinct keys and its strings
    free of a high surrogate directly followed by a low one, which
    covers every mapping from file names to records of int lists.  The
    export changes nothing but the annotations file. *)
Theorem export_load_round_trip (st : NiiExplorer) (dir : pystr) :
  folder st = Some dir ->
  wf_json (annotations st) = true ->
  exists st1,
    save_annotations st = Ok st1 /\
    annotations st1 = annotations st /\
    folder st1 = Some dir /\
    forall st2,
      folder st2 = Some dir ->
      disk st2 = disk st1 ->
      exists st3,
        load_existing_annotations st2 = Ok st3 /\
        annotations st3 = annotations st /\
        stdout st3 = stdout st2.
Proof.
  intros Hf Hwf. destruct (save_then_load st dir Hf Hwf) as [Hsave Hload].
  eexists. split; [exact Hsave|]. split; [reflexivity|]. split; [exact Hf|].
  intros st2 Hf2 Hd2. eexists. split; [exact (Hload st2 Hf2 Hd2)|].
  split; reflexivity.
Qed.

Lemma export_load_round_trip_witness :
  annotations demo_annotated =
    JDict [(u "a.nii",
            JDict [(u "axial", JList [JInt 3; JInt 27]);
                   (u "coronal", JList [JInt 9]);
                   (u "sagittal", JList [])])] /\
  exists st1 listed st2,
    save_annotations demo_annotated = Ok st1 /\
    load_files (u "/scans") (init_ui (disk st1)) = Ok listed /\
    annotations listed = JDict [] /\
    load_existing_annotations listed = Ok st2 /\
    annotations st2 = annotations demo_annotated.
Proof.
  split; [vm_compute; reflexivity|].
  assert (Hf : folder demo_annotated = Some (u "/scans"))
    by (vm_compute; reflexivity).
  assert (Hwf : wf_json (annotations demo_annotated) = true)
    by (vm_compute; reflexivity).
  destruct (export_load_round_trip demo_annotated (u "/scans") Hf Hwf)
    as (st1 & Hsave & _ & _ & Hload).
  set (listed := session_of (load_files (u "/scans") (init_ui (disk st1)))).
  assert (Hst1 : Ok st1 = save_annotations demo_annotated)
    by (symmetry; exact Hsave).
  assert (Hd1 : disk st1 = disk (session_of (save_annotations demo_annotated)))
    by (rewrite <- Hst1; reflexivity).
  assert (Hlisted : load_files (u "/scans") (init_ui (disk st1)) = Ok listed).
  { unfold listed. rewrite Hd1. vm_compute. reflexivity. }
  assert (Hfl : folder listed = Some (u "/scans")).
  { unfold listed. rewrite Hd1. vm_compute. reflexivity. }
  assert (Hdl : disk listed = disk st1).
  { unfold listed. rewrite Hd1. vm_compute. reflexivity. }
  assert (Hal : annotations listed = JDict []).
  { unfold listed. rewrite Hd1. vm_compute. reflexivity. }
  destruct (Hload listed Hfl Hdl) as (st3 & Hrun & Hann & _).
  exists st1, listed, st3.
  split; [exact Hsave|]. split; [exact Hlisted|]. split; [exact Hal|].
  split; [exact Hrun | exact Hann].
Defined.

(** The round trip holds in particular for every store that
    confirmations build from the empty one. *)
Lemma save_then_load_reachable
    (st : NiiExplorer) (dir : pystr) (ops : list (pystr * Axis * Z)) :
  folder st = Some dir ->
  forallb (fun op => wf_str (fst (fst op))) ops = true ->
  confirm_seq ops (JDict []) = Ok (annotations st) ->
  exists st1,
    save_annotations st = Ok st1 /\
    forall st2,
      folder st2 = Some dir ->
      disk st2 = disk st1 ->
      load_existing_annotations st2 = Ok (set_annotations (annotations st) st2).
Proof.
  intros Hf Hops Hrun.
  pose proof (confirm_seq_wf_json ops (JDict []) (annotations st)
                eq_refl Hops Hrun) as Hwf.
  eexists. exact (save_then_load st dir Hf Hwf).
Qed.

Lemma str_eqb_neq (a b : pystr) : a <> b -> str_eqb a b = false.
Proof.
  intros H. destruct (str_eqb a b) eqn:E; [|reflexivity].
  apply str_eqb_eq in E. contradiction.
Qed.

Lemma confirm_first_axial (f : pystr) (idx : Z) :
  confirm f axial idx (JDict []) = Ok (JDict [(f, axial_record idx)]).
Proof.
  unfold confirm. repeat (cbn; unfold dict_mem; rewrite ?str_eqb_refl).
  reflexivity.
Qed.

Lemma describe_axial_record (f : pystr) (idx : Z) :
  describe (JDict [(f, axial_record idx)]) f =
  Ok [(axial, Some (JList [JInt idx])); (coronal, None); (sagittal, None)].
Proof.
  unfold describe. cbn [py_get dict_get]. rewrite str_eqb_refl. reflexivity.
Qed.

Lemma describe_other_file (f g : pystr) (r : Json) :
  g <> f ->
  describe (JDict [(f, r)]) g = Ok [(axial, None); (coronal, None); (sagittal, None)].
Proof.
  intros Hne. unfold describe. cbn [py_get dict_get].
  rewrite (str_eqb_neq g f Hne). reflexivity.
Qed.

(** C1, as the code has it.  From an empty store, confirming one index
    along the axial axis on the current file and exporting writes a
    mapping whose only key is that file, mapped to the record with that
    index in its axial list and empty coronal and sagittal lists.  Any
    other file of the folder has no key in it; the display of such a file
    shows all three axes empty. *)
Theorem export_holds_confirmed_files_only
    (st : NiiExplorer) (dir f : pystr) (idx : Z) :
  folder st = Some dir ->
  annotations st = JDict [] ->
  currentItem (file_list st) = Some f ->
  axis_combo st = axial ->
  value (slice_slider st) = idx ->
  wf_str f = true ->
  exists st' t,
    run [annotate_page; save_annotations] st = Ok st' /\
    disk_get (path_join dir (u "annotations.json")) (disk st') = Some (Text t) /\
    json_loads t = Some (JDict [(f, axial_record idx)]) /\
    forall g, g <> f ->
      py_contains_str (JDict [(f, axial_record idx)]) g = Ok false /\
      describe (annotations st') g =
        Ok [(axial, None); (coronal, None); (sagittal, None)].
Proof.
  intros Hf Hann Hcur Hax Hval Hwf.
  assert (Hwfj : wf_json (JDict [(f, axial_record idx)]) = true).
  { cbn. rewrite Hwf. reflexivity. }
  destruct (json_loads_dumps _ Hwfj) as [Hdump Hload].
  cbn [run]. unfold annotate_page. rewrite Hcur, Hax, Hval, Hann.
  rewrite confirm_first_axial. cbn [bind].
  unfold update_annotation_display. cbn [file_list set_annotations annotations].
  rewrite Hcur, describe_axial_record. cbn [bind].
  unfold save_annotations.
  cbn [folder annotations set_annotation_display set_annotations].
  rewrite Hf, Hdump. cbn [bind].
  do 2 eexists. split; [reflexivity|]. split.
  - cbn [disk set_disk]. apply disk_get_put_same.
  - split; [exact Hload|]. intros g Hne. split.
    + cbn [py_contains_str]. unfold dict_mem. cbn [dict_get].
      rewrite (str_eqb_neq g f Hne). reflexivity.
    + cbn [annotations set_disk set_annotation_display set_annotations].
      apply describe_other_file, Hne.
Qed.

Lemma export_holds_confirmed_files_only_witness :
  items (file_list scenario_session) = [u "a.nii"; u "b.nii"] /\
  exists st' t,
    run [annotate_page; save_annotations] scenario_session = Ok st' /\
    disk_get (u "/scans/annotations.json") (disk st') = Some (Text t) /\
    json_loads t = Some (JDict [(u "a.nii", axial_record 4)]).
Proof.
  split; [vm_compute; reflexivity|].
  assert (Hf : folder scenario_session = Some (u "/scans"))
    by (vm_compute; reflexivity).
  assert (Hann : annotations scenario_session = JDict [])
    by (vm_compute; reflexivity).
  assert (Hcur : currentItem (file_list scenario_session) = Some (u "a.nii"))
    by (vm_compute; reflexivity).
  assert (Hax : axis_combo scenario_session = axial)
    by (vm_compute; reflexivity).
  assert (Hval : value (slice_slider scenario_session) = 4)
    by (vm_compute; reflexivity).
  assert (Hwf : wf_str (u "a.nii") = true) by (vm_compute; reflexivity).
  destruct (export_holds_confirmed_files_only scenario_session
              (u "/scans") (u "a.nii") 4 Hf Hann Hcur Hax Hval Hwf)
    as (st' & t & Hrun & Hdisk & Hload & _).
  exists st', t. split; [exact Hrun|]. split; [exact Hdisk | exact Hload].
Defined.

(** C1 as stated fails: after confirming axial slice 4 on a.nii only, the
    exported text holds the key a.nii alone; there is no b.nii key mapped
    to empty lists.  With the names a.ext and b.ext the files are not even
    listed and the export is the empty mapping. *)
Lemma export_lacks_unconfirmed_file :
  (exists st',
      run [annotate_page; save_annotations] scenario_session = Ok st' /\
      disk_get (u "/scans/annotations.json") (disk st')
        = Some (Text (encode 0 (JDict [(u "a.nii", axial_record 4)]))) /\
      json_loads (encode 0 (JDict [(u "a.nii", axial_record 4)]))
        = Some (JDict [(u "a.nii", axial_record 4)]) /\
      py_contains_str (JDict [(u "a.nii", axial_record 4)]) (u "b.nii") = Ok false) /\
  (exists st st',
      NiiExplorer_init literal_disk (u "/scans") = Ok st /\
      items (file_list st) = [] /\
      run [slider_drag 4; annotate_page; save_annotations] st = Ok st' /\
      disk_get (u "/scans/annotations.json") (disk st') = Some (Text (u "{}"))).
Proof.
  split.
  - eexists. split; [vm_compute; reflexivity|].
    split; [vm_compute; reflexivity|]. split; vm_compute; reflexivity.
  - do 2 eexists. split; [vm_compute; reflexivity|].
    split; [reflexivity|]. split; vm_compute; reflexivity.
Qed.

(** ** Listing the folder: proofs *)

Lemma str_leb_refl (a : pystr) : str_leb a a = true.
Proof.
  induction a as [|x a IH]; [reflexivity|].
  cbn. rewrite N.ltb_irrefl, N.eqb_refl. exact IH.
Qed.

Lemma str_leb_total (a b : pystr) : str_leb a b = false -> str_leb b a = true.
Proof.
  revert b. induction a as [|x a IH]; intros [|y b] H; try discriminate H;
    try reflexivity.
  cbn in H |- *.
  destruct (N.ltb_spec x y); [discriminate H|].
  destruct (N.eqb_spec x y) as [->|Hne].
  - rewrite N.ltb_irrefl, N.eqb_refl. apply IH, H.
  - destruct (N.ltb_spec y x); [reflexivity|]. lia.
Qed.

Lemma str_leb_trans (a b c : pystr) :
  str_leb a b = true -> str_leb b c = true -> str_leb a c = true.
Proof.
  revert b c. induction a as [|x a IH]; intros [|y b] [|z c] H1 H2;
    try discriminate; try reflexivity.
  cbn in H1, H2 |- *.
  destruct (N.ltb_spec x y).
  - destruct (N.ltb_spec y z).
    + destruct (N.ltb_spec x z); [reflexivity|lia].
    + destruct (N.eqb_spec y z) as [->|]; [|discriminate H2].
      destruct (N.ltb_spec x z); [reflexivity|lia].
  - destruct (N.eqb_spec x y) as [->|]; [|discriminate H1].
    destruct (N.ltb_spec y z); [reflexivity|].
    destruct (N.eqb_spec y z) as [->|]; [|discriminate H2].
    exact (IH _ _ H1 H2).
Qed.

Lemma str_leb_antisym (a b : pystr) :
  str_leb a b = true -> str_leb b a = true -> a = b.
Proof.
  revert b. induction a as [|x a IH]; intros [|y b] H1 H2;
    try discriminate; try reflexivity.
  cbn in H1, H2.
  destruct (N.ltb_spec x y).
  - destruct (N.ltb_spec y x); [lia|].
    destruct (N.eqb_spec y x); [lia|discriminate H2].
  - destruct (N.eqb_spec x y) as [->|]; [|discriminate H1].
    rewrite N.ltb_irrefl, N.eqb_refl in H2. f_equal. exact (IH _ H1 H2).
Qed.

Lemma insert_str_perm (x : pystr) (l : list pystr) :
  Permutation (x :: l) (insert_str x l).
Proof.
  induction l as [|y l IH]; [apply Permutation_refl|].
  cbn. destruct (str_leb x y); [apply Permutation_refl|].
  eapply perm_trans; [apply perm_swap|]. apply perm_skip, IH.
Qed.

Lemma sorted_strs_perm (l : list pystr) : Permutation l (sorted_strs l).
Proof.
  induction l as [|x l IH]; [apply perm_nil|].
  cbn. eapply perm_trans; [apply perm_skip, IH|]. apply insert_str_perm.
Qed.

Lemma insert_str_sorted (x : pystr) (l : list pystr) :
  StronglySorted str_le l -> StronglySorted str_le (insert_str x l).
Proof.
  induction 1 as [|y l Hs IH Hall]; cbn.
  - constructor; constructor.
  - destruct (str_leb x y) eqn:E.
    + constructor; [constructor; assumption|].
      constructor; [exact E|].
      rewrite Forall_forall in Hall |- *. intros z Hz.
      exact (str_leb_trans _ _ _ E (Hall z Hz)).
    + constructor; [exact IH|].
      rewrite Forall_forall in Hall |- *. intros z Hz.
      apply (Permutation_in _ (Permutation_sym (insert_str_perm x l))) in Hz.
      destruct Hz as [<-|Hz]; [apply str_leb_total, E | apply Hall, Hz].
Qed.

Lemma sorted_strs_sorted (l : list pystr) : StronglySorted str_le (sorted_strs l).
Proof.
  induction l as [|x l IH]; [constructor|]. cbn. apply insert_str_sorted, IH.
Qed.

Lemma listdir_NoDup (dir : pystr) (d : Disk) : NoDup (listdir dir d).
Proof. apply NoDup_nodup. Qed.

Lemma same_rest_refl (st : NiiExplorer) : same_rest st st.
Proof. unfold same_rest. repeat split. Qed.

Lemma same_rest_trans (st1 st2 st3 : NiiExplorer) :
  same_rest st1 st2 -> same_rest st2 st3 -> same_rest st1 st3.
Proof.
  unfold same_rest.
  intros (A1 & A2 & A3 & A4 & A5 & A6 & A7 & A8) (B1 & B2 & B3 & B4 & B5 & B6 & B7 & B8).
  repeat split; congruence.
Qed.

Lemma update_view_same_rest (st st' : NiiExplorer) :
  update_view st = Ok st' -> same_rest st st'.
Proof.
  unfold update_view. intros H.
  destruct (axis st) as [a|]; [|discriminate H].
  destruct (data st) as [v|]; [|discriminate H].
  destruct (take_slice v a (value (slice_slider st))) as [sd| |]; try discriminate H.
  cbn [bind] in H. injection H as <-. unfold same_rest. repeat split.
Qed.

Lemma slider_setValue_same_rest (i : Z) (st st' : NiiExplorer) :
  slider_setValue i st = Ok st' -> same_rest st st'.
Proof.
  unfold slider_setValue, on_slice_changed. intros H.
  destruct (bound (slice_slider st) i =? value (slice_slider st)).
  - injection H as <-. apply same_rest_refl.
  - cbn [data set_slice_slider] in H. destruct (data st) as [v|].
    + apply update_view_same_rest in H.
      eapply same_rest_trans; [|exact H]. unfold same_rest. repeat split.
    + injection H as <-. unfold same_rest. repeat split.
Qed.

Lemma slider_setMaximum_same_rest (mx : Z) (st st' : NiiExplorer) :
  slider_setMaximum mx st = Ok st' -> same_rest st st'.
Proof.
  unfold slider_setMaximum, slider_setRange. intros H.
  match type of H with (if ?c then _ else _) = _ => destruct c end.
  - injection H as <-. apply same_rest_refl.
  - apply slider_setValue_same_rest in H.
    eapply same_rest_trans; [|exact H]. unfold same_rest. repeat split.
Qed.

Lemma update_slider_same_rest (st st' : NiiExplorer) :
  update_slider st = Ok st' -> same_rest st st'.
Proof.
  unfold update_slider. intros H.
  destruct (axis st) as [a|]; [|discriminate H].
  destruct (data st) as [v|]; [|discriminate H].
  destruct (slider_setMaximum (extent v a - 1) st) as [st1| |] eqn:H1;
    try discriminate H.
  cbn [bind slider_setEnabled] in H.
  apply slider_setMaximum_same_rest in H1.
  apply slider_setValue_same_rest in H.
  eapply same_rest_trans; [exact H1|].
  eapply same_rest_trans; [|exact H]. unfold same_rest. repeat split.
Qed.

Lemma on_file_changed_frame (cur : option pystr) (st st' : NiiExplorer) :
  on_file_changed cur st = Ok st' ->
  file_list st' = file_list st /\ folder st' = folder st /\
  annotations st' = annotations st /\ disk st' = disk st /\
  zoom_spin st' = zoom_spin st /\ axis_combo st' = axis_combo st /\
  stdout st' = stdout st.
Proof.
  unfold on_file_changed. intros H.
  destruct cur as [f|]; [|injection H as <-; repeat split].
  destruct (folder st) as [dir|] eqn:Hdir; [|discriminate H].
  destruct (disk_get (path_join dir f) (disk st)) as [[v|t]|]; try discriminate H.
  set (st0 := set_axis _ _) in H.
  destruct (update_slider st0) as [st1| |] eqn:H1; try discriminate H.
  cbn [bind] in H.
  destruct (update_view st1) as [st2| |] eqn:H2; try discriminate H.
  cbn [bind] in H.
  apply update_slider_same_rest in H1. apply update_view_same_rest in H2.
  pose proof (same_rest_trans _ _ _ H1 H2) as (A1 & A2 & A3 & A4 & A5 & A6 & A7 & A8).
  unfold update_annotation_display in H.
  destruct (currentItem (file_list st2)) as [g|].
  - destruct (describe (annotations st2) g) as [pages| |]; try discriminate H.
    cbn [bind] in H. injection H as <-. cbn. rewrite A1, A2, A3, A4, A5, A7, A8.
    subst st0. repeat split. exact Hdir.
  - injection H as <-. rewrite A1, A2, A3, A4, A5, A7, A8.
    subst st0. repeat split. exact Hdir.
Qed.

(** X2.  [load_files] lists exactly the names of the folder that end in
    .nii or .nii.gz, each once and in ascending order of code points.
    When there is none the list stays empty and nothing is loaded;
    otherwise, when the handler completes, the first name is the current
    item, and the store and the disk are as before. *)
Theorem load_files_lists_sorted (dir : pystr) (st : NiiExplorer) :
  let names := sorted_strs (filter is_nii (listdir dir (disk st))) in
  (forall n, In n names <-> In n (listdir dir (disk st)) /\ is_nii n = true) /\
  NoDup names /\
  StronglySorted str_le names /\
  (names = [] ->
   load_files dir st =
     Ok (set_file_list {| items := []; currentRow := None |}
           (set_folder (Some dir) st))) /\
  (forall st', load_files dir st = Ok st' ->
     folder st' = Some dir /\
     file_list st' =
       {| items := names;
          currentRow := match names with [] => None | _ :: _ => Some 0%nat end |} /\
     currentItem (file_list st') = hd_error names /\
     annotations st' = annotations st /\
     disk st' = disk st).
Proof.
  intros names.
  pose proof (sorted_strs_perm (filter is_nii (listdir dir (disk st)))) as Hperm.
  fold names in Hperm.
  split; [|split; [|split; [|split]]].
  - intros n. rewrite <- filter_In. split; intros H.
    + exact (Permutation_in _ (Permutation_sym Hperm) H).
    + exact (Permutation_in _ Hperm H).
  - apply (Permutation_NoDup Hperm), NoDup_filter, listdir_NoDup.
  - apply sorted_strs_sorted.
  - intros E. unfold load_files. fold is_nii. fold names. rewrite E. reflexivity.
  - intros st'. unfold load_files. fold is_nii. fold names.
    destruct names as [|n rest].
    + intros H. injection H as <-. repeat split.
    + unfold file_list_setCurrentRow.
      cbn [file_list set_file_list items currentRow length Nat.ltb Nat.leb].
      intros H. apply on_file_changed_frame in H.
      destruct H as (A1 & A2 & A3 & A4 & _).
      rewrite A1, A2, A3, A4. repeat split.
Qed.

Lemma load_files_lists_sorted_witness :
  exists st',
    load_files (u "/scans") (init_ui demo_disk2) = Ok st' /\
    items (file_list st') = [u "a.nii"; u "b.nii"] /\
    currentItem (file_list st') = Some (u "a.nii").
Proof.
  destruct (load_files (u "/scans") (init_ui demo_disk2)) as [st'| |] eqn:E;
    try (vm_compute in E; discriminate E).
  exists st'. split; [reflexivity|].
  destruct (load_files_lists_sorted (u "/scans") (init_ui demo_disk2))
    as (_ & _ & _ & _ & H).
  destruct (H st' E) as (_ & Hl & _). rewrite Hl. split; vm_compute; reflexivity.
Defined.


(** ** The exports and the files on disk: proofs *)

Lemma disk_get_put_other (p p' : pystr) (f : File) (d : Disk) :
  str_eqb p' p = false -> disk_get p' (disk_put p f d) = disk_get p' d.
Proof.
  intros Hne. induction d as [|[q g] d IH]; cbn.
  - rewrite Hne. reflexivity.
  - destruct (str_eqb p q) eqn:E; cbn.
    + apply str_eqb_eq in E. subst q. rewrite Hne. reflexivity.
    + destruct (str_eqb p' q); [reflexivity | exact IH].
Qed.

Lemma path_join_suffix (a b : pystr) : exists x, path_join a b = x ++ b.
Proof.
  unfold path_join. destruct (startswith b [47%N]); [exists []; reflexivity|].
  destruct a as [|c a]; [exists []; reflexivity|].
  destruct (endswith (c :: a) [47%N]).
  - exists (c :: a). reflexivity.
  - exists ((c :: a) ++ [47%N]). rewrite <- app_assoc. reflexivity.
Qed.

Lemma last_char_app (x b : pystr) :
  b <> [] -> last_char (x ++ b) = last_char b.
Proof.
  intros Hb. unfold last_char. rewrite rev_app_distr.
  destruct (rev b) as [|c r] eqn:E; [|reflexivity].
  apply (f_equal (@rev N)) in E. rewrite rev_involutive in E. contradiction.
Qed.

Lemma startswith_hd (s p : pystr) (c : N) :
  startswith s (c :: p) = true -> hd_error s = Some c.
Proof.
  destruct s as [|x s]; cbn; [discriminate|].
  destruct (N.eqb_spec x c) as [->|]; [reflexivity|discriminate].
Qed.

Lemma endswith_last_char (s p : pystr) (c : N) :
  endswith s (p ++ [c]) = true -> last_char s = Some c.
Proof.
  unfold endswith, last_char. rewrite rev_app_distr. cbn [rev app].
  apply startswith_hd.
Qed.

Lemma is_nii_last_char (p : pystr) :
  is_nii p = true -> last_char p = Some 105%N \/ last_char p = Some 122%N.
Proof.
  unfold is_nii. intros H. apply orb_true_iff in H. destruct H as [H|H].
  - left. exact (endswith_last_char p (u ".ni") 105%N H).
  - right. exact (endswith_last_char p (u ".nii.g") 122%N H).
Qed.

(** A path that [save_annotations] or [export_current_annotation] writes
    ends in the n of json. *)
Lemma json_path_last_char (dir name : pystr) :
  last_char (path_join dir (name ++ u ".json")) = Some 110%N.
Proof.
  destruct (path_join_suffix dir (name ++ u ".json")) as [x ->].
  rewrite app_assoc. apply last_char_app. discriminate.
Qed.

Lemma nii_path_not_json (dir name p : pystr) :
  is_nii p = true -> str_eqb p (path_join dir (name ++ u ".json")) = false.
Proof.
  intros Hp. apply str_eqb_neq. intros ->.
  apply is_nii_last_char in Hp. rewrite json_path_last_char in Hp.
  destruct Hp as [Hp|Hp]; discriminate Hp.
Qed.

(** X13.  Neither export writes over a scan: when [save_annotations] or
    [export_current_annotation] completes, the session differs from the
    one before at most in the disk, and every path that ends in .nii or
    .nii.gz holds what it held. *)
Theorem exports_leave_scans_alone (st st' : NiiExplorer) :
  save_annotations st = Ok st' \/ export_current_annotation st = Ok st' ->
  st' = set_disk (disk st') st /\
  forall p, is_nii p = true -> disk_get p (disk st') = disk_get p (disk st).
Proof.
  intros [H|H].
  - unfold save_annotations in H.
    destruct (folder st) as [dir|]; [|discriminate H].
    destruct (json_dumps (annotations st)) as [t| |]; try discriminate H.
    cbn [bind] in H. injection H as <-. split; [reflexivity|].
    intros p Hp. cbn [disk set_disk].
    apply disk_get_put_other.
    exact (nii_path_not_json dir (u "annotations") p Hp).
  - unfold export_current_annotation in H.
    destruct (currentItem (file_list st)) as [f|].
    2:{ injection H as <-. split; [destruct st; reflexivity | reflexivity]. }
    destruct (py_get (annotations st) f JNull) as [r| |]; try discriminate H.
    cbn [bind] in H.
    destruct (py_truthy r) as [[|]| |]; try discriminate H; cbn [bind] in H.
    2:{ injection H as <-. split; [destruct st; reflexivity | reflexivity]. }
    destruct (folder st) as [dir|]; [|discriminate H].
    destruct (json_dumps (JDict [(f, r)])) as [t| |]; try discriminate H.
    cbn [bind] in H. injection H as <-. split; [reflexivity|].
    intros p Hp. cbn [disk set_disk].
    apply disk_get_put_other.
    replace (f ++ u "_annotation.json") with ((f ++ u "_annotation") ++ u ".json")
      by (rewrite <- app_assoc; reflexivity).
    exact (nii_path_not_json dir (f ++ u "_annotation") p Hp).
Qed.

Lemma exports_leave_scans_alone_witness :
  exists st',
    save_annotations demo_annotated = Ok st' /\
    disk_get (u "/scans/a.nii") (disk st') = Some (Nifti demo_volume).
Proof.
  destruct (save_annotations demo_annotated) as [st'| |] eqn:E;
    try (vm_compute in E; discriminate E).
  exists st'. split; [reflexivity|].
  destruct (exports_leave_scans_alone demo_annotated st' (or_introl E)) as [_ H].
  rewrite (H (u "/scans/a.nii") eq_refl). vm_compute. reflexivity.
Defined.





(** ** Stored pages: proofs *)

Lemma pages_of_set_other_file (f g : pystr) (r : Json) (d : pydict) (b : Axis) :
  g <> f ->
  pages_of (JDict (dict_set f r d)) g b = pages_of (JDict d) g b.
Proof.
  intros Hne. unfold pages_of.
  rewrite (dict_get_set_other f g r d (str_eqb_neq _ _ Hne)). reflexivity.
Qed.

Lemma pages_of_empty_record (f : pystr) (d : pydict) (b : Axis) :
  dict_get f d = None ->
  pages_of (JDict (dict_set f empty_record d)) f b = pages_of (JDict d) f b.
Proof.
  intros Hnone. unfold pages_of. rewrite dict_get_set_same, Hnone.
  destruct b; reflexivity.
Qed.

Lemma pages_of_set_axis (f : pystr) (a b : Axis) (p : Json) (r d : pydict) :
  dict_get f d = Some (JDict r) ->
  b <> a ->
  pages_of (JDict (dict_set f (JDict (dict_set (axis_text a) p r)) d)) f b
  = pages_of (JDict d) f b.
Proof.
  intros Hr Hne. unfold pages_of. rewrite dict_get_set_same, Hr.
  rewrite (dict_get_set_other _ _ p r (axis_text_differs a b (not_eq_sym Hne))).
  reflexivity.
Qed.

Lemma pages_of_set_pages (f : pystr) (a : Axis) (zs : list Z) (r d : pydict) :
  pages_of (JDict (dict_set f (JDict (dict_set (axis_text a) (JList (map JInt zs)) r)) d))
           f a = zs.
Proof.
  unfold pages_of. rewrite !dict_get_set_same, ints_of_map. reflexivity.
Qed.

Lemma existsb_eqb_In (idx : Z) (zs : list Z) :
  existsb (Z.eqb idx) zs = true <-> In idx zs.
Proof.
  rewrite existsb_exists. split.
  - intros (z & Hz & E). apply Z.eqb_eq in E. subst z. exact Hz.
  - intros H. exists idx. split; [exact H | apply Z.eqb_refl].
Qed.

Lemma pages_of_ascending (ann : Json) (f : pystr) (a : Axis) :
  store_okb ann = true -> ascending (pages_of ann f a) = true.
Proof.
  intros Hok. destruct ann as [| | | | | |d]; try discriminate Hok.
  cbn [store_okb] in Hok. unfold pages_of.
  destruct (dict_get f d) as [r|] eqn:E; [|reflexivity].
  pose proof (forallb_dict_get _ _ _ _ Hok E) as Hr.
  apply record_okb_inv in Hr. destruct Hr as (r' & -> & Hr).
  pose proof (Hr a) as Ha. unfold axis_okb in Ha.
  destruct (dict_get (axis_text a) r') as [p|]; [|discriminate Ha].
  apply pages_okb_inv in Ha. destruct Ha as (zs & -> & Hasc).
  rewrite ints_of_map. exact Hasc.
Qed.

(** What [confirm] returns on a store that satisfies the invariant. *)
Lemma confirm_explicit (f : pystr) (a : Axis) (idx : Z) (d : pydict) :
  store_okb (JDict d) = true ->
  let d1 := with_record f d in
  exists r zs,
    dict_get f d1 = Some (JDict r) /\
    (forall a', axis_okb r a' = true) /\
    dict_get (axis_text a) r = Some (JList (map JInt zs)) /\
    ascending zs = true /\
    store_okb (JDict d1) = true /\
    if existsb (Z.eqb idx) zs
    then confirm f a idx (JDict d) = Ok (JDict d1)
    else exists zs',
        ascending zs' = true /\
        (forall z, In z zs' <-> z = idx \/ In z zs) /\
        confirm f a idx (JDict d) =
          Ok (JDict (dict_set f
                       (JDict (dict_set (axis_text a) (JList (map JInt zs')) r))
                       d1)).
Proof.
  intros Hok d1. cbn [store_okb] in Hok.
  assert (E1 : (if negb (dict_mem f d)
                then py_setitem (JDict d) f empty_record
                else Ok (JDict d)) = Ok (JDict d1)).
  { unfold d1, with_record. destruct (dict_mem f d); reflexivity. }
  assert (Hok1 : forallb (fun kv => record_okb (snd kv)) d1 = true).
  { unfold d1, with_record. destruct (dict_mem f d); [exact Hok|].
    apply forallb_dict_set; [exact Hok | reflexivity]. }
  assert (Hrec : exists record, dict_get f d1 = Some record).
  { unfold d1, with_record, dict_mem. destruct (dict_get f d) as [r|] eqn:E.
    - exists r. exact E.
    - eexists. apply dict_get_set_same. }
  destruct Hrec as [record Hrec].
  pose proof (forallb_dict_get _ _ _ _ Hok1 Hrec) as Hrok.
  apply record_okb_inv in Hrok. destruct Hrok as (r & -> & Hr).
  pose proof (Hr a) as Ha. unfold axis_okb in Ha.
  destruct (dict_get (axis_text a) r) as [pages|] eqn:Hpages; [|discriminate Ha].
  apply pages_okb_inv in Ha. destruct Ha as (zs & -> & Hasc).
  exists r, zs. split; [exact Hrec|]. split; [exact Hr|]. split; [exact Hpages|].
  split; [exact Hasc|]. split; [exact Hok1|].
  unfold confirm. cbn [py_contains_str bind]. rewrite E1.
  cbn [bind py_getitem]. rewrite Hrec. cbn [bind py_getitem]. rewrite Hpages.
  cbn [bind py_contains_int]. rewrite list_contains_int_ints. cbn [bind].
  destruct (existsb (Z.eqb idx) zs) eqn:Hfound; cbn [negb]; [reflexivity|].
  destruct (append_sort_ok idx zs Hasc Hfound) as (zs' & Hsort & Hasc' & Hin).
  exists zs'. split; [exact Hasc'|]. split; [exact Hin|].
  cbn [py_append bind]. rewrite Hsort. reflexivity.
Qed.

Lemma pages_of_with_record (f g : pystr) (b : Axis) (d : pydict) :
  pages_of (JDict (with_record f d)) g b = pages_of (JDict d) g b.
Proof.
  unfold with_record, dict_mem. destruct (dict_get f d) as [r|] eqn:E; [reflexivity|].
  destruct (list_eq_dec N.eq_dec g f) as [->|Hne].
  - apply pages_of_empty_record, E.
  - apply pages_of_set_other_file, Hne.
Qed.

Lemma dict_mem_with_record (f g : pystr) (d : pydict) :
  g <> f ->
  dict_mem g (with_record f d) = dict_mem g d.
Proof.
  intros Hne. unfold with_record. destruct (dict_mem f d); [reflexivity|].
  rewrite dict_mem_set, (str_eqb_neq _ _ Hne). apply orb_false_r.
Qed.

(** [confirm] adds the page and changes nothing else. *)
Lemma confirm_pages (f : pystr) (a : Axis) (idx : Z) (ann : Json) :
  store_okb ann = true ->
  exists ann',
    confirm f a idx ann = Ok ann' /\
    store_okb ann' = true /\
    ascending (pages_of ann' f a) = true /\
    (forall z, In z (pages_of ann' f a) <-> z = idx \/ In z (pages_of ann f a)) /\
    (forall g b, g <> f \/ b <> a -> pages_of ann' g b = pages_of ann g b) /\
    py_contains_str ann' f = Ok true /\
    (forall g, g <> f -> py_contains_str ann' g = py_contains_str ann g).
Proof.
  intros Hok. destruct ann as [| | | | | |d]; try discriminate Hok.
  destruct (confirm_explicit f a idx d Hok) as (r & zs & Hrec & Hr & Hpages & Hasc & Hok1 & H).
  assert (Hzs : pages_of (JDict d) f a = zs).
  { rewrite <- (pages_of_with_record f f a d). unfold pages_of.
    rewrite Hrec, Hpages, ints_of_map. reflexivity. }
  set (d1 := with_record f d) in *.
  assert (Hmem1 : dict_mem f d1 = true).
  { unfold dict_mem. rewrite Hrec. reflexivity. }
  destruct (existsb (Z.eqb idx) zs) eqn:Hfound.
  - exists (JDict d1). split; [exact H|]. split; [exact Hok1|].
    split; [apply pages_of_ascending, Hok1|].
    split; [|split; [|split]].
    + intros z. unfold d1. rewrite pages_of_with_record, Hzs.
      apply existsb_eqb_In in Hfound. split; [tauto|].
      intros [->|Hz]; assumption.
    + intros g b _. apply pages_of_with_record.
    + cbn [py_contains_str]. rewrite Hmem1. reflexivity.
    + intros g Hne. cbn [py_contains_str]. unfold d1.
      rewrite (dict_mem_with_record f g d Hne). reflexivity.
  - destruct H as (zs' & Hasc' & Hin & H).
    eexists. split; [exact H|].
    assert (Hok2 : store_okb
              (JDict (dict_set f
                        (JDict (dict_set (axis_text a) (JList (map JInt zs')) r)) d1))
              = true).
    { cbn [store_okb]. apply forallb_dict_set; [exact Hok1|].
      apply record_okb_set; [|exact Hr]. cbn. rewrite ints_of_map. exact Hasc'. }
    split; [exact Hok2|].
    split; [apply pages_of_ascending, Hok2|].
    split; [|split; [|split]].
    + intros z. rewrite pages_of_set_pages, Hzs. apply Hin.
    + intros g b Hgb.
      destruct (list_eq_dec N.eq_dec g f) as [->|Hne].
      * destruct Hgb as [Hgb|Hgb]; [contradiction|].
        rewrite (pages_of_set_axis f a b _ r d1 Hrec Hgb). apply pages_of_with_record.
      * rewrite (pages_of_set_other_file f g _ d1 b Hne). apply pages_of_with_record.
    + cbn [py_contains_str]. rewrite dict_mem_set, str_eqb_refl.
      rewrite orb_true_r. reflexivity.
    + intros g Hne. cbn [py_contains_str].
      rewrite dict_mem_set, (str_eqb_neq _ _ Hne), orb_false_r.
      unfold d1. rewrite (dict_mem_with_record f g d Hne). reflexivity.
Qed.

(** *** What the display shows *)

Lemma describe_axis (r : pydict) (a : Axis) :
  axis_okb r a = true ->
  (pages <- py_get (JDict r) (axis_text a) (JList []) ;;
   t <- py_truthy pages ;;
   Ok (a, if t then Some pages else None))
  = Ok (a, show_pages
             match dict_get (axis_text a) r with
             | Some (JList l) =>
                 match ints_of l with Some zs => zs | None => [] end
             | _ => []
             end).
Proof.
  unfold axis_okb. intros Ha. cbn [py_get].
  destruct (dict_get (axis_text a) r) as [p|]; [|discriminate Ha].
  apply pages_okb_inv in Ha. destruct Ha as (zs & -> & _).
  rewrite ints_of_map. destruct zs; reflexivity.
Qed.

(** [describe] shows the stored pages. *)
Lemma describe_pages_of (ann : Json) (f : pystr) :
  store_okb ann = true ->
  describe ann f =
    Ok (map (fun a => (a, show_pages (pages_of ann f a))) [axial; coronal; sagittal]).
Proof.
  intros Hok. destruct ann as [| | | | | |d]; try discriminate Hok.
  cbn [store_okb] in Hok. unfold describe, pages_of. cbn [py_get].
  destruct (dict_get f d) as [r|] eqn:E; cbn [bind].
  - pose proof (forallb_dict_get _ _ _ _ Hok E) as Hr.
    apply record_okb_inv in Hr. destruct Hr as (r' & -> & Hr).
    cbn [mapM map].
    rewrite (describe_axis r' axial (Hr axial)),
            (describe_axis r' coronal (Hr coronal)),
            (describe_axis r' sagittal (Hr sagittal)).
    reflexivity.
  - reflexivity.
Qed.

(** X10.  On a well-shaped store, [update_annotation_display] completes
    and shows, for the three axes in order, the stored pages of the
    current file, or N/A where the file has no record or the list is
    empty; nothing else in the session changes. *)
Theorem display_shows_stored_pages (st : NiiExplorer) (f : pystr) :
  store_okb (annotations st) = true ->
  currentItem (file_list st) = Some f ->
  update_annotation_display st =
    Ok (set_annotation_display
          (Some (display_of (annotations st) f)) st).
Proof.
  intros Hok Hcur. unfold update_annotation_display.
  rewrite Hcur, (describe_pages_of _ f Hok). reflexivity.
Qed.

Lemma display_shows_stored_pages_witness :
  exists st',
    update_annotation_display demo_annotated = Ok st' /\
    annotation_display st' =
      Some {| shown_file := u "a.nii";
              shown_pages := [(axial, Some (JList [JInt 3; JInt 27]));
                              (coronal, Some (JList [JInt 9]));
                              (sagittal, None)] |}.
Proof.
  assert (Hok : store_okb (annotations demo_annotated) = true)
    by (vm_compute; reflexivity).
  assert (Hcur : currentItem (file_list demo_annotated) = Some (u "a.nii"))
    by (vm_compute; reflexivity).
  eexists. split; [exact (display_shows_stored_pages _ _ Hok Hcur)|].
  vm_compute. reflexivity.
Defined.

(** X8.  On a well-shaped store, [annotate_page] with current file [f]
    completes.  Afterwards the pages of [f] along the axis of the combo
    box are those it had plus the slider value; every other list of every
    file is as before; no other file gains or loses a record; the display
    shows the new pages of [f]; and only the store and the display have
    changed. *)
Theorem annotate_page_adds_one_page (st : NiiExplorer) (f : pystr) :
  store_okb (annotations st) = true ->
  currentItem (file_list st) = Some f ->
  let a := axis_combo st in
  let idx := value (slice_slider st) in
  exists st',
    annotate_page st = Ok st' /\
    st' = set_annotation_display (annotation_display st')
            (set_annotations (annotations st') st) /\
    store_okb (annotations st') = true /\
    (forall z, In z (pages_of (annotations st') f a)
               <-> z = idx \/ In z (pages_of (annotations st) f a)) /\
    (forall g b, g <> f \/ b <> a ->
       pages_of (annotations st') g b = pages_of (annotations st) g b) /\
    (forall g, g <> f ->
       py_contains_str (annotations st') g = py_contains_str (annotations st) g) /\
    annotation_display st' =
      Some (display_of (annotations st') f).
Proof.
  intros Hok Hcur a idx.
  destruct (confirm_pages f a idx _ Hok)
    as (ann' & E & Hok' & _ & Hin & Hother & _ & Hkeys).
  unfold annotate_page, update_annotation_display. rewrite Hcur.
  fold a. fold idx. rewrite E. cbn [bind].
  cbn [file_list set_annotations annotations]. rewrite Hcur.
  rewrite (describe_pages_of ann' f Hok'). cbn [bind].
  eexists. split; [reflexivity|].
  cbn [annotations set_annotation_display annotation_display set_annotations].
  split; [reflexivity|]. split; [exact Hok'|]. split; [exact Hin|].
  split; [exact Hother|]. split; [exact Hkeys|]. reflexivity.
Qed.

Lemma annotate_page_adds_one_page_witness :
  value (slice_slider demo_session2) = 27 /\
  exists st',
    annotate_page demo_session2 = Ok st' /\
    pages_of (annotations st') (u "a.nii") axial = [27] /\
    annotation_display st' =
      Some {| shown_file := u "a.nii";
              shown_pages := [(axial, Some (JList [JInt 27]));
                              (coronal, None); (sagittal, None)] |}.
Proof.
  split; [vm_compute; reflexivity|].
  assert (Hok : store_okb (annotations demo_session2) = true)
    by (vm_compute; reflexivity).
  assert (Hcur : currentItem (file_list demo_session2) = Some (u "a.nii"))
    by (vm_compute; reflexivity).
  destruct (annotate_page_adds_one_page demo_session2 _ Hok Hcur)
    as (st' & E & _).
  exists st'. split; [exact E|].
  assert (E' : annotate_page demo_session2 = Ok st') by exact E.
  vm_compute in E'. injection E' as <-. split; vm_compute; reflexivity.
Defined.

(** X11.  With a current file and a store that is not a dict (a JSON
    list, string, number or null that was loaded), [annotate_page] raises
    [TypeError], and [update_annotation_display] and
    [export_current_annotation] raise [AttributeError]. *)
Theorem non_mapping_store_raises (st : NiiExplorer) (f : pystr) :
  currentItem (file_list st) = Some f ->
  (forall d, annotations st <> JDict d) ->
  annotate_page st = Raise TypeError /\
  update_annotation_display st = Raise AttributeError /\
  export_current_annotation st = Raise AttributeError /\
  (forall a idx, confirm f a idx (annotations st) = Raise TypeError).
Proof.
  intros Hcur Hnd.
  assert (Hc : forall a idx, confirm f a idx (annotations st) = Raise TypeError).
  { intros a idx. unfold confirm.
    destruct (annotations st) as [| | | | s|l|d]; try reflexivity.
    - cbn. destruct (str_contains s f); reflexivity.
    - cbn. destruct (existsb _ l); reflexivity.
    - destruct (Hnd d eq_refl). }
  assert (Hg : forall dflt, py_get (annotations st) f dflt = Raise AttributeError).
  { intros dflt. destruct (annotations st) as [| | | | | |d]; try reflexivity.
    destruct (Hnd d eq_refl). }
  split; [|split; [|split]].
  - unfold annotate_page. rewrite Hcur, Hc. reflexivity.
  - unfold update_annotation_display, describe. rewrite Hcur, Hg. reflexivity.
  - unfold export_current_annotation. rewrite Hcur, Hg. reflexivity.
  - exact Hc.
Qed.

(** ** Zoom, file selection and start-up: proofs *)

(** X6.  While a volume is viewed, setting the zoom box to [z]
    completes: the zoom becomes [z] bound into 10..500, the same slice of
    the same axis is drawn with the new zoom, and only the zoom and the
    figure change. *)
Theorem zoom_redraws_current_slice
    (v : Volume) (a : Axis) (z : Z) (st : NiiExplorer) :
  viewing v a st ->
  exists st',
    zoom_spin_setValue z st = Ok st' /\
    zoom_spin st' = Z.max 10 (Z.min 500 z) /\
    st' = set_figure (figure st') (set_zoom_spin (zoom_spin st') st) /\
    viewing v a st'.
Proof.
  intros Hv. pose proof Hv as (V1 & V2 & V3 & V4 & V5 & V6 & V7).
  unfold zoom_spin_setValue.
  destruct (Z.eqb_spec (Z.max 10 (Z.min 500 z)) (zoom_spin st)) as [E|E].
  - exists st. split; [reflexivity|]. split; [symmetry; exact E|].
    split; [destruct st; reflexivity | exact Hv].
  - destruct (update_view_viewing v a (set_zoom_spin (Z.max 10 (Z.min 500 z)) st))
      as [Hrun Hv2]; try assumption.
    rewrite Hrun. eexists. split; [reflexivity|].
    split; [reflexivity|]. split; [reflexivity | exact Hv2].
Qed.

Lemma zoom_redraws_current_slice_witness :
  viewing demo_volume axial demo_session /\
  exists st',
    zoom_spin_setValue 1000 demo_session = Ok st' /\
    zoom_spin st' = 500 /\
    option_map zoom_percent (figure st') = Some 500 /\
    option_map title_idx (figure st') = Some 14.
Proof.
  assert (Hv : viewing demo_volume axial demo_session).
  { unfold viewing. repeat split; vm_compute; try reflexivity; discriminate. }
  split; [exact Hv|].
  destruct (zoom_redraws_current_slice demo_volume axial 1000 demo_session Hv)
    as (st' & E & Hz & _ & Hv').
  exists st'. split; [exact E|]. split; [exact Hz|].
  destruct Hv' as (_ & _ & _ & _ & _ & _ & Hfig). rewrite Hfig.
  cbn [option_map view_of zoom_percent title_idx]. rewrite Hz.
  split; [reflexivity|].
  assert (E' : zoom_spin_setValue 1000 demo_session = Ok st') by exact E.
  vm_compute in E'. injection E' as <-. reflexivity.
Defined.

(** *** Selecting a file *)

Lemma on_file_changed_loaded (dir f : pystr) (v : Volume) (st : NiiExplorer) :
  folder st = Some dir ->
  disk_get (path_join dir f) (disk st) = Some (Nifti v) ->
  nonempty v ->
  minimum (slice_slider st) = 0 ->
  store_okb (annotations st) = true ->
  exists st',
    on_file_changed (Some f) st = Ok st' /\
    viewing v (axis_combo st) st' /\
    value (slice_slider st') = (extent v (axis_combo st) - 1) / 2 /\
    annotation_display st' =
      match currentItem (file_list st) with
      | Some g => Some (display_of (annotations st) g)
      | None => annotation_display st
      end /\
    file_list st' = file_list st /\ folder st' = folder st /\
    annotations st' = annotations st /\ disk st' = disk st /\
    zoom_spin st' = zoom_spin st /\ axis_combo st' = axis_combo st /\
    stdout st' = stdout st.
Proof.
  intros Hdir Hget Hne Hmin Hok. unfold on_file_changed. rewrite Hdir, Hget.
  destruct (update_slider_then_view v (axis_combo st)
              (set_axis (Some (axis_combo (set_data (Some v) st)))
                 (set_data (Some v) st)) Hne)
    as (st2 & Hrun & Hval & Hview & Hrest); [reflexivity | reflexivity | exact Hmin |].
  destruct (update_slider _) as [s1| |]; try discriminate Hrun.
  cbn [bind] in Hrun |- *. rewrite Hrun. cbn [bind].
  destruct Hrest as (A1 & A2 & A3 & A4 & A5 & A6 & A7 & A8).
  cbn [annotations folder file_list axis_combo zoom_spin annotation_display disk
       stdout set_axis set_data] in A1, A2, A3, A4, A5, A6, A7, A8.
  unfold update_annotation_display. rewrite A3.
  destruct (currentItem (file_list st)) as [g|].
  - rewrite A1, (describe_pages_of _ g Hok). cbn [bind].
    eexists. split; [reflexivity|].
    split.
    { apply (viewing_frame v (axis_combo st) st2); [exact Hview | reflexivity..]. }
    cbn. rewrite A1, A2, A3, A4, A5, A7, A8. repeat split; assumption.
  - exists st2. split; [reflexivity|]. split; [exact Hview|].
    rewrite A1, A2, A3, A4, A5, A6, A7, A8. repeat split; assumption.
Qed.

(** X7.  Selecting row [row] of the file list, whose file decodes to a
    non-empty volume, with a well-shaped store.  When the row is already
    current nothing happens (the slider is not reset).  Otherwise the
    volume is shown along the axis of the combo box at the midpoint of
    its range, the display shows the stored pages of the new file, and
    the store, the disk and the zoom are as before. *)
Theorem select_file_shows_its_pages
    (st : NiiExplorer) (dir f : pystr) (row : nat) (v : Volume) :
  folder st = Some dir ->
  nth_error (items (file_list st)) row = Some f ->
  disk_get (path_join dir f) (disk st) = Some (Nifti v) ->
  nonempty v ->
  minimum (slice_slider st) = 0 ->
  store_okb (annotations st) = true ->
  (currentRow (file_list st) = Some row -> file_list_setCurrentRow row st = Ok st) /\
  (currentRow (file_list st) <> Some row ->
   exists st',
     file_list_setCurrentRow row st = Ok st' /\
     file_list st' = {| items := items (file_list st); currentRow := Some row |} /\
     viewing v (axis_combo st) st' /\
     value (slice_slider st') = (extent v (axis_combo st) - 1) / 2 /\
     annotation_display st' = Some (display_of (annotations st) f) /\
     annotations st' = annotations st /\
     disk st' = disk st /\
     zoom_spin st' = zoom_spin st).
Proof.
  intros Hdir Hnth Hget Hne Hmin Hok.
  assert (Hlt : (row <? length (items (file_list st)))%nat = true).
  { apply Nat.ltb_lt, nth_error_Some. rewrite Hnth. discriminate. }
  unfold file_list_setCurrentRow. rewrite Hlt. split.
  - intros ->. rewrite Nat.eqb_refl. reflexivity.
  - intros Hrow.
    set (w' := {| items := items (file_list st); currentRow := Some row |}).
    assert (Hcur : currentItem w' = Some f) by exact Hnth.
    destruct (on_file_changed_loaded dir f v (set_file_list w' st))
      as (st' & Hrun & Hview & Hval & Hdsp & A1 & A2 & A3 & A4 & A5 & _);
      try assumption.
    cbn [file_list set_file_list] in Hdsp. rewrite Hcur in Hdsp.
    assert (Hgoal : on_file_changed (currentItem w') (set_file_list w' st) = Ok st').
    { rewrite Hcur. exact Hrun. }
    exists st'. split.
    { destruct (currentRow (file_list st)) as [r'|]; [|exact Hgoal].
      destruct (Nat.eqb_spec row r') as [->|_]; [contradiction Hrow; reflexivity|].
      exact Hgoal. }
    split; [exact A1|]. split; [exact Hview|]. split; [exact Hval|].
    split; [exact Hdsp|]. split; [exact A3|]. split; [exact A4 | exact A5].
Qed.

Lemma select_file_shows_its_pages_witness :
  currentRow (file_list demo_annotated) = Some 0%nat /\
  exists st',
    file_list_setCurrentRow 1 demo_annotated = Ok st' /\
    currentItem (file_list st') = Some (u "b.nii") /\
    axis_combo demo_annotated = coronal /\
    viewing demo_volume_b coronal st' /\
    value (slice_slider st') = 2 /\
    annotation_display st' = Some (blank_display (u "b.nii")).
Proof.
  split; [vm_compute; reflexivity|].
  assert (Hdir : folder demo_annotated = Some (u "/scans")) by (vm_compute; reflexivity).
  assert (Hnth : nth_error (items (file_list demo_annotated)) 1 = Some (u "b.nii"))
    by (vm_compute; reflexivity).
  assert (Hget : disk_get (path_join (u "/scans") (u "b.nii")) (disk demo_annotated)
                 = Some (Nifti demo_volume_b)) by (vm_compute; reflexivity).
  assert (Hne : nonempty demo_volume_b) by (unfold nonempty; cbn; lia).
  assert (Hmin : minimum (slice_slider demo_annotated) = 0) by (vm_compute; reflexivity).
  assert (Hok : store_okb (annotations demo_annotated) = true)
    by (vm_compute; reflexivity).
  destruct (select_file_shows_its_pages demo_annotated _ _ 1 _
              Hdir Hnth Hget Hne Hmin Hok) as [_ H].
  destruct H as (st' & E & Hl & Hv & Hval & Hd & _).
  { vm_compute. discriminate. }
  assert (Hax : axis_combo demo_annotated = coronal) by (vm_compute; reflexivity).
  exists st'. split; [exact E|]. rewrite Hl.
  split; [vm_compute; reflexivity|]. split; [exact Hax|].
  rewrite Hax in Hv, Hval. split; [exact Hv|]. split; [exact Hval|].
  rewrite Hd. vm_compute. reflexivity.
Defined.

(** *** Start-up *)

Lemma annotations_file_ok_not_image (d : Disk) (dir : pystr) :
  annotations_file_ok d dir = true ->
  forall w, disk_get (path_join dir (u "annotations.json")) d <> Some (Nifti w).
Proof.
  unfold annotations_file_ok. intros H w E. rewrite E, andb_false_r in H.
  discriminate H.
Qed.

Lemma load_existing_annotations_startup (st : NiiExplorer) (dir : pystr) :
  folder st = Some dir ->
  (forall w, disk_get (path_join dir (u "annotations.json")) (disk st)
             <> Some (Nifti w)) ->
  exists st',
    load_existing_annotations st = Ok st' /\
    st' = set_stdout (stdout st') (set_annotations (annotations st') st) /\
    (annotations st' = startup_store (disk st) dir \/
     annotations st' = annotations st).
Proof.
  intros Hdir Hann. unfold load_existing_annotations, startup_store. rewrite Hdir.
  destruct (disk_get (path_join dir (u "annotations.json")) (disk st))
    as [[w|t]|] eqn:E.
  - destruct (Hann w eq_refl).
  - destruct (json_loads t) as [ann|].
    + eexists. split; [reflexivity|]. split; [reflexivity|]. left. reflexivity.
    + eexists. split; [reflexivity|]. split; [destruct st; reflexivity|].
      right. reflexivity.
  - exists st. split; [reflexivity|]. split; [destruct st; reflexivity|].
    right. reflexivity.
Qed.

Lemma startup_loaded
    (d : Disk) (choice f : pystr) (rest : list pystr) (v : Volume) :
  choice <> [] ->
  sorted_strs (filter is_nii (listdir choice d)) = f :: rest ->
  disk_get (path_join choice f) d = Some (Nifti v) ->
  nonempty v ->
  (forall w, disk_get (path_join choice (u "annotations.json")) d <> Some (Nifti w)) ->
  exists st,
    NiiExplorer_init d choice = Ok st /\
    file_list st = {| items := f :: rest; currentRow := Some 0%nat |} /\
    viewing v axial st /\
    value (slice_slider st) = (shape2 v - 1) / 2 /\
    zoom_spin st = 100 /\
    axis_combo st = axial /\
    annotation_display st = Some (blank_display f) /\
    annotations st = startup_store d choice /\
    folder st = Some choice /\
    disk st = d.
Proof.
  intros Hch Hnames Hget Hne Hann.
  unfold NiiExplorer_init, open_folder.
  destruct choice as [|c choice]; [contradiction Hch; reflexivity|].
  set (dir := c :: choice) in *.
  unfold load_files. fold is_nii. cbn [disk init_ui]. rewrite Hnames.
  unfold file_list_setCurrentRow.
  cbn [file_list set_file_list items currentRow length Nat.ltb Nat.leb].
  set (st0 := set_file_list {| items := f :: rest; currentRow := Some 0%nat |} _).
  change (currentItem {| items := f :: rest; currentRow := Some 0%nat |})
    with (Some f).
  destruct (on_file_changed_loaded dir f v st0)
    as (st1 & Hrun & Hview & Hval & Hdsp & A1 & A2 & A3 & A4 & A5 & A6 & A7);
    [reflexivity | exact Hget | exact Hne | reflexivity | reflexivity |].
  rewrite Hrun. cbn [bind].
  destruct (load_existing_annotations_startup st1 dir)
    as (st2 & Hload & Hst2 & Hstore).
  { rewrite A2. reflexivity. }
  { rewrite A4. exact Hann. }
  rewrite Hload. exists st2. split; [reflexivity|].
  assert (Hstore' : annotations st2 = startup_store d dir).
  { destruct Hstore as [H|H]; [rewrite H, A4; reflexivity|].
    rewrite H, A3. unfold startup_store.
    unfold load_existing_annotations in Hload. rewrite A2 in Hload.
    cbn [folder st0 set_file_list set_folder] in Hload. rewrite A4 in Hload.
    cbn [disk st0 set_file_list set_folder init_ui] in Hload.
    destruct (disk_get (path_join dir (u "annotations.json")) d) as [[w|t]|];
      try reflexivity.
    destruct (json_loads t) as [ann|]; [|reflexivity].
    injection Hload as <-. cbn [annotations set_annotations] in H.
    rewrite A3 in H. symmetry. exact H. }
  rewrite Hst2.
  cbn [file_list viewing zoom_spin axis_combo annotation_display annotations
       folder disk set_stdout set_annotations slice_slider].
  rewrite A1, A2, A4, A5, A6, Hdsp. split; [reflexivity|].
  split.
  { apply (viewing_frame v axial st1); [exact Hview | reflexivity..]. }
  split; [exact Hval|]. split; [reflexivity|]. split; [reflexivity|].
  split; [reflexivity|]. split; [|split; reflexivity].
  rewrite Hst2 in Hstore'. exact Hstore'.
Qed.

(** X3.  Start-up when the dialog returns a folder whose first scan name
    in sorted order decodes to a non-empty volume, and whose annotations
    file can be read (nothing stands at its path, neither a file nor a
    directory, or a text within the limits of the decoder): the window
    opens, the list holds the sorted names with the first one current,
    and that volume is viewed along the axial axis at the midpoint
    [(shape[2] - 1) // 2] with zoom 100. *)
Theorem startup_shows_first_scan
    (d : Disk) (choice f : pystr) (rest : list pystr) (v : Volume) :
  choice <> [] ->
  sorted_strs (filter is_nii (listdir choice d)) = f :: rest ->
  disk_get (path_join choice f) d = Some (Nifti v) ->
  nonempty v ->
  annotations_file_ok d choice = true ->
  exists st,
    NiiExplorer_init d choice = Ok st /\
    file_list st = {| items := f :: rest; currentRow := Some 0%nat |} /\
    viewing v axial st /\
    value (slice_slider st) = (shape2 v - 1) / 2 /\
    zoom_spin st = 100 /\
    folder st = Some choice /\
    disk st = d.
Proof.
  intros Hch Hnames Hget Hne Hann.
  destruct (startup_loaded d choice f rest v Hch Hnames Hget Hne
              (annotations_file_ok_not_image d choice Hann))
    as (st & H1 & H2 & H3 & H4 & H5 & _ & _ & _ & H9 & H10).
  exists st. repeat split; try assumption; apply H3.
Qed.

Lemma startup_shows_first_scan_witness :
  exists st,
    NiiExplorer_init demo_disk2 (u "/scans") = Ok st /\
    items (file_list st) = [u "a.nii"; u "b.nii"] /\
    viewing demo_volume axial st /\
    value (slice_slider st) = 14.
Proof.
  assert (Hch : u "/scans" <> []) by discriminate.
  assert (Hnames : sorted_strs (filter is_nii (listdir (u "/scans") demo_disk2))
                   = [u "a.nii"; u "b.nii"]) by (vm_compute; reflexivity).
  assert (Hget : disk_get (path_join (u "/scans") (u "a.nii")) demo_disk2
                 = Some (Nifti demo_volume)) by (vm_compute; reflexivity).
  assert (Hne : nonempty demo_volume) by (unfold nonempty; cbn; lia).
  assert (Hann : annotations_file_ok demo_disk2 (u "/scans") = true)
    by (vm_compute; reflexivity).
  destruct (startup_shows_first_scan demo_disk2 _ _ _ _ Hch Hnames Hget Hne Hann)
    as (st & E & Hl & Hv & Hval & _).
  exists st. split; [exact E|]. rewrite Hl. split; [reflexivity|].
  split; [exact Hv | exact Hval].
Defined.

(** X4.  At start-up the first file is displayed before the annotations
    file is read, and the display is not refreshed afterwards: the store
    is what the file decodes to, yet the display shows N/A for all three
    axes of the current file. *)
Theorem startup_display_ignores_loaded_store
    (d : Disk) (choice f t : pystr) (rest : list pystr) (v : Volume) (ann : Json) :
  choice <> [] ->
  sorted_strs (filter is_nii (listdir choice d)) = f :: rest ->
  disk_get (path_join choice f) d = Some (Nifti v) ->
  nonempty v ->
  disk_get (path_join choice (u "annotations.json")) d = Some (Text t) ->
  json_loads t = Some ann ->
  exists st,
    NiiExplorer_init d choice = Ok st /\
    annotations st = ann /\
    currentItem (file_list st) = Some f /\
    annotation_display st = Some (blank_display f).
Proof.
  intros Hch Hnames Hget Hne Hfile Hparse.
  destruct (startup_loaded d choice f rest v Hch Hnames Hget Hne)
    as (st & H1 & H2 & _ & _ & _ & _ & H7 & H8 & _).
  { intros w. rewrite Hfile. discriminate. }
  exists st. split; [exact H1|]. split; [|split; [|exact H7]].
  - rewrite H8. unfold startup_store. rewrite Hfile, Hparse. reflexivity.
  - rewrite H2. reflexivity.
Qed.

Lemma startup_display_ignores_loaded_store_witness :
  exists st,
    NiiExplorer_init annotated_disk (u "/scans") = Ok st /\
    pages_of (annotations st) (u "a.nii") axial = [3; 27] /\
    annotation_display st = Some (blank_display (u "a.nii")) /\
    display_of (annotations st) (u "a.nii") <> blank_display (u "a.nii").
Proof.
  assert (Hch : u "/scans" <> []) by discriminate.
  assert (Hnames : sorted_strs (filter is_nii (listdir (u "/scans") annotated_disk))
                   = [u "a.nii"; u "b.nii"]) by (vm_compute; reflexivity).
  assert (Hget : disk_get (path_join (u "/scans") (u "a.nii")) annotated_disk
                 = Some (Nifti demo_volume)) by (vm_compute; reflexivity).
  assert (Hne : nonempty demo_volume) by (unfold nonempty; cbn; lia).
  assert (Hfile : disk_get (path_join (u "/scans") (u "annotations.json")) annotated_disk
                  = Some (Text (json_text
                       "{'a.nii': {'axial': [3, 27], 'coronal': [9], 'sagittal': []}}")))
    by (vm_compute; reflexivity).
  assert (Hparse : json_loads (json_text
                       "{'a.nii': {'axial': [3, 27], 'coronal': [9], 'sagittal': []}}")
                   = Some (JDict [(u "a.nii",
                                   JDict [(u "axial", JList [JInt 3; JInt 27]);
                                          (u "coronal", JList [JInt 9]);
                                          (u "sagittal", JList [])])]))
    by (vm_compute; reflexivity).
  destruct (startup_display_ignores_loaded_store annotated_disk _ _ _ _ _ _
              Hch Hnames Hget Hne Hfile Hparse) as (st & E & Hs & _ & Hd).
  exists st. split; [exact E|]. rewrite Hs. split; [vm_compute; reflexivity|].
  split; [exact Hd|]. vm_compute. discriminate.
Defined.

(** *** A folder without scans *)

Lemma filter_none {A : Type} (p : A -> bool) (l : list A) :
  (forall x, In x l -> p x = false) -> filter p l = [].
Proof.
  induction l as [|x l IH]; intros H; [reflexivity|].
  cbn. rewrite (H x (or_introl eq_refl)). apply IH.
  intros y Hy. apply H. right. exact Hy.
Qed.

Lemma zoom_unloaded (z : Z) (st : NiiExplorer) :
  data st = None ->
  Z.max 10 (Z.min 500 z) <> zoom_spin st ->
  zoom_spin_setValue z st =
    Raise match axis st with
          | None => AttributeError
          | Some _ => TypeError
          end.
Proof.
  intros Hd Hz. unfold zoom_spin_setValue.
  destruct (Z.eqb_spec (Z.max 10 (Z.min 500 z)) (zoom_spin st)); [contradiction|].
  unfold update_view. cbn [axis data set_zoom_spin]. rewrite Hd.
  destruct (axis st); reflexivity.
Qed.

(** X5.  Start-up when the dialog returns a folder without any name that
    ends in .nii or .nii.gz, and whose annotations file can be read
    (nothing stands at its path, neither a file nor a directory, or a
    text within the limits of the decoder), completes with an empty list,
    no volume, no figure and the slider disabled.  In that session
    confirm, export-current and row selection do nothing, and every
    change of the zoom raises [AttributeError]: [update_view] reads
    [self.axis], which was never assigned. *)
Theorem empty_folder_stays_unloaded (d : Disk) (choice : pystr) :
  choice <> [] ->
  (forall n, In n (listdir choice d) -> is_nii n = false) ->
  annotations_file_ok d choice = true ->
  exists st,
    NiiExplorer_init d choice = Ok st /\
    unloaded st /\
    items (file_list st) = [] /\
    figure st = None /\
    annotation_display st = None /\
    annotate_page st = Ok st /\
    export_current_annotation st = Ok st /\
    (forall row, file_list_setCurrentRow row st = Ok st) /\
    (forall z, Z.max 10 (Z.min 500 z) <> 100 ->
       zoom_spin_setValue z st = Raise AttributeError).
Proof.
  intros Hch Hnone Hann.
  pose proof (annotations_file_ok_not_image _ _ Hann) as Hnim. clear Hann.
  rename Hnim into Hann.
  unfold NiiExplorer_init, open_folder.
  destruct choice as [|c choice]; [contradiction Hch; reflexivity|].
  set (dir := c :: choice) in *.
  unfold load_files. fold is_nii. cbn [disk init_ui].
  rewrite (filter_none is_nii _ Hnone). cbn [sorted_strs fold_right bind].
  set (st1 := set_file_list _ _).
  destruct (load_existing_annotations_startup st1 dir)
    as (st2 & Hload & Hst2 & _); [reflexivity | exact Hann |].
  rewrite Hload. exists st2. split; [reflexivity|].
  assert (Hcur : currentItem (file_list st2) = None) by (rewrite Hst2; reflexivity).
  split; [rewrite Hst2; split; reflexivity|].
  split; [rewrite Hst2; reflexivity|].
  split; [rewrite Hst2; reflexivity|].
  split; [rewrite Hst2; reflexivity|].
  split; [unfold annotate_page; rewrite Hcur; reflexivity|].
  split; [unfold export_current_annotation; rewrite Hcur; reflexivity|].
  split.
  - intros row. unfold file_list_setCurrentRow. rewrite Hst2.
    cbn [file_list set_stdout set_annotations st1 set_file_list items currentRow length].
    rewrite (proj2 (Nat.ltb_ge row 0) (Nat.le_0_l row)). reflexivity.
  - intros z Hz.
    rewrite (zoom_unloaded z st2); [rewrite Hst2; reflexivity | rewrite Hst2; reflexivity |].
    rewrite Hst2. exact Hz.
Qed.

Lemma empty_folder_stays_unloaded_witness :
  exists st,
    NiiExplorer_init notes_disk (u "/scans") = Ok st /\
    unloaded st /\
    zoom_spin_setValue 150 st = Raise AttributeError.
Proof.
  assert (Hch : u "/scans" <> []) by discriminate.
  assert (Hnone : forall n, In n (listdir (u "/scans") notes_disk) -> is_nii n = false).
  { intros n [<-|[]]. vm_compute. reflexivity. }
  assert (Hann : annotations_file_ok notes_disk (u "/scans") = true)
    by (vm_compute; reflexivity).
  destruct (empty_folder_stays_unloaded notes_disk _ Hch Hnone Hann)
    as (st & E & Hu & _ & _ & _ & _ & _ & _ & Hz).
  exists st. split; [exact E|]. split; [exact Hu|]. apply Hz. vm_compute. discriminate.
Defined.

(** ** Sessions that never raise: proofs *)













(** ** Runs of confirmations and the reach of each event: proofs *)

Lemma ascending_ext (l1 l2 : list Z) :
  ascending l1 = true -> ascending l2 = true ->
  (forall z, In z l1 <-> In z l2) -> l1 = l2.
Proof.
  revert l2. induction l1 as [|x l1 IH]; intros [|y l2] H1 H2 Hext.
  - reflexivity.
  - destruct (proj2 (Hext y) (or_introl eq_refl)).
  - destruct (proj1 (Hext x) (or_introl eq_refl)).
  - pose proof (ascending_head_lt x l1 H1) as Hx.
    pose proof (ascending_head_lt y l2 H2) as Hy.
    assert (E : x = y).
    { destruct (proj1 (Hext x) (or_introl eq_refl)) as [E|Hin]; [symmetry; exact E|].
      destruct (proj2 (Hext y) (or_introl eq_refl)) as [E|Hin']; [exact E|].
      specialize (Hx y Hin'). specialize (Hy x Hin). lia. }
    subst y. f_equal.
    apply IH; [exact (ascending_tail _ _ H1) | exact (ascending_tail _ _ H2) |].
    intros z. split; intros Hz.
    + destruct (proj1 (Hext z) (or_intror Hz)) as [E|Hin]; [|exact Hin].
      specialize (Hx z Hz). lia.
    + destruct (proj2 (Hext z) (or_intror Hz)) as [E|Hin]; [|exact Hin].
      specialize (Hy z Hz). lia.
Qed.

(** The pages a run of confirmations leaves: those that were there and
    those that were confirmed. *)
Lemma confirm_seq_pages (ops : list (pystr * Axis * Z)) (ann : Json) :
  store_okb ann = true ->
  exists ann',
    confirm_seq ops ann = Ok ann' /\
    store_okb ann' = true /\
    forall h c z,
      In z (pages_of ann' h c) <-> In (h, c, z) ops \/ In z (pages_of ann h c).
Proof.
  revert ann. induction ops as [|[[f a] i] ops IH]; intros ann Hok.
  - exists ann. split; [reflexivity|]. split; [exact Hok|]. intros h c z. cbn. tauto.
  - destruct (confirm_pages f a i ann Hok) as (ann1 & E & Hok1 & _ & Hin & Hother & _).
    destruct (IH ann1 Hok1) as (ann' & Hrun & Hok' & Hspec).
    exists ann'. cbn [confirm_seq]. rewrite E. cbn [bind].
    split; [exact Hrun|]. split; [exact Hok'|].
    intros h c z. rewrite Hspec. cbn [In].
    destruct (list_eq_dec N.eq_dec h f) as [->|Hh].
    + destruct (Axis_eq_dec c a) as [->|Hc].
      * rewrite Hin. split.
        -- intros [H|[->|H]]; auto.
        -- intros [[H|H]|H]; auto. injection H as <-. auto.
      * rewrite (Hother f c (or_intror Hc)). split.
        -- intros [H|H]; auto.
        -- intros [[H|H]|H]; auto. injection H as H _. symmetry in H. contradiction.
    + rewrite (Hother h c (or_introl Hh)). split.
      * intros [H|H]; auto.
      * intros [[H|H]|H]; auto. injection H as H _ _. symmetry in H. contradiction.
Qed.

(** X9.  From a well-shaped store any run of confirmations completes,
    and the pages it leaves for a file and an axis are those that were
    there plus those confirmed for that file and axis.  A run of the same
    confirmations in another order, or with repetitions, leaves the same
    pages. *)
Theorem confirm_seq_collects_pages (ops : list (pystr * Axis * Z)) (ann : Json) :
  store_okb ann = true ->
  exists ann1,
    confirm_seq ops ann = Ok ann1 /\
    (forall h c z,
       In z (pages_of ann1 h c) <-> In (h, c, z) ops \/ In z (pages_of ann h c)) /\
    (forall ops',
       (forall op, In op ops' <-> In op ops) ->
       exists ann2,
         confirm_seq ops' ann = Ok ann2 /\
         forall h c, pages_of ann2 h c = pages_of ann1 h c).
Proof.
  intros Hok.
  destruct (confirm_seq_pages ops ann Hok) as (ann1 & E1 & Hok1 & H1).
  exists ann1. split; [exact E1|]. split; [exact H1|].
  intros ops' Hsame.
  destruct (confirm_seq_pages ops' ann Hok) as (ann2 & E2 & Hok2 & H2).
  exists ann2. split; [exact E2|]. intros h c.
  apply ascending_ext; try (apply pages_of_ascending; assumption).
  intros z. rewrite H1, H2, Hsame. reflexivity.
Qed.

Lemma confirm_seq_collects_pages_witness :
  exists ann1 ann2,
    confirm_seq [(u "a.nii", axial, 5); (u "b.nii", coronal, 2); (u "a.nii", axial, 1)]
                (JDict []) = Ok ann1 /\
    confirm_seq [(u "a.nii", axial, 1); (u "a.nii", axial, 5); (u "b.nii", coronal, 2);
                 (u "a.nii", axial, 5)]
                (JDict []) = Ok ann2 /\
    pages_of ann1 (u "a.nii") axial = [1; 5] /\
    pages_of ann2 (u "a.nii") axial = [1; 5] /\
    pages_of ann2 (u "b.nii") coronal = [2].
Proof.
  destruct (confirm_seq_collects_pages
              [(u "a.nii", axial, 5); (u "b.nii", coronal, 2); (u "a.nii", axial, 1)]
              (JDict []) eq_refl) as (ann1 & E1 & _ & H).
  destruct (H [(u "a.nii", axial, 1); (u "a.nii", axial, 5); (u "b.nii", coronal, 2);
               (u "a.nii", axial, 5)]) as (ann2 & E2 & Hsame).
  { intros op. cbn [In]. tauto. }
  exists ann1, ann2. split; [exact E1|]. split; [exact E2|].
  rewrite !Hsame.
  assert (E : confirm_seq [(u "a.nii", axial, 5); (u "b.nii", coronal, 2);
                           (u "a.nii", axial, 1)] (JDict []) = Ok ann1) by exact E1.
  vm_compute in E. injection E as <-. repeat split.
Defined.

Lemma non_mapping_store_raises_witness :
  annotations misshapen_session = JList [JInt 1; JInt 2] /\
  annotate_page misshapen_session = Raise TypeError /\
  export_current_annotation misshapen_session = Raise AttributeError.
Proof.
  split; [vm_compute; reflexivity|].
  assert (Hcur : currentItem (file_list misshapen_session) = Some (u "a.nii"))
    by (vm_compute; reflexivity).
  assert (Hnd : forall d, annotations misshapen_session <> JDict d)
    by (intros d; vm_compute; discriminate).
  destruct (non_mapping_store_raises misshapen_session _ Hcur Hnd) as (H1 & _ & H3 & _).
  split; [exact H1 | exact H3].
Defined.

(** Close a frame goal from [same_rest s st'], where [s] is [st] with
    some widget set. *)
Ltac frame_of H :=
  let A1 := fresh in let A2 := fresh in let A3 := fresh in
  let A7 := fresh in let A8 := fresh in
  destruct H as (A1 & A2 & A3 & _ & _ & _ & A7 & A8);
  cbn in A1, A2, A3, A7, A8;
  rewrite A1, A2, A3, A7, A8; repeat split.

(** X15.  An event that completes never changes the folder, the names
    in the list or the printed output; only confirm changes the store,
    only the two exports change the disk, and only a row selection
    changes the file list widget. *)
Theorem events_write_only_their_part (e : event) (st st' : NiiExplorer) :
  step e st = Ok st' ->
  folder st' = folder st /\
  items (file_list st') = items (file_list st) /\
  stdout st' = stdout st /\
  (e <> Confirm -> annotations st' = annotations st) /\
  (e <> ExportCurrent -> e <> ExportAll -> disk st' = disk st) /\
  ((forall row, e <> SelectFile row) -> file_list st' = file_list st).
Proof.
  intros H.
  destruct e as [a|i|delta|z|row| | |]; cbn [step] in H.
  - unfold axis_combo_select in H.
    destruct (Axis_eqb a (axis_combo st)).
    { injection H as <-. repeat split. }
    unfold on_axis_changed in H. cbn [data set_axis set_axis_combo] in H.
    destruct (data st).
    + destruct (update_slider _) as [s1| |] eqn:H1; try discriminate H.
      cbn [bind] in H. apply update_slider_same_rest in H1.
      apply update_view_same_rest in H.
      pose proof (same_rest_trans _ _ _ H1 H) as Hf. frame_of Hf.
    + injection H as <-. repeat split.
  - unfold slider_drag in H. destruct (enabled (slice_slider st)).
    + apply slider_setValue_same_rest in H. frame_of H.
    + injection H as <-. repeat split.
  - unfold wheelEvent in H. destruct (data st).
    + destruct (negb (enabled (slice_slider st))).
      * injection H as <-. repeat split.
      * apply slider_setValue_same_rest in H. frame_of H.
    + injection H as <-. repeat split.
  - unfold zoom_spin_setValue in H.
    destruct (Z.max 10 (Z.min 500 z) =? zoom_spin st).
    + injection H as <-. repeat split.
    + apply update_view_same_rest in H. frame_of H.
  - assert (Hfile : forall w,
               items w = items (file_list st) ->
               on_file_changed (currentItem w) (set_file_list w st) = Ok st' ->
               folder st' = folder st /\
               items (file_list st') = items (file_list st) /\
               stdout st' = stdout st /\
               (SelectFile row <> Confirm -> annotations st' = annotations st) /\
               (SelectFile row <> ExportCurrent -> SelectFile row <> ExportAll ->
                disk st' = disk st) /\
               ((forall row', SelectFile row <> SelectFile row') ->
                file_list st' = file_list st)).
    { intros w Hw E. apply on_file_changed_frame in E.
      destruct E as (A1 & A2 & A3 & A4 & _ & _ & A7).
      rewrite A1, A2, A3, A4, A7. cbn [file_list set_file_list].
      repeat split; try exact Hw.
      intros Hne. destruct (Hne row eq_refl). }
    unfold file_list_setCurrentRow in H.
    destruct (if (row <? length (items (file_list st)))%nat then Some row else None)
      as [r|]; destruct (currentRow (file_list st)) as [r'|];
      try (refine (Hfile _ _ H); reflexivity).
    + destruct (r =? r')%nat; [|refine (Hfile _ _ H); reflexivity].
      injection H as <-. repeat split.
    + injection H as <-. repeat split.
  - unfold annotate_page, update_annotation_display in H.
    destruct (currentItem (file_list st)) as [f|] eqn:Hcur.
    2:{ injection H as <-. repeat split. }
    destruct (confirm f _ _ _) as [ann| |]; try discriminate H.
    cbn [bind file_list set_annotations annotations] in H. rewrite Hcur in H.
    destruct (describe ann f) as [pages| |]; try discriminate H.
    cbn [bind] in H. injection H as <-. repeat split.
    intros Hne. destruct (Hne eq_refl).
  - unfold export_current_annotation in H.
    destruct (currentItem (file_list st)) as [f|].
    2:{ injection H as <-. repeat split. }
    destruct (py_get (annotations st) f JNull) as [r| |]; try discriminate H.
    cbn [bind] in H.
    destruct (py_truthy r) as [[|]| |]; try discriminate H; cbn [bind] in H.
    2:{ injection H as <-. repeat split. }
    destruct (folder st) as [dir|] eqn:Hdir; [|discriminate H].
    destruct (json_dumps (JDict [(f, r)])) as [t| |]; try discriminate H.
    cbn [bind] in H. injection H as <-. repeat split; try exact Hdir.
    intros Hne. destruct (Hne eq_refl).
  - unfold save_annotations in H.
    destruct (folder st) as [dir|] eqn:Hdir; [|discriminate H].
    destruct (json_dumps (annotations st)) as [t| |]; try discriminate H.
    cbn [bind] in H. injection H as <-. repeat split; try exact Hdir.
    intros _ Hne. destruct (Hne eq_refl).
Qed.

Lemma events_write_only_their_part_witness :
  exists st',
    step (SelectAxis sagittal) demo_annotated = Ok st' /\
    annotations st' = annotations demo_annotated /\
    disk st' = disk demo_annotated.
Proof.
  destruct (step (SelectAxis sagittal) demo_annotated) as [st'| |] eqn:E;
    try (vm_compute in E; discriminate E).
  exists st'. split; [reflexivity|].
  destruct (events_write_only_their_part _ _ _ E) as (_ & _ & _ & Ha & Hd & _).
  split; [apply Ha | apply Hd]; discriminate.
Defined.

(** ** The wheel: proofs *)

(** One wheel event while a volume is viewed. *)
Lemma wheelEvent_viewing (v : Volume) (a : Axis) (delta : Z) (st : NiiExplorer) :
  viewing v a st ->
  let target := Z.max 0 (Z.min (value (slice_slider st)
                                + (if 0 <? delta then 1 else -1))
                               (extent v a - 1)) in
  wheelEvent delta st =
    Ok (if target =? value (slice_slider st) then st else moved_to v a target st) /\
  viewing v a (if target =? value (slice_slider st) then st
               else moved_to v a target st).
Proof.
  intros Hv target. pose proof Hv as (Hd & Ha & Hmin & Hmax & Hen & Hr & Hfig).
  unfold wheelEvent. rewrite Hd, Hen. cbn [negb].
  rewrite (slider_setValue_loaded v a _ st Hd Ha) by lia.
  unfold bound. rewrite Hmin, Hmax.
  assert (E : Z.max 0 (Z.min (extent v a - 1)
                 (Z.max 0 (Z.min (value (slice_slider st)
                                  + (if 0 <? delta then 1 else -1))
                                 (extent v a - 1)))) = target).
  { unfold target. lia. }
  rewrite E. split; [reflexivity|].
  destruct (target =? value (slice_slider st)); [exact Hv|].
  apply viewing_moved_to; try assumption. unfold target. lia.
Qed.

(** X16.  One wheel event while a volume is viewed moves the slider by
    exactly one slice, whatever the size of [delta]: up for a positive
    [delta], down for a zero or negative one.  At the last slice a wheel
    up, and at slice 0 a wheel down, leave the whole session as it is.  A
    wheel up followed by a wheel down comes back to the same slice and
    the same figure. *)
Theorem wheel_steps_one_slice (v : Volume) (a : Axis) (st : NiiExplorer) :
  viewing v a st ->
  let i := value (slice_slider st) in
  (forall delta, 0 < delta -> i = extent v a - 1 -> wheelEvent delta st = Ok st) /\
  (forall delta, delta <= 0 -> i = 0 -> wheelEvent delta st = Ok st) /\
  (forall delta, 0 < delta -> i < extent v a - 1 ->
     wheelEvent delta st = Ok (moved_to v a (i + 1) st)) /\
  (forall delta, delta <= 0 -> 0 < i ->
     wheelEvent delta st = Ok (moved_to v a (i - 1) st)) /\
  (forall up down, 0 < up -> down <= 0 -> i < extent v a - 1 ->
     exists st1 st2,
       wheelEvent up st = Ok st1 /\
       wheelEvent down st1 = Ok st2 /\
       value (slice_slider st2) = i /\
       figure st2 = figure st).
Proof.
  intros Hv i. pose proof Hv as (Hd & Ha & Hmin & Hmax & Hen & Hr & Hfig).
  fold i in Hr.
  assert (Hup : forall delta, 0 < delta -> i < extent v a - 1 ->
                  wheelEvent delta st = Ok (moved_to v a (i + 1) st)).
  { intros delta Hdl Hi.
    destruct (wheelEvent_viewing v a delta st Hv) as [E _]. rewrite E.
    fold i. destruct (Z.ltb_spec 0 delta); [|lia].
    replace (Z.max 0 (Z.min (i + 1) (extent v a - 1))) with (i + 1) by lia.
    destruct (Z.eqb_spec (i + 1) i); [lia | reflexivity]. }
  assert (Hdown : forall delta s j, viewing v a s -> value (slice_slider s) = j ->
                    delta <= 0 -> 0 < j ->
                    wheelEvent delta s = Ok (moved_to v a (j - 1) s)).
  { intros delta s j Hs Hj Hdl Hpos.
    destruct (wheelEvent_viewing v a delta s Hs) as [E _]. rewrite E, Hj.
    destruct Hs as (_ & _ & _ & _ & _ & Hrs & _). rewrite Hj in Hrs.
    destruct (Z.ltb_spec 0 delta); [lia|].
    replace (Z.max 0 (Z.min (j + -1) (extent v a - 1))) with (j - 1) by lia.
    destruct (Z.eqb_spec (j - 1) j); [lia | reflexivity]. }
  split; [|split; [|split; [|split]]].
  - intros delta Hdl Hi.
    destruct (wheelEvent_viewing v a delta st Hv) as [E _]. rewrite E. fold i.
    destruct (Z.ltb_spec 0 delta); [|lia].
    replace (Z.max 0 (Z.min (i + 1) (extent v a - 1))) with i by lia.
    rewrite Z.eqb_refl. reflexivity.
  - intros delta Hdl Hi.
    destruct (wheelEvent_viewing v a delta st Hv) as [E _]. rewrite E. fold i.
    destruct (Z.ltb_spec 0 delta); [lia|].
    replace (Z.max 0 (Z.min (i + -1) (extent v a - 1))) with i by lia.
    rewrite Z.eqb_refl. reflexivity.
  - exact Hup.
  - intros delta Hdl Hi. exact (Hdown delta st i Hv eq_refl Hdl Hi).
  - intros up down Hu Hdn Hi.
    exists (moved_to v a (i + 1) st).
    exists (moved_to v a (i + 1 - 1) (moved_to v a (i + 1) st)).
    split; [exact (Hup up Hu Hi)|].
    split.
    { apply Hdown; [|reflexivity|exact Hdn|lia].
      apply viewing_moved_to; try assumption. lia. }
    split; [cbn; lia|].
    rewrite Hfig. cbn. unfold view_of. cbn. f_equal. f_equal. fold i. lia.
Qed.

Lemma wheel_steps_one_slice_witness :
  value (slice_slider demo_session) = 14 /\
  (exists st1, wheelEvent 0 demo_session = Ok st1 /\ value (slice_slider st1) = 13) /\
  (exists st1, wheelEvent 120 demo_session = Ok st1 /\ value (slice_slider st1) = 15).
Proof.
  assert (Hv : viewing demo_volume axial demo_session).
  { unfold viewing. repeat split; vm_compute; try reflexivity; discriminate. }
  destruct (wheel_steps_one_slice demo_volume axial demo_session Hv)
    as (_ & _ & Hup & Hdown & _).
  split; [vm_compute; reflexivity|]. split.
  - eexists. split; [apply Hdown; vm_compute; [discriminate | reflexivity]|].
    vm_compute. reflexivity.
  - eexists. split; [apply Hup; vm_compute; reflexivity|].
    vm_compute. reflexivity.
Defined.
